(** * Retail App API: a shallow embedding of [main.py] and [schemas.py]

    The request handlers of the retail backend are embedded as functions
    over an explicit document store.  Python dictionaries are finite maps
    from field names to values, [float] is IEEE binary64, [int] is [Z],
    exceptions are an [outcome], and the store is threaded through every
    handler.  The regular expressions of the store are a parameter: the
    properties hold whatever engine reads them. *)

From Stdlib Require Import ZArith NArith Ascii String List Lia.
From Stdlib Require Import PrimFloat SpecFloat FloatOps.
From stdpp Require Import base option gmap strings list fin_maps.

Local Open Scope string_scope.

(** ** Values held by documents *)

(** [bson.ObjectId]: a string of bytes, kept as the number of bytes and
    the number they spell, first byte highest.  The store hands out
    identifiers of twelve bytes; [ObjectId(text)] can give shorter ones. *)
Record ObjectId := mk_oid {
  oid_len : nat;
  oid_val : N
}.

(** The twelve-byte identifier that spells [n]. *)
Definition oid12 (n : N) : ObjectId := mk_oid 12 n.
Coercion oid12 : N >-> ObjectId.

Definition oid_eqb (a b : ObjectId) : bool :=
  Nat.eqb (oid_len a) (oid_len b) && N.eqb (oid_val a) (oid_val b).

(** A naive [datetime.datetime], kept field by field as Python does. *)
Record datetime := mk_datetime {
  year : N; month : N; day : N;
  hour : N; minute : N; second : N; microsecond : N
}.

#[warnings="-register-all"]
Inductive value :=
| VNone
| VBool (b : bool)
| VInt (n : Z)
| VFloat (x : float)
| VStr (s : string)
| VDate (t : datetime)
| VOid (o : ObjectId)
| VList (l : list value)
| VDict (d : list (string * value)).

(** A Python [dict] with text keys. *)
Abbreviation doc := (gmap string value).

Definition dict (l : list (string * value)) : doc := list_to_map l.

(** ** Exceptions *)

Inductive exn :=
| HTTPException (status_code : N) (detail : string)
| RequestValidationError (errors : list (string * string))
| ValidationError (errors : list (string * string))
| KeyError (key : string)
| OverflowError
| InvalidId
| OperationFailure (msg : string)
| NotModelled (what : string).

Inductive outcome (A : Type) :=
| Ok (a : A)
| Raise (e : exn).
Arguments Ok {A} & a.
Arguments Raise {A} e.

Definition is_Ok {A} (r : outcome A) : bool :=
  match r with Ok _ => true | Raise _ => false end.

(** The status FastAPI answers with when a handler ends in [e]. *)
Definition http_status (e : exn) : N :=
  match e with
  | HTTPException c _ => c
  | RequestValidationError _ => 422
  | _ => 500
  end.

(** ** Text helpers *)

Definition in_range (lo hi : N) (c : ascii) : bool :=
  ((lo <=? N_of_ascii c) && (N_of_ascii c <=? hi))%N.

Definition digit_char (d : N) : ascii := ascii_of_N (48 + d).

(** [n] in decimal, zero padded and cut to [w] digits ([%0wd]). *)
Fixpoint decimal (w : nat) (n : N) : string :=
  match w with
  | O => ""
  | S w' => decimal w' (n / 10) ++ String (digit_char (n mod 10)) ""
  end.

Definition hex_char (d : N) : ascii :=
  if (d <? 10)%N then ascii_of_N (48 + d) else ascii_of_N (87 + d).

Definition hex_val (c : ascii) : option N :=
  let n := N_of_ascii c in
  if ((48 <=? n) && (n <=? 57))%N then Some (n - 48)%N
  else if ((97 <=? n) && (n <=? 102))%N then Some (n - 87)%N
  else if ((65 <=? n) && (n <=? 70))%N then Some (n - 55)%N
  else None.

(** [n] in lower-case hexadecimal on [w] digits. *)
Fixpoint hex (w : nat) (n : N) : string :=
  match w with
  | O => ""
  | S w' => hex w' (n / 16) ++ String (hex_char (n mod 16)) ""
  end.

Definition ascii_lower (c : ascii) : ascii :=
  let n := N_of_ascii c in
  if ((65 <=? n) && (n <=? 90))%N then ascii_of_N (n + 32) else c.

Fixpoint lower (s : string) : string :=
  match s with
  | "" => ""
  | String c s' => String (ascii_lower c) (lower s')
  end.

(** ** ObjectId and datetime *)

Definition oid_bound : N := 2 ^ 96.

(** [str(oid)]: two lower-case hexadecimal digits for every byte. *)
Definition oid_str (o : ObjectId) : string := hex (2 * oid_len o) (oid_val o).

(** The ASCII white space [bytes.fromhex] skips: tab, line feed, vertical
    tab, form feed, carriage return and space. *)
Definition is_space (c : ascii) : bool := in_range 9 13 c || Ascii.eqb c " ".

(** [bytes.fromhex(s)], after [k] bytes spelling [acc]: white space is
    skipped before a byte, and a byte is two hexadecimal digits next to
    each other; anything else is refused. *)
Fixpoint fromhex (k : nat) (acc : N) (s : string) : option ObjectId :=
  match s with
  | "" => Some (mk_oid k acc)
  | String c s' =>
      if is_space c then fromhex k acc s'
      else
        match hex_val c, s' with
        | Some hi, String c' s'' =>
            match hex_val c' with
            | Some lo => fromhex (S k) (acc * 256 + (hi * 16 + lo)) s''
            | None => None
            end
        | _, _ => None
        end
  end.

(** [ObjectId(s)] for a text: [s] must be 24 characters long and is then
    read by [bytes.fromhex]. *)
Definition ObjectId_of_str (s : string) : option ObjectId :=
  if Nat.eqb (String.length s) 24 then fromhex 0 0 s else None.

(** [datetime.isoformat()] of a naive datetime. *)
Definition isoformat (t : datetime) : string :=
  decimal 4 (year t) ++ "-" ++ decimal 2 (month t) ++ "-" ++ decimal 2 (day t)
  ++ "T" ++ decimal 2 (hour t) ++ ":" ++ decimal 2 (minute t) ++ ":"
  ++ decimal 2 (second t)
  ++ (if (microsecond t =? 0)%N then "" else "." ++ decimal 6 (microsecond t)).

(** [str(v)], for the values an identifier holds here. *)
Definition py_str (v : value) : option string :=
  match v with
  | VOid o => Some (oid_str o)
  | VStr s => Some s
  | _ => None
  end.

(** ** Helpers of main.py *)

(** main.py, [to_object_id]. *)
Definition to_object_id (id_str : string) : outcome ObjectId :=
  match ObjectId_of_str id_str with
  | Some o => Ok o
  | None => Raise (HTTPException 400 "Invalid ID format")
  end.

Definition timestamp_keys : list string := ["created_at"; "updated_at"; "placed_at"].

(** One round of the loop of [serialize_doc]. *)
Definition iso_step (d : doc) (k : string) : doc :=
  match d !! k with
  | Some (VDate t) => <[k := VStr (isoformat t)]> d
  | _ => d
  end.

(** main.py, [serialize_doc]; the argument is [None] or a dict. *)
Definition serialize_doc (d : option doc) : outcome (option doc) :=
  match d with
  | None => Ok None
  | Some d =>
      if decide (d = ∅) then Ok None
      else match d !! "_id" with
           | None => Raise (KeyError "_id")
           | Some i =>
               match py_str i with
               | None => Raise (NotModelled "str")
               | Some s =>
                   Ok (Some (fold_left iso_step timestamp_keys
                               (<["id" := VStr s]> (delete "_id" d))))
               end
           end
  end.

Arguments serialize_doc : simpl never.

(** main.py, [require_admin]; [env_key] is the ADMIN_KEY variable of the
    process environment, [None] when it is unset. *)
Definition getenv_ADMIN_KEY (env_key : option string) : string :=
  default "admin123" env_key.

Definition require_admin (env_key : option string) (admin_key : option string)
  : outcome unit :=
  if decide (admin_key = Some (getenv_ADMIN_KEY env_key)) then Ok tt
  else Raise (HTTPException 401 "Unauthorized: invalid admin key").

(** ** The document store

    Modelled from the spec: database.py ([db], [create_document],
    [get_documents]) and the document database behind it are not part of
    the sources.  The store is the "Document Store Gateway" of the spec:
    per-collection create, find-one, find-many-with-filter, update-one and
    delete-one, each document identified by a unique, store-generated
    identifier.  A collection keeps its documents in insertion order. *)

Record database := mk_db {
  collections : gmap string (list doc);
  next_oid : N
}.

(** [db[name]] *)
Definition coll (s : database) (name : string) : list doc :=
  default [] (collections s !! name).

Definition set_coll (s : database) (name : string) (l : list doc) : database :=
  mk_db (<[name := l]> (collections s)) (next_oid s).

(** Handlers run against the store and end in a value or an exception. *)
Definition M (A : Type) : Type := database → outcome A * database.

Definition ret {A} (a : A) : M A := λ s, (Ok a, s).
Definition raise {A} (e : exn) : M A := λ s, (Raise e, s).
Definition lift {A} (r : outcome A) : M A := λ s, (r, s).
Definition bind {A B} (m : M A) (f : A → M B) : M B :=
  λ s, match m s with
       | (Ok a, s') => f a s'
       | (Raise e, s') => (Raise e, s')
       end.

Notation "'let*' x := m 'in' f" := (bind m (λ x, f))
  (at level 10, x name, m at level 100, f at level 200).
Notation "'do' m 'in' f" := (bind m (λ _, f))
  (at level 10, m at level 100, f at level 200).

Fixpoint mapM {A B} (f : A → outcome B) (l : list A) : outcome (list B) :=
  match l with
  | [] => Ok []
  | a :: l' =>
      match f a with
      | Raise e => Raise e
      | Ok b => match mapM f l' with
                | Raise e => Raise e
                | Ok bs => Ok (b :: bs)
                end
      end
  end.

(** ** Request bodies and their validation

    A field of a request body is absent, [null] or given with a value of
    the declared type. *)

Inductive slot (A : Type) :=
| Absent
| Null
| Given (a : A).
Arguments Absent {A}.
Arguments Null {A}.
Arguments Given {A} a.

(** One entry of a validation error: the field and the kind of error. *)
Definition verr : Type := string * string.

(** [name: T] or [name: T = Field(...)]: required, [null] refused. *)
Definition required {A} (loc ty : string) (f : slot A) : list verr + A :=
  match f with
  | Given a => inr a
  | Absent => inl [(loc, "missing")]
  | Null => inl [(loc, ty)]
  end.

(** [name: Optional[T] = None] *)
Definition optional {A} (f : slot A) : list verr + option A :=
  match f with
  | Given a => inr (Some a)
  | _ => inr None
  end.

(** [name: T = d]: the default when absent, [null] refused. *)
Definition defaulted {A} (loc ty : string) (d : A) (f : slot A) : list verr + A :=
  match f with
  | Given a => inr a
  | Absent => inr d
  | Null => inl [(loc, ty)]
  end.

(** [Field(..., ge=0)] on a float. *)
Definition ge0 (loc : string) (x : float) : list verr + float :=
  if PrimFloat.leb 0 x then inr x else inl [(loc, "greater_than_equal")].

Definition and_then {A B} (r : list verr + A) (f : A → list verr + B)
  : list verr + B :=
  match r with
  | inl e => inl e
  | inr a => f a
  end.

Definition errors_of {A} (r : list verr + A) : list verr :=
  match r with
  | inl e => e
  | inr _ => []
  end.

Definition opt_value {A} (f : A → value) (o : option A) : value :=
  match o with
  | Some a => f a
  | None => VNone
  end.

(** The entries of [model_dump(exclude_none=True)] for an optional field. *)
Definition unless_none {A} (k : string) (f : A → value) (o : option A)
  : list (string * value) :=
  match o with
  | Some a => [(k, f a)]
  | None => []
  end.

(** main.py, [class ProductCreate]. *)
Module ProductCreate.
Record t := mk {
  title : string;
  description : option string;
  price : float;
  currency : string;
  category : string;
  image_url : option string;
  in_stock : bool
}.

Module Body.
Record t := mk {
  title : slot string;
  description : slot string;
  price : slot float;
  currency : slot string;
  category : slot string;
  image_url : slot string;
  in_stock : slot bool
}.
End Body.

Definition validate (b : Body.t) : outcome t :=
  let r1 := required "title" "string_type" (Body.title b) in
  let r2 := optional (Body.description b) in
  let r3 := and_then (required "price" "float_type" (Body.price b)) (ge0 "price") in
  let r4 := defaulted "currency" "string_type" "SYP" (Body.currency b) in
  let r5 := required "category" "string_type" (Body.category b) in
  let r6 := optional (Body.image_url b) in
  let r7 := defaulted "in_stock" "bool_type" true (Body.in_stock b) in
  match r1, r2, r3, r4, r5, r6, r7 with
  | inr a1, inr a2, inr a3, inr a4, inr a5, inr a6, inr a7 =>
      Ok (mk a1 a2 a3 a4 a5 a6 a7)
  | _, _, _, _, _, _, _ =>
      Raise (RequestValidationError
               (errors_of r1 ++ errors_of r2 ++ errors_of r3 ++ errors_of r4
                ++ errors_of r5 ++ errors_of r6 ++ errors_of r7)%list)
  end.
End ProductCreate.

(** main.py, [class ProductUpdate]. *)
Module ProductUpdate.
Record t := mk {
  title : option string;
  description : option string;
  price : option float;
  currency : option string;
  category : option string;
  image_url : option string;
  in_stock : option bool
}.

Module Body.
Record t := mk {
  title : slot string;
  description : slot string;
  price : slot float;
  currency : slot string;
  category : slot string;
  image_url : slot string;
  in_stock : slot bool
}.
End Body.

(** [Optional[float] = Field(None, ge=0)] *)
Definition optional_ge0 (loc : string) (f : slot float)
  : list verr + option float :=
  match f with
  | Given x => and_then (ge0 loc x) (λ y, inr (Some y))
  | _ => inr None
  end.

Definition validate (b : Body.t) : outcome t :=
  let r1 := optional (Body.title b) in
  let r2 := optional (Body.description b) in
  let r3 := optional_ge0 "price" (Body.price b) in
  let r4 := optional (Body.currency b) in
  let r5 := optional (Body.category b) in
  let r6 := optional (Body.image_url b) in
  let r7 := optional (Body.in_stock b) in
  match r1, r2, r3, r4, r5, r6, r7 with
  | inr a1, inr a2, inr a3, inr a4, inr a5, inr a6, inr a7 =>
      Ok (mk a1 a2 a3 a4 a5 a6 a7)
  | _, _, _, _, _, _, _ =>
      Raise (RequestValidationError
               (errors_of r1 ++ errors_of r2 ++ errors_of r3 ++ errors_of r4
                ++ errors_of r5 ++ errors_of r6 ++ errors_of r7)%list)
  end.

(** [payload.model_dump(exclude_none=True)] *)
Definition model_dump_exclude_none (p : t) : list (string * value) :=
  (unless_none "title" VStr (title p)
   ++ unless_none "description" VStr (description p)
   ++ unless_none "price" VFloat (price p)
   ++ unless_none "currency" VStr (currency p)
   ++ unless_none "category" VStr (category p)
   ++ unless_none "image_url" VStr (image_url p)
   ++ unless_none "in_stock" VBool (in_stock p))%list.
End ProductUpdate.

(** schemas.py, [class Product], imported by main.py as [ProductSchema]. *)
Module ProductSchema.
Record t := mk {
  title : string;
  description : option string;
  price : float;
  category : string;
  in_stock : bool;
  image_url : option string
}.

(** [ProductSchema(title=.., description=.., price=.., category=..,
    in_stock=..)]: the constructor checks [price >= 0] again. *)
Definition init (title : string) (description : option string) (price : float)
    (category : string) (in_stock : bool) : outcome t :=
  match ge0 "price" price with
  | inr p => Ok (mk title description p category in_stock None)
  | inl e => Raise (ValidationError e)
  end.

Definition model_dump (p : t) : list (string * value) :=
  [("title", VStr (title p));
   ("description", opt_value VStr (description p));
   ("price", VFloat (price p));
   ("category", VStr (category p));
   ("in_stock", VBool (in_stock p));
   ("image_url", opt_value VStr (image_url p))].
End ProductSchema.

(** main.py, [class CartItem]. *)
Module CartItem.
Record t := mk {
  product_id : string;
  title : string;
  price : float;
  quantity : Z
}.

Definition model_dump (i : t) : list (string * value) :=
  [("product_id", VStr (product_id i));
   ("title", VStr (title i));
   ("price", VFloat (price i));
   ("quantity", VInt (quantity i))].
End CartItem.

(** main.py, [class CustomerInfo]. *)
Module CustomerInfo.
Record t := mk {
  name : string;
  phone : string;
  city : string;
  address : string;
  notes : option string
}.

Definition model_dump (c : t) : list (string * value) :=
  [("name", VStr (name c));
   ("phone", VStr (phone c));
   ("city", VStr (city c));
   ("address", VStr (address c));
   ("notes", opt_value VStr (notes c))].
End CustomerInfo.

(** main.py, [class OrderCreate]. *)
Module OrderCreate.
Record t := mk {
  items : list CartItem.t;
  customer : CustomerInfo.t;
  payment_method : string
}.
End OrderCreate.

(** main.py, [class OrderStatusUpdate]. *)
Module OrderStatusUpdate.
Record t := mk {
  status : string;
  tracking_note : option string
}.

Module Body.
Record t := mk {
  status : slot string;
  tracking_note : slot string
}.
End Body.

Definition validate (b : Body.t) : outcome t :=
  let r1 := required "status" "string_type" (Body.status b) in
  let r2 := optional (Body.tracking_note b) in
  match r1, r2 with
  | inr a1, inr a2 => Ok (mk a1 a2)
  | _, _ => Raise (RequestValidationError (errors_of r1 ++ errors_of r2)%list)
  end.

(** [payload.model_dump(exclude_none=True)] *)
Definition model_dump_exclude_none (p : t) : list (string * value) :=
  (("status", VStr (status p)) :: unless_none "tracking_note" VStr (tracking_note p))%list.
End OrderStatusUpdate.

(** ** Validation of an order-creation body

    The request bodies of [class CartItem], [class CustomerInfo] and
    [class OrderCreate] of main.py.  An error inside an item or inside
    the customer is located by the outer field and the inner one; the
    position of the item in the list is left out. *)

(** [Field(..., ge=1)] on an int. *)
Definition ge1 (loc : string) (n : Z) : list verr + Z :=
  if (1 <=? n)%Z then inr n else inl [(loc, "greater_than_equal")].

(** Errors of a nested model, located under the outer field. *)
Definition nested {A} (outer : string) (r : list verr + A) : list verr + A :=
  match r with
  | inl e => inl (map (λ le : verr, (outer ++ "." ++ fst le, snd le)) e)
  | inr a => inr a
  end.

Module CartItemBody.
Record t := mk {
  product_id : slot string;
  title : slot string;
  price : slot float;
  quantity : slot Z
}.

Definition validate (b : t) : list verr + CartItem.t :=
  let r1 := required "product_id" "string_type" (product_id b) in
  let r2 := required "title" "string_type" (title b) in
  let r3 := required "price" "float_type" (price b) in
  let r4 := and_then (required "quantity" "int_type" (quantity b)) (ge1 "quantity") in
  match r1, r2, r3, r4 with
  | inr a1, inr a2, inr a3, inr a4 => inr (CartItem.mk a1 a2 a3 a4)
  | _, _, _, _ =>
      inl (errors_of r1 ++ errors_of r2 ++ errors_of r3 ++ errors_of r4)%list
  end.

(** [items: List[CartItem]]: every item is validated, all errors kept. *)
Fixpoint validate_list (l : list t) : list verr + list CartItem.t :=
  match l with
  | [] => inr []
  | b :: rest =>
      match validate b, validate_list rest with
      | inr a, inr items => inr (a :: items)
      | r1, r2 => inl (errors_of r1 ++ errors_of r2)%list
      end
  end.
End CartItemBody.

Module CustomerInfoBody.
Record t := mk {
  name : slot string;
  phone : slot string;
  city : slot string;
  address : slot string;
  notes : slot string
}.

Definition validate (b : t) : list verr + CustomerInfo.t :=
  let r1 := required "name" "string_type" (name b) in
  let r2 := required "phone" "string_type" (phone b) in
  let r3 := required "city" "string_type" (city b) in
  let r4 := required "address" "string_type" (address b) in
  let r5 := optional (notes b) in
  match r1, r2, r3, r4, r5 with
  | inr a1, inr a2, inr a3, inr a4, inr a5 => inr (CustomerInfo.mk a1 a2 a3 a4 a5)
  | _, _, _, _, _ =>
      inl (errors_of r1 ++ errors_of r2 ++ errors_of r3 ++ errors_of r4
           ++ errors_of r5)%list
  end.
End CustomerInfoBody.

Module OrderCreateBody.
Record t := mk {
  items : slot (list CartItemBody.t);
  customer : slot CustomerInfoBody.t;
  payment_method : slot string
}.

Definition validate (b : t) : outcome OrderCreate.t :=
  let r1 := and_then (required "items" "list_type" (items b))
              (λ l, nested "items" (CartItemBody.validate_list l)) in
  let r2 := and_then (required "customer" "model_type" (customer b))
              (λ c, nested "customer" (CustomerInfoBody.validate c)) in
  let r3 := defaulted "payment_method" "string_type" "COD" (payment_method b) in
  match r1, r2, r3 with
  | inr a1, inr a2, inr a3 => Ok (OrderCreate.mk a1 a2 a3)
  | _, _, _ =>
      Raise (RequestValidationError (errors_of r1 ++ errors_of r2 ++ errors_of r3)%list)
  end.
End OrderCreateBody.

(** ** Python arithmetic used by the handlers *)

(** The binary64 value nearest to an integer, ties to even (infinite when
    the integer is too large). *)
Definition nearest_float (n : Z) : float :=
  SF2Prim (binary_normalize prec emax n 0 false).

(** The integers Python converts to [float] are those whose nearest
    binary64 value is finite: the ones below [2^1024 - 2^970] in absolute
    value, half way between the largest float and [2^1024]. *)
Definition float_int_bound : Z := 2 ^ 1024 - 2 ^ 970.

(** [float(n)] for an [int], as [price * quantity] converts the
    quantity: the nearest binary64 value, OverflowError ([None]) for an
    integer too large. *)
Definition float_of_int (n : Z) : option float :=
  if (Z.abs n <? float_int_bound)%Z then Some (nearest_float n) else None.

(** [acc + sum(i.price * i.quantity for i in items)], left to right. *)
Fixpoint sum_lines (acc : float) (items : list CartItem.t) : outcome float :=
  match items with
  | [] => Ok acc
  | i :: rest =>
      match float_of_int (CartItem.quantity i) with
      | Some q => sum_lines (PrimFloat.add acc (PrimFloat.mul (CartItem.price i) q)) rest
      | None => Raise OverflowError
      end
  end.

(** [sum(i.price * i.quantity for i in payload.items)]; the start value
    [0] of [sum] becomes [0.0] at the first addition. *)
Definition order_total (items : list CartItem.t) : outcome float :=
  sum_lines 0%float items.

(** Python truth value of an [Optional[str]]. *)
Definition truthy (o : option string) : bool :=
  match o with
  | Some (String _ _) => true
  | _ => false
  end.

(** [not doc] for a result of [find_one]. *)
Definition falsy (d : option doc) : bool :=
  match d with
  | None => true
  | Some d => bool_decide (d = ∅)
  end.

(** [ObjectId(inserted_id)] outside [to_object_id]. *)
Definition ObjectId_new (s : string) : outcome ObjectId :=
  match ObjectId_of_str s with
  | Some o => Ok o
  | None => Raise InvalidId
  end.

(** *** Sorting by placement time *)

Definition dt_fields (t : datetime) : list N :=
  [year t; month t; day t; hour t; minute t; second t; microsecond t].

Fixpoint lex_leb (a b : list N) : bool :=
  match a, b with
  | x :: a', y :: b' =>
      if (x <? y)%N then true
      else if (y <? x)%N then false
      else lex_leb a' b'
  | _, _ => true
  end.

Definition dt_leb (a b : datetime) : bool := lex_leb (dt_fields a) (dt_fields b).

(** [d.get("placed_at", datetime.utcnow())]; only datetimes are given an
    order here. *)
Definition placed_at_key (now : datetime) (d : doc) : outcome (datetime * doc) :=
  match d !! "placed_at" with
  | None => Ok (now, d)
  | Some (VDate t) => Ok (t, d)
  | Some _ => Raise (NotModelled "sort key")
  end.

Fixpoint insert_desc (x : datetime * doc) (l : list (datetime * doc))
  : list (datetime * doc) :=
  match l with
  | [] => [x]
  | y :: l' => if dt_leb (fst y) (fst x) then x :: y :: l' else y :: insert_desc x l'
  end.

(** [docs.sort(key=..., reverse=True)]: stable, latest first. *)
Definition sort_desc (l : list (datetime * doc)) : list (datetime * doc) :=
  fold_right insert_desc [] l.

Definition sort_by_placed_at (now : datetime) (docs : list doc) : outcome (list doc) :=
  match mapM (placed_at_key now) docs with
  | Ok keyed => Ok (map snd (sort_desc keyed))
  | Raise e => Raise e
  end.

(** *** Regular expressions of the store

    The store searches text with the regular expressions of its own
    engine, which the sources do not contain: the engine is a parameter
    of the model.  [regex pattern options] is [None] when the store
    refuses the expression, and else the search it stands for: is the
    expression found somewhere in the text? *)

Class Regex := regex : string → string → option (string → bool).

(** A small engine, used only to run the examples; no property depends
    on it.  It reads plain characters, [.] (any character but a line
    feed) and a backslash before a punctuation character, and refuses
    every other expression; option [i] folds the case of ASCII letters. *)

Inductive re_atom :=
| RChar (c : ascii)
| RAny.

Definition is_alnum (c : ascii) : bool :=
  in_range 48 57 c || in_range 65 90 c || in_range 97 122 c.

Definition mem_ascii (c : ascii) (s : string) : bool :=
  existsb (Ascii.eqb c) (list_ascii_of_string s).

Definition re_meta (c : ascii) : bool := mem_ascii c "\^$.[]|()?*+{}".

Fixpoint compile_regex (p : string) : option (list re_atom) :=
  match p with
  | "" => Some []
  | String c p' =>
      if Ascii.eqb c "." then cons RAny <$> compile_regex p'
      else if Ascii.eqb c "\" then
        match p' with
        | "" => None
        | String e p'' =>
            if is_alnum e || negb (in_range 0 127 e) then None
            else cons (RChar e) <$> compile_regex p''
        end
      else if re_meta c then None
      else cons (RChar c) <$> compile_regex p'
  end.

Definition atom_matches (ci : bool) (a : re_atom) (c : ascii) : bool :=
  match a with
  | RAny => negb (Ascii.eqb c "010")
  | RChar x =>
      if ci then Ascii.eqb (ascii_lower x) (ascii_lower c) else Ascii.eqb x c
  end.

(** The atoms match a prefix of [s]. *)
Fixpoint re_here (ci : bool) (r : list re_atom) (s : string) : bool :=
  match r, s with
  | [], _ => true
  | a :: r', String c s' => atom_matches ci a c && re_here ci r' s'
  | _ :: _, "" => false
  end.

(** The atoms match somewhere in [s] (an unanchored search). *)
Fixpoint re_search (ci : bool) (r : list re_atom) (s : string) : bool :=
  re_here ci r s ||
  match s with
  | "" => false
  | String _ s' => re_search ci r s'
  end.

Definition small_regex : Regex :=
  λ pattern options,
    (λ r, re_search (mem_ascii "i" options) r) <$> compile_regex pattern.

Section Model.
(** The regular expressions of the store. *)
Context {store_regex : Regex}.

(** *** Queries *)

Inductive literal :=
| LBool (b : bool)
| LStr (s : string)
| LOid (o : ObjectId).

Definition literal_eqb (l : literal) (v : value) : bool :=
  match l, v with
  | LBool b, VBool b' => Bool.eqb b b'
  | LStr s, VStr s' => String.eqb s s'
  | LOid o, VOid o' => oid_eqb o o'
  | _, _ => false
  end.

(** [CEq l] is [{field: l}], [CNe l] is [{field: {"$ne": l}}] and
    [CRegex p o] is [{field: {"$regex": p, "$options": o}}]. *)
Inductive cond :=
| CEq (l : literal)
| CNe (l : literal)
| CRegex (pattern options : string).

(** A query dict: its entries hold together; [Or] is the ["$or"] entry. *)
Inductive clause :=
| Field (name : string) (c : cond)
| Or (alts : list (string * cond)).

Definition query := list clause.

Definition cond_matches (c : cond) (v : option value) : bool :=
  match c with
  | CEq l => match v with Some x => literal_eqb l x | None => false end
  | CNe l => match v with Some x => negb (literal_eqb l x) | None => true end
  | CRegex p o =>
      match v, regex p o with
      | Some (VStr s), Some search => search s
      | _, _ => false
      end
  end.

Definition clause_matches (d : doc) (cl : clause) : bool :=
  match cl with
  | Field k c => cond_matches c (d !! k)
  | Or alts => existsb (λ kc, cond_matches (snd kc) (d !! fst kc)) alts
  end.

Definition matches (q : query) (d : doc) : bool :=
  forallb (clause_matches d) q.

Definition cond_ok (c : cond) : bool :=
  match c with
  | CRegex p o => bool_decide (is_Some (regex p o))
  | _ => true
  end.

Definition clause_ok (cl : clause) : bool :=
  match cl with
  | Field _ c => cond_ok c
  | Or alts => forallb (λ kc, cond_ok (snd kc)) alts
  end.

(** The store accepts every regular expression of the query. *)
Definition query_ok (q : query) : bool := forallb clause_ok q.

Definition by_id (o : ObjectId) : query := [Field "_id" (CEq (LOid o))].

(** *** Store operations *)

(** [db[name].find(q)] as a list.  A query with a regular expression the
    store refuses ends in the store's error, here and in the operations
    below. *)
Definition find (name : string) (q : query) : M (list doc) :=
  λ s, if query_ok q then (Ok (List.filter (matches q) (coll s name)), s)
       else (Raise (OperationFailure "$regex"), s).

(** [db[name].find_one(q)] *)
Definition find_one (name : string) (q : query) : M (option doc) :=
  λ s, if query_ok q then (Ok (List.find (matches q) (coll s name)), s)
       else (Raise (OperationFailure "$regex"), s).

Fixpoint update_first (p : doc → bool) (f : doc → doc) (l : list doc)
  : option (list doc) :=
  match l with
  | [] => None
  | d :: l' => if p d then Some (f d :: l') else cons d <$> update_first p f l'
  end.

Fixpoint delete_first (p : doc → bool) (l : list doc) : option (list doc) :=
  match l with
  | [] => None
  | d :: l' => if p d then Some l' else cons d <$> delete_first p l'
  end.

(** [db[name].update_one(q, {"$set": updates}).matched_count] *)
Definition update_one (name : string) (q : query) (updates : doc) : M N :=
  λ s, if query_ok q then
         match update_first (matches q) (λ d, updates ∪ d) (coll s name) with
         | Some l => (Ok 1%N, set_coll s name l)
         | None => (Ok 0%N, s)
         end
       else (Raise (OperationFailure "$regex"), s).

(** [db[name].delete_one(q).deleted_count] *)
Definition delete_one (name : string) (q : query) : M N :=
  λ s, if query_ok q then
         match delete_first (matches q) (coll s name) with
         | Some l => (Ok 1%N, set_coll s name l)
         | None => (Ok 0%N, s)
         end
       else (Raise (OperationFailure "$regex"), s).

(** Modelled from the spec: [create_document] of database.py.  It
    persists a copy of [data] with the timestamps set by the store layer
    under a fresh identifier and returns that identifier as text. *)
Definition create_document (name : string) (data : doc) (stamp : datetime)
  : M string :=
  λ s, let o := next_oid s in
       let d := <["_id" := VOid o]>
                  (<["updated_at" := VDate stamp]>
                     (<["created_at" := VDate stamp]> data)) in
       (Ok (oid_str o),
        mk_db (<[name := (coll s name ++ [d])%list]> (collections s)) (N.succ o)).

(** Modelled from the spec: [get_documents] of database.py, the
    find-many-with-filter operation without a limit. *)
Definition get_documents (name : string) (q : query) : M (list doc) :=
  find name q.

(** ** The handlers of main.py *)

Section Handlers.
(** The ADMIN_KEY variable of the process environment. *)
Context (ADMIN_KEY : option string).

(** main.py, [list_products]. *)
Definition list_products_filter (q category : option string) : query :=
  let filt := [Field "in_stock" (CNe (LBool false))] in
  let filt :=
    if truthy q then
      (filt ++ [Or [("title", CRegex (default "" q) "i");
                    ("description", CRegex (default "" q) "i");
                    ("category", CRegex (default "" q) "i")]])%list
    else filt in
  if truthy category then
    (filt ++ [Field "category" (CEq (LStr (default "" category)))])%list
  else filt.

Definition list_products (q category : option string) : M (list (option doc)) :=
  let* docs := get_documents "product" (list_products_filter q category) in
  lift (mapM (λ d, serialize_doc (Some d)) docs).

(** main.py, [get_product]. *)
Definition get_product (product_id : string) : M (option doc) :=
  let* oid := lift (to_object_id product_id) in
  let* d := find_one "product" (by_id oid) in
  if falsy d then raise (HTTPException 404 "Product not found")
  else lift (serialize_doc d).

(** main.py, [create_product]. *)
Definition create_product (payload : ProductCreate.t)
    (x_admin_key : option string) (stamp : datetime) : M (option doc) :=
  do lift (require_admin ADMIN_KEY x_admin_key) in
  let* schema := lift (ProductSchema.init
                         (ProductCreate.title payload)
                         (ProductCreate.description payload)
                         (ProductCreate.price payload)
                         (ProductCreate.category payload)
                         (ProductCreate.in_stock payload)) in
  let product := dict (ProductSchema.model_dump schema) in
  let product :=
    if truthy (ProductCreate.image_url payload)
    then <["image_url" := opt_value VStr (ProductCreate.image_url payload)]> product
    else product in
  let product := <["currency" := VStr (ProductCreate.currency payload)]> product in
  let* inserted_id := create_document "product" product stamp in
  let* oid := lift (ObjectId_new inserted_id) in
  let* d := find_one "product" (by_id oid) in
  lift (serialize_doc d).

(** main.py, [update_product]. *)
Definition update_product (product_id : string) (payload : ProductUpdate.t)
    (x_admin_key : option string) (now : datetime) : M (option doc) :=
  do lift (require_admin ADMIN_KEY x_admin_key) in
  let updates := dict (ProductUpdate.model_dump_exclude_none payload) in
  if bool_decide (updates = ∅) then ret (Some (dict [("updated", VBool false)]))
  else
    let updates := <["updated_at" := VDate now]> updates in
    let* oid := lift (to_object_id product_id) in
    let* matched_count := update_one "product" (by_id oid) updates in
    if (matched_count =? 0)%N then raise (HTTPException 404 "Product not found")
    else
      let* oid := lift (to_object_id product_id) in
      let* d := find_one "product" (by_id oid) in
      lift (serialize_doc d).

(** main.py, [delete_product]. *)
Definition delete_product (product_id : string) (x_admin_key : option string)
  : M (option doc) :=
  do lift (require_admin ADMIN_KEY x_admin_key) in
  let* oid := lift (to_object_id product_id) in
  let* deleted_count := delete_one "product" (by_id oid) in
  if (deleted_count =? 0)%N then raise (HTTPException 404 "Product not found")
  else ret (Some (dict [("deleted", VBool true)])).

(** main.py, [create_order]. *)
Definition create_order (payload : OrderCreate.t) (now stamp : datetime)
  : M (option doc) :=
  if negb (String.eqb (OrderCreate.payment_method payload) "COD")
  then raise (HTTPException 400 "Only COD is supported")
  else if Nat.eqb (length (OrderCreate.items payload)) 0
  then raise (HTTPException 400 "Cart is empty")
  else
    let* total := lift (order_total (OrderCreate.items payload)) in
    let order := dict
      [("items", VList (map (λ i, VDict (CartItem.model_dump i))
                            (OrderCreate.items payload)));
       ("customer", VDict (CustomerInfo.model_dump (OrderCreate.customer payload)));
       ("payment_method", VStr "COD");
       ("status", VStr "new");
       ("total", VFloat total);
       ("currency", VStr "SYP");
       ("placed_at", VDate now)] in
    let* inserted_id := create_document "order" order stamp in
    let* oid := lift (ObjectId_new inserted_id) in
    let* d := find_one "order" (by_id oid) in
    lift (serialize_doc d).

(** main.py, [list_orders]. *)
Definition list_orders (x_admin_key : option string) (status : option string)
    (now : datetime) : M (list (option doc)) :=
  do lift (require_admin ADMIN_KEY x_admin_key) in
  let filt :=
    if truthy status then [Field "status" (CEq (LStr (default "" status)))]
    else [] in
  let* docs := get_documents "order" filt in
  let* docs := lift (sort_by_placed_at now docs) in
  lift (mapM (λ d, serialize_doc (Some d)) docs).

(** main.py, [get_order]. *)
Definition get_order (order_id : string) (x_admin_key : option string)
  : M (option doc) :=
  do lift (require_admin ADMIN_KEY x_admin_key) in
  let* oid := lift (to_object_id order_id) in
  let* d := find_one "order" (by_id oid) in
  if falsy d then raise (HTTPException 404 "Order not found")
  else lift (serialize_doc d).

(** main.py, [update_order]. *)
Definition update_order (order_id : string) (payload : OrderStatusUpdate.t)
    (x_admin_key : option string) (now : datetime) : M (option doc) :=
  do lift (require_admin ADMIN_KEY x_admin_key) in
  let updates := dict (OrderStatusUpdate.model_dump_exclude_none payload) in
  let updates := <["updated_at" := VDate now]> updates in
  let* oid := lift (to_object_id order_id) in
  let* matched_count := update_one "order" (by_id oid) updates in
  if (matched_count =? 0)%N then raise (HTTPException 404 "Order not found")
  else
    let* oid := lift (to_object_id order_id) in
    let* d := find_one "order" (by_id oid) in
    lift (serialize_doc d).

(** *** Routes: the body is validated before the handler runs *)

(** [POST /api/products] *)
Definition post_api_products (body : ProductCreate.Body.t)
    (x_admin_key : option string) (stamp : datetime) : M (option doc) :=
  let* payload := lift (ProductCreate.validate body) in
  create_product payload x_admin_key stamp.

(** [PATCH /api/products/{product_id}] *)
Definition patch_api_products (product_id : string) (body : ProductUpdate.Body.t)
    (x_admin_key : option string) (now : datetime) : M (option doc) :=
  let* payload := lift (ProductUpdate.validate body) in
  update_product product_id payload x_admin_key now.

(** [PATCH /api/orders/{order_id}] *)
Definition patch_api_orders (order_id : string) (body : OrderStatusUpdate.Body.t)
    (x_admin_key : option string) (now : datetime) : M (option doc) :=
  let* payload := lift (OrderStatusUpdate.validate body) in
  update_order order_id payload x_admin_key now.
End Handlers.

(** ** Vocabulary of the properties *)

Definition is_401 {A} (r : outcome A) : bool :=
  match r with
  | Raise (HTTPException 401 _) => true
  | _ => false
  end.

(** What [serialize_doc] does to one field value. *)
Definition render (v : value) : value :=
  match v with
  | VDate t => VStr (isoformat t)
  | _ => v
  end.

(** The public view [out] of a stored document [d]. *)
Definition public_view (d out : doc) : Prop :=
  (∃ i s, d !! "_id" = Some i ∧ py_str i = Some s ∧ out !! "id" = Some (VStr s)) ∧
  out !! "_id" = None ∧
  (∀ k t, k ∈ timestamp_keys → d !! k = Some (VDate t) →
          out !! k = Some (VStr (isoformat t))) ∧
  (∀ k, k ≠ "id" → d !! k = None → out !! k = None) ∧
  (∀ k, k ≠ "id" → k ≠ "_id" → k ∉ timestamp_keys → out !! k = d !! k).

(** [r] is what [serialize_doc] makes of a document of collection [name]. *)
Definition outbound (s : database) (name : string) (r : option doc) : Prop :=
  ∃ d, d ∈ coll s name ∧ serialize_doc (Some d) = Ok r ∧
       ∀ out, r = Some out → public_view d out.

(** The identifier of [d] was handed out before [n]. *)
Definition id_below (n : N) (d : doc) : Prop :=
  ∃ o : N, d !! "_id" = Some (VOid o) ∧ (o < n)%N.

(** Every stored document carries an identifier the store handed out, and
    the next one still fits in twelve bytes. *)
Definition db_wf (s : database) : Prop :=
  (next_oid s < oid_bound)%N ∧
  ∀ name d, d ∈ coll s name → id_below (next_oid s) d.

(** What [create_document] stores for [data]. *)
Definition stored_doc (o : ObjectId) (stamp : datetime) (data : doc) : doc :=
  <["_id" := VOid o]>
    (<["updated_at" := VDate stamp]> (<["created_at" := VDate stamp]> data)).

(** The sum over the items of price times quantity, in the words of the
    spec: the line totals added up in cart order. *)
Definition sum_price_quantity (items : list CartItem.t) : float :=
  fold_left PrimFloat.add
    (map (λ i, PrimFloat.mul (CartItem.price i) (nearest_float (CartItem.quantity i))) items)
    0%float.

(** The dict [create_order] hands to the store. *)
Definition order_doc (payload : OrderCreate.t) (total : float) (now : datetime) : doc :=
  dict
    [("items", VList (map (λ i, VDict (CartItem.model_dump i)) (OrderCreate.items payload)));
     ("customer", VDict (CustomerInfo.model_dump (OrderCreate.customer payload)));
     ("payment_method", VStr "COD");
     ("status", VStr "new");
     ("total", VFloat total);
     ("currency", VStr "SYP");
     ("placed_at", VDate now)].

Definition example_order : OrderCreate.t :=
  OrderCreate.mk
    [CartItem.mk "p1" "Soap" 1000%float 2; CartItem.mk "p2" "Salt" 500%float 1]
    (CustomerInfo.mk "Rana" "0999" "Homs" "Main street 1" None)
    "COD".

(** The tail shared by [update_product] and [update_order], once the key
    is accepted and the updates are built. *)
Definition update_tail (name id_str : string) (updates : doc) (not_found : exn)
  : M (option doc) :=
  bind (lift (to_object_id id_str)) (λ oid,
    bind (update_one name (by_id oid) updates) (λ matched_count,
      if (matched_count =? 0)%N then raise not_found
      else bind (lift (to_object_id id_str)) (λ oid,
             bind (find_one name (by_id oid)) (λ d, lift (serialize_doc d))))).

(** The value a partial update leaves in a field: the one supplied, or
    else the stored one. *)
Definition merged {A} (f : A → value) (supplied : option A) (old : option value)
  : option value :=
  match supplied with
  | Some a => Some (f a)
  | None => old
  end.

(** The [$set] document of [update_product]. *)
Definition product_updates (payload : ProductUpdate.t) (now : datetime) : doc :=
  <["updated_at" := VDate now]> (dict (ProductUpdate.model_dump_exclude_none payload)).

Definition no_fields : ProductUpdate.t :=
  ProductUpdate.mk None None None None None None None.

Definition product_update_fields : list string :=
  ["title"; "description"; "price"; "currency"; "category"; "image_url"; "in_stock"].

Definition example_time : datetime := mk_datetime 2024 1 2 3 4 5 0.
Definition example_later : datetime := mk_datetime 2024 1 3 9 0 0 0.

Definition example_product : doc :=
  stored_doc 0%N example_time
    (dict [("title", VStr "Soap"); ("description", VNone); ("price", VFloat 1000%float);
           ("category", VStr "home"); ("in_stock", VBool true); ("image_url", VNone);
           ("currency", VStr "SYP")]).

Definition example_db : database :=
  mk_db {["product" := [example_product]]} 1%N.

(** The value of a body field once validated as [Optional]. *)
Definition slot_option {A} (f : slot A) : option A :=
  match f with
  | Given a => Some a
  | _ => None
  end.

(** The [$set] document of [update_order]. *)
Definition order_updates (payload : OrderStatusUpdate.t) (now : datetime) : doc :=
  <["updated_at" := VDate now]> (dict (OrderStatusUpdate.model_dump_exclude_none payload)).

Definition example_order_doc : doc :=
  stored_doc 0%N example_time (order_doc example_order 2500%float example_time).

Definition example_orders_db : database :=
  mk_db {["order" := [example_order_doc]]} 1%N.

Definition null_as_absent {A} (f : slot A) : slot A :=
  match f with
  | Null => Absent
  | _ => f
  end.

(** The body with every [null] field left out. *)
Definition product_body_without_nulls (b : ProductUpdate.Body.t) : ProductUpdate.Body.t :=
  ProductUpdate.Body.mk
    (null_as_absent (ProductUpdate.Body.title b))
    (null_as_absent (ProductUpdate.Body.description b))
    (null_as_absent (ProductUpdate.Body.price b))
    (null_as_absent (ProductUpdate.Body.currency b))
    (null_as_absent (ProductUpdate.Body.category b))
    (null_as_absent (ProductUpdate.Body.image_url b))
    (null_as_absent (ProductUpdate.Body.in_stock b)).

Definition given {A} (k : string) (f : slot A) : list string :=
  match f with
  | Given _ => [k]
  | _ => []
  end.

(** The fields a body gives a value to. *)
Definition product_given_fields (b : ProductUpdate.Body.t) : list string :=
  (given "title" (ProductUpdate.Body.title b)
   ++ given "description" (ProductUpdate.Body.description b)
   ++ given "price" (ProductUpdate.Body.price b)
   ++ given "currency" (ProductUpdate.Body.currency b)
   ++ given "category" (ProductUpdate.Body.category b)
   ++ given "image_url" (ProductUpdate.Body.image_url b)
   ++ given "in_stock" (ProductUpdate.Body.in_stock b))%list.

Definition order_given_fields (b : OrderStatusUpdate.Body.t) : list string :=
  (given "status" (OrderStatusUpdate.Body.status b)
   ++ given "tracking_note" (OrderStatusUpdate.Body.tracking_note b))%list.

Definition example_null_body : ProductUpdate.Body.t :=
  ProductUpdate.Body.mk Absent Null Absent Absent Absent Null (Given false).

Fixpoint is_prefix (p s : string) : bool :=
  match p, s with
  | "", _ => true
  | String a p', String b s' => Ascii.eqb a b && is_prefix p' s'
  | String _ _, "" => false
  end.

(** [p] occurs in [s]. *)
Fixpoint is_substring (p s : string) : bool :=
  is_prefix p s ||
  match s with
  | "" => false
  | String _ s' => is_substring p s'
  end.

(** [q] occurs in [s] when the case of letters is ignored: the
    case-insensitive substring of the spec. *)
Definition ci_substring (q s : string) : bool := is_substring (lower q) (lower s).

Definition text_fields : list string := ["title"; "description"; "category"].

(** The search finds the expression in the title, the description or the
    category of [d]. *)
Definition regex_found (search : string → bool) (d : doc) : Prop :=
  ∃ k text, k ∈ text_fields ∧ d !! k = Some (VStr text) ∧ search text = true.

Definition slot_default {A} (d : A) (f : slot A) : A :=
  match f with
  | Given a => a
  | _ => d
  end.

(** The same body with another title field. *)
Definition with_title (title : slot string) (b : ProductCreate.Body.t)
  : ProductCreate.Body.t :=
  ProductCreate.Body.mk title
    (ProductCreate.Body.description b) (ProductCreate.Body.price b)
    (ProductCreate.Body.currency b) (ProductCreate.Body.category b)
    (ProductCreate.Body.image_url b) (ProductCreate.Body.in_stock b).

(** The dict [create_product] hands to the store. *)
Definition product_doc (payload : ProductCreate.t) : doc :=
  let product := dict (ProductSchema.model_dump
                         (ProductSchema.mk
                            (ProductCreate.title payload)
                            (ProductCreate.description payload)
                            (ProductCreate.price payload)
                            (ProductCreate.category payload)
                            (ProductCreate.in_stock payload) None)) in
  let product :=
    if truthy (ProductCreate.image_url payload)
    then <["image_url" := opt_value VStr (ProductCreate.image_url payload)]> product
    else product in
  <["currency" := VStr (ProductCreate.currency payload)]> product.

Definition example_untitled_body : ProductCreate.Body.t :=
  ProductCreate.Body.mk (Given "") Absent (Given 1000%float) Absent (Given "home")
    Absent Absent.

Definition example_untitled : ProductCreate.t :=
  ProductCreate.mk "" None 1000%float "SYP" "home" None true.

(** ** Vocabulary of the further properties *)

(** A computation that leaves the store as it found it, whatever it
    answers. *)
Definition read_only {A} (m : M A) : Prop := ∀ s, snd (m s) = s.

Definition is_hex_digit (c : ascii) : bool :=
  in_range 48 57 c || in_range 97 102 c || in_range 65 70 c.

(** A text [ObjectId] refuses at sight: it is not 24 characters long, or
    it holds a character that is neither a hexadecimal digit nor white
    space. *)
Definition bad_id_text (s : string) : bool :=
  negb (Nat.eqb (String.length s) 24)
  || negb (forallb (λ c, is_hex_digit c || is_space c) (list_ascii_of_string s)).

(** The text without the white space [bytes.fromhex] skips. *)
Fixpoint without_spaces (s : string) : string :=
  match s with
  | "" => ""
  | String c s' =>
      if is_space c then without_spaces s' else String c (without_spaces s')
  end.

(** An integer the store keeps: eight bytes, signed. *)
Definition int64 (n : Z) : Prop := (- 2 ^ 63 ≤ n < 2 ^ 63)%Z.

(** No document of the collection carries the identifier [oid]. *)
Definition unknown_id (s : database) (name : string) (oid : ObjectId) : Prop :=
  ∀ d, d ∈ coll s name → d !! "_id" ≠ Some (VOid oid).

(** The identifier fields of a collection, in store order. *)
Definition ids (l : list doc) : list (option value) := map (λ d : doc, d !! "_id") l.

(** The store invariant: every stored document carries an identifier the
    store handed out, and no two documents of a collection share one. *)
Definition db_ok (s : database) : Prop :=
  db_wf s ∧ ∀ name, NoDup (ids (coll s name)).

(** The key [list_orders] sorts by, for documents whose [placed_at] is a
    datetime or missing. *)
Definition sort_key (now : datetime) (d : doc) : datetime :=
  match d !! "placed_at" with
  | Some (VDate t) => t
  | _ => now
  end.

(** Latest first: no datetime is later than the one before it. *)
Fixpoint descending (keys : list datetime) : bool :=
  match keys with
  | a :: (b :: _) as rest => dt_leb b a && descending rest
  | _ => true
  end.

(** The order's [status] is the text [st]. *)
Definition has_status (st : string) (d : doc) : bool :=
  match d !! "status" with
  | Some (VStr x) => String.eqb x st
  | _ => false
  end.

(** The orders a listing with this [status] parameter is about. *)
Definition status_selected (status : option string) (d : doc) : bool :=
  if truthy status then has_status (default "" status) d else true.

(** [placed_at] is a datetime or missing. *)
Definition placed_at_dated (d : doc) : Prop :=
  d !! "placed_at" = None ∨ ∃ t, d !! "placed_at" = Some (VDate t).

Definition example_second_order_doc : doc :=
  stored_doc 1%N example_later (order_doc example_order 2500%float example_later).

Definition example_two_orders_db : database :=
  mk_db {["order" := [example_order_doc; example_second_order_doc]]} 2%N.

(** The same body with another price field. *)
Definition with_price (price : slot float) (b : ProductCreate.Body.t)
  : ProductCreate.Body.t :=
  ProductCreate.Body.mk (ProductCreate.Body.title b)
    (ProductCreate.Body.description b) price
    (ProductCreate.Body.currency b) (ProductCreate.Body.category b)
    (ProductCreate.Body.image_url b) (ProductCreate.Body.in_stock b).

(** The non-empty text of an optional text field: what [if x:] lets
    through. *)
Definition non_empty (o : option string) : option string :=
  if truthy o then o else None.

Definition example_soap_body : ProductCreate.Body.t :=
  ProductCreate.Body.mk (Given "Soap") Absent (Given 1000%float) Absent (Given "home")
    (Given "") Absent.

Definition example_soap : ProductCreate.t :=
  ProductCreate.mk "Soap" None 1000%float "SYP" "home" (Some "") true.

(** [POST /api/orders]: the body is validated before [create_order] runs. *)
Definition post_api_orders (body : OrderCreateBody.t) (now stamp : datetime)
  : M (option doc) :=
  let* payload := lift (OrderCreateBody.validate body) in
  create_order payload now stamp.

Definition example_item_body : CartItemBody.t :=
  CartItemBody.mk (Given "p1") (Given "Soap") (Given 1000%float) (Given 2%Z).

Definition example_customer_body : CustomerInfoBody.t :=
  CustomerInfoBody.mk (Given "Rana") (Given "0999") (Given "Homs")
    (Given "Main street 1") Absent.

Definition example_zero_item_body : CartItemBody.t :=
  CartItemBody.mk (Given "p2") (Given "Salt") (Given 500%float) (Given 0%Z).

Definition example_zero_order_body : OrderCreateBody.t :=
  OrderCreateBody.mk (Given [example_item_body; example_zero_item_body])
    (Given example_customer_body) Absent.

End Model.

(** * Properties *)

(** Settle the comparisons of field names left by a lookup lemma. *)
Ltac settle_keys :=
  repeat first [rewrite decide_True by done | rewrite decide_False by done].

(** Close [k ∉ [k1; ...; kn]] for distinct literal names. *)
Ltac solve_not_in :=
  repeat (apply not_elem_of_cons; split; [discriminate|]); apply not_elem_of_nil.

Section Properties.
Context {store_regex : Regex}.

Lemma require_admin_fail ADMIN_KEY key :
  key ≠ Some (getenv_ADMIN_KEY ADMIN_KEY) →
  require_admin ADMIN_KEY key = Raise (HTTPException 401 "Unauthorized: invalid admin key").
Proof. intros H. unfold require_admin. by rewrite decide_False. Qed.

Lemma require_admin_pass ADMIN_KEY key :
  key = Some (getenv_ADMIN_KEY ADMIN_KEY) → require_admin ADMIN_KEY key = Ok tt.
Proof. intros H. unfold require_admin. by rewrite decide_True. Qed.

(** C2: an order whose payment method is not exactly "COD", or whose cart
    is empty, is refused with status 400 and the store is left as it was. *)
Theorem create_order_bad_request payload now stamp s :
  OrderCreate.payment_method payload ≠ "COD" ∨ OrderCreate.items payload = [] →
  ∃ detail,
    create_order payload now stamp s = (Raise (HTTPException 400 detail), s).
Proof.
  intros H. unfold create_order.
  destruct (String.eqb (OrderCreate.payment_method payload) "COD") eqn:E; simpl.
  - destruct H as [H | H].
    + apply String.eqb_eq in E. contradiction.
    + rewrite H. simpl. by eexists.
  - by eexists.
Qed.

(** ** The admin gate *)

Section Gate.
Context (ADMIN_KEY : option string) (key : option string).
Hypothesis wrong : key ≠ Some (getenv_ADMIN_KEY ADMIN_KEY).

Lemma create_product_gated payload stamp s :
  ∃ detail, create_product ADMIN_KEY payload key stamp s = (Raise (HTTPException 401 detail), s).
Proof.
  unfold create_product, bind, lift.
  rewrite require_admin_fail by done. by eexists.
Qed.

Lemma update_product_gated product_id payload now s :
  ∃ detail, update_product ADMIN_KEY product_id payload key now s = (Raise (HTTPException 401 detail), s).
Proof.
  unfold update_product, bind, lift.
  rewrite require_admin_fail by done. by eexists.
Qed.

Lemma delete_product_gated product_id s :
  ∃ detail, delete_product ADMIN_KEY product_id key s = (Raise (HTTPException 401 detail), s).
Proof.
  unfold delete_product, bind, lift.
  rewrite require_admin_fail by done. by eexists.
Qed.

Lemma list_orders_gated status now s :
  ∃ detail, list_orders ADMIN_KEY key status now s = (Raise (HTTPException 401 detail), s).
Proof.
  unfold list_orders, bind, lift.
  rewrite require_admin_fail by done. by eexists.
Qed.

Lemma get_order_gated order_id s :
  ∃ detail, get_order ADMIN_KEY order_id key s = (Raise (HTTPException 401 detail), s).
Proof.
  unfold get_order, bind, lift.
  rewrite require_admin_fail by done. by eexists.
Qed.

Lemma update_order_gated order_id payload now s :
  ∃ detail, update_order ADMIN_KEY order_id payload key now s = (Raise (HTTPException 401 detail), s).
Proof.
  unfold update_order, bind, lift.
  rewrite require_admin_fail by done. by eexists.
Qed.

End Gate.

(** The handlers without a credential never answer 401. *)

Lemma mapM_serialize_not_401 (l : list doc) :
  is_401 (mapM (λ d, serialize_doc (Some d)) l) = false.
Proof.
  induction l as [|d l IH]; [done|]. cbn [mapM]. unfold serialize_doc at 1.
  destruct (decide (d = ∅)); simpl in *.
  - destruct (mapM _ l); done.
  - destruct (d !! "_id") as [i|]; [|done].
    destruct (py_str i); [|done].
    destruct (mapM _ l); done.
Qed.

Lemma serialize_not_401 d : is_401 (serialize_doc d) = false.
Proof.
  destruct d as [d|]; [|done]. unfold serialize_doc.
  destruct (decide (d = ∅)); [done|].
  destruct (d !! "_id") as [i|]; [|done].
  by destruct (py_str i).
Qed.

Lemma list_products_open q category s :
  is_401 (fst (list_products q category s)) = false.
Proof.
  unfold list_products, get_documents, find, bind, lift.
  destruct (query_ok _); [|done]. simpl. apply mapM_serialize_not_401.
Qed.

Lemma get_product_open product_id s :
  is_401 (fst (get_product product_id s)) = false.
Proof.
  unfold get_product, to_object_id, find_one, bind, lift, raise.
  destruct (ObjectId_of_str product_id) as [o|]; [|done]. simpl.
  destruct (falsy _); [done|]. simpl. apply serialize_not_401.
Qed.

Lemma sum_lines_raise items acc e :
  sum_lines acc items = Raise e → e = OverflowError.
Proof.
  revert acc. induction items as [|i l IH]; intros acc; simpl; [done|].
  destruct (float_of_int _); [apply IH | congruence].
Qed.

Lemma create_order_open payload now stamp s :
  is_401 (fst (create_order payload now stamp s)) = false.
Proof.
  unfold create_order, raise.
  destruct (negb _); [done|]. destruct (Nat.eqb _ _); [done|].
  unfold bind, lift, create_document, find_one, ObjectId_new.
  destruct (order_total _) as [t|e] eqn:E.
  - destruct (ObjectId_of_str _); [|done]. simpl. apply serialize_not_401.
  - apply sum_lines_raise in E. by subst.
Qed.

(** C3: with an absent or wrong admin key, product create, update and
    delete, order listing, order fetch and order status update all end in
    status 401 and leave the store as it was; the expected key is the
    configured one, "admin123" when none is configured; product listing,
    product fetch and order creation take no key and never answer 401. *)
Theorem admin_gate ADMIN_KEY key :
  key ≠ Some (getenv_ADMIN_KEY ADMIN_KEY) →
  getenv_ADMIN_KEY None = "admin123" ∧
  (∀ payload stamp s, ∃ detail,
      create_product ADMIN_KEY payload key stamp s
      = (Raise (HTTPException 401 detail), s)) ∧
  (∀ product_id payload now s, ∃ detail,
      update_product ADMIN_KEY product_id payload key now s
      = (Raise (HTTPException 401 detail), s)) ∧
  (∀ product_id s, ∃ detail,
      delete_product ADMIN_KEY product_id key s
      = (Raise (HTTPException 401 detail), s)) ∧
  (∀ status now s, ∃ detail,
      list_orders ADMIN_KEY key status now s
      = (Raise (HTTPException 401 detail), s)) ∧
  (∀ order_id s, ∃ detail,
      get_order ADMIN_KEY order_id key s
      = (Raise (HTTPException 401 detail), s)) ∧
  (∀ order_id payload now s, ∃ detail,
      update_order ADMIN_KEY order_id payload key now s
      = (Raise (HTTPException 401 detail), s)) ∧
  (∀ q category s, is_401 (fst (list_products q category s)) = false) ∧
  (∀ product_id s, is_401 (fst (get_product product_id s)) = false) ∧
  (∀ payload now stamp s, is_401 (fst (create_order payload now stamp s)) = false).
Proof.
  intros wrong. split; [done|].
  repeat split; intros.
  - by apply create_product_gated.
  - by apply update_product_gated.
  - by apply delete_product_gated.
  - by apply list_orders_gated.
  - by apply get_order_gated.
  - by apply update_order_gated.
  - apply list_products_open.
  - apply get_product_open.
  - apply create_order_open.
Qed.

(** C10: with a valid key and no field supplied, the product update
    answers [{"updated": false}] whatever the identifier is (malformed or
    unknown included) and whatever the store holds, and leaves the store
    as it was. *)
Theorem update_product_no_fields ADMIN_KEY product_id key now s :
  key = Some (getenv_ADMIN_KEY ADMIN_KEY) →
  update_product ADMIN_KEY product_id
    (ProductUpdate.mk None None None None None None None) key now s
  = (Ok (Some (dict [("updated", VBool false)])), s).
Proof.
  intros H. unfold update_product, bind, lift.
  by rewrite require_admin_pass.
Qed.

(** ** Serialization *)

Lemma render_idemp v : render (render v) = render v.
Proof. by destruct v. Qed.

Lemma iso_step_lookup (d : doc) k j :
  iso_step d k !! j = if decide (k = j) then render <$> d !! j else d !! j.
Proof.
  unfold iso_step. case_decide as E.
  - subst j. destruct (d !! k) as [v|] eqn:Hk; [|by rewrite Hk].
    destruct v; simpl; rewrite ?Hk; try done. by rewrite lookup_insert_eq.
  - destruct (d !! k) as [v|]; [|done].
    destruct v; try done. by rewrite lookup_insert_ne.
Qed.

Lemma iso_fold_lookup ks (d : doc) j :
  fold_left iso_step ks d !! j
  = if decide (j ∈ ks) then render <$> d !! j else d !! j.
Proof.
  revert d. induction ks as [|k ks IH]; intros d; cbn [fold_left].
  - rewrite decide_False; [done|]. apply not_elem_of_nil.
  - rewrite IH, iso_step_lookup.
    destruct (decide (k = j)) as [->|Hkj].
    + rewrite (decide_True (P := j ∈ j :: ks)) by (apply elem_of_cons; by left).
      case_decide; [|done].
      destruct (d !! j) as [v|]; simpl; [|done]. by rewrite render_idemp.
    + destruct (decide (j ∈ ks)) as [Hin|Hin].
      * rewrite decide_True; [done|]. apply elem_of_cons; by right.
      * rewrite decide_False; [done|].
        intros [->|?]%elem_of_cons; done.
Qed.

Lemma timestamp_keys_not_id k :
  k ∈ timestamp_keys → k ≠ "id" ∧ k ≠ "_id".
Proof.
  unfold timestamp_keys. rewrite !elem_of_cons, elem_of_nil.
  intros [->|[->|[->|[]]]]; by split.
Qed.

Lemma serialize_doc_Some (d out : doc) :
  serialize_doc (Some d) = Ok (Some out) →
  ∃ i s, d !! "_id" = Some i ∧ py_str i = Some s ∧
         out = fold_left iso_step timestamp_keys (<["id" := VStr s]> (delete "_id" d)).
Proof.
  unfold serialize_doc. destruct (decide (d = ∅)); [done|].
  destruct (d !! "_id") as [i|]; [|done].
  destruct (py_str i) as [s|] eqn:Hs; [|done].
  intros [= <-]. by exists i, s.
Qed.

Lemma serialize_doc_lookup (d : doc) i s k :
  d !! "_id" = Some i → py_str i = Some s →
  fold_left iso_step timestamp_keys (<["id" := VStr s]> (delete "_id" d)) !! k
  = if decide (k = "id") then Some (VStr s)
    else if decide (k = "_id") then None
    else if decide (k ∈ timestamp_keys) then render <$> d !! k
    else d !! k.
Proof.
  intros Hi Hs. rewrite iso_fold_lookup.
  destruct (decide (k = "id")) as [->|Hk].
  - rewrite decide_False; [by rewrite lookup_insert_eq|].
    by intros [? _]%timestamp_keys_not_id.
  - rewrite lookup_insert_ne by done.
    destruct (decide (k = "_id")) as [->|Hk'].
    + rewrite lookup_delete_eq. by case_decide.
    + by rewrite lookup_delete_ne.
Qed.

Lemma serialize_doc_view (d out : doc) :
  serialize_doc (Some d) = Ok (Some out) → public_view d out.
Proof.
  intros (i & s & Hi & Hs & ->)%serialize_doc_Some.
  unfold public_view. repeat split.
  - exists i, s. repeat split; [done..|].
    by rewrite (serialize_doc_lookup d i s).
  - by rewrite (serialize_doc_lookup d i s).
  - intros k t Hk Hd. rewrite (serialize_doc_lookup d i s) by done.
    destruct (timestamp_keys_not_id k Hk).
    rewrite !decide_False by done. rewrite decide_True by done. by rewrite Hd.
  - intros k Hk Hd. rewrite (serialize_doc_lookup d i s) by done.
    rewrite decide_False by done. repeat case_decide; try done. by rewrite Hd.
  - intros k ? ? ?. rewrite (serialize_doc_lookup d i s) by done.
    by rewrite !decide_False.
Qed.

Lemma serialize_doc_runs (d : doc) i s :
  d !! "_id" = Some i → py_str i = Some s →
  ∃ out, serialize_doc (Some d) = Ok (Some out).
Proof.
  intros Hi Hs. unfold serialize_doc. rewrite decide_False.
  - rewrite Hi, Hs. by eexists.
  - intros ->. by rewrite lookup_empty in Hi.
Qed.

(** ** Documents leaving the handlers *)

Lemma mapM_Forall2 {A B} (f : A → outcome B) l outs :
  mapM f l = Ok outs → Forall2 (λ a b, f a = Ok b) l outs.
Proof.
  revert outs. induction l as [|a l IH]; intros outs; simpl.
  - intros [= <-]. constructor.
  - destruct (f a) as [b|] eqn:Hb; [|done].
    destruct (mapM f l) as [bs|]; [|done].
    intros [= <-]. constructor; auto.
Qed.

Lemma find_one_Some name q s d s' :
  find_one name q s = (Ok (Some d), s') →
  s' = s ∧ d ∈ coll s name ∧ matches q d = true.
Proof.
  unfold find_one. destruct (query_ok q); [|done].
  intros [= Hf <-]. apply find_some in Hf as [Hin Hm].
  by rewrite list_elem_of_In.
Qed.

Lemma find_Ok name q s l s' :
  find name q s = (Ok l, s') →
  s' = s ∧ l = List.filter (matches q) (coll s name).
Proof.
  unfold find. destruct (query_ok q); [|done]. by intros [= <- <-].
Qed.

Lemma insert_desc_perm x l : insert_desc x l ≡ₚ x :: l.
Proof.
  induction l as [|y l IH]; simpl; [done|].
  destruct (dt_leb _ _); [done|].
  rewrite IH. apply perm_swap.
Qed.

Lemma sort_desc_perm l : sort_desc l ≡ₚ l.
Proof.
  induction l as [|x l IH]; simpl; [done|].
  unfold sort_desc in *. simpl. by rewrite insert_desc_perm, IH.
Qed.

Lemma placed_at_keys_snd now docs keyed :
  mapM (placed_at_key now) docs = Ok keyed → map snd keyed = docs.
Proof.
  intros H%mapM_Forall2. induction H as [|d p docs keyed Hp _ IH]; simpl; [done|].
  f_equal; [|done]. unfold placed_at_key in Hp.
  destruct (d !! "placed_at") as [[]|]; by inversion Hp.
Qed.

Lemma sort_by_placed_at_perm now docs l :
  sort_by_placed_at now docs = Ok l → l ≡ₚ docs.
Proof.
  unfold sort_by_placed_at.
  destruct (mapM _ docs) as [keyed|] eqn:Hk; [|done].
  intros [= <-]. rewrite sort_desc_perm. by rewrite (placed_at_keys_snd now docs).
Qed.

Lemma outbound_intro s name d r :
  d ∈ coll s name → serialize_doc (Some d) = Ok r → outbound s name r.
Proof.
  intros Hin Hs. exists d. split; [done|]. split; [done|].
  intros out ->. by apply serialize_doc_view.
Qed.

Lemma serialized_list_outbound s name (docs : list doc) outs :
  (∀ d, d ∈ docs → d ∈ coll s name) →
  mapM (λ d, serialize_doc (Some d)) docs = Ok outs →
  Forall (outbound s name) outs.
Proof.
  intros Hsub H%mapM_Forall2.
  induction H as [|d r docs outs Hr _ IH]; constructor.
  - apply (outbound_intro s name d); [|done]. apply Hsub, elem_of_cons; by left.
  - apply IH. intros d' Hd'. apply Hsub, elem_of_cons; by right.
Qed.

Lemma list_products_outbound q category s outs s' :
  list_products q category s = (Ok outs, s') →
  s' = s ∧ Forall (outbound s "product") outs.
Proof.
  unfold list_products, get_documents, bind, lift.
  destruct (find _ _ s) as [[docs|e] s1] eqn:Hf; [|done].
  apply find_Ok in Hf as [-> ->]. intros [= Hm <-]. split; [done|].
  eapply serialized_list_outbound; [|exact Hm].
  intros d Hd. apply list_elem_of_In, filter_In in Hd as [Hd _]. by apply list_elem_of_In.
Qed.

(** ** Identifiers as text *)

Lemma string_length_app (a b : string) :
  String.length (a ++ b) = (String.length a + String.length b)%nat.
Proof. induction a as [|c a IH]; simpl; [done|]. by rewrite IH. Qed.

Lemma hex_length w n : String.length (hex w n) = w.
Proof.
  revert n. induction w as [|w IH]; intros n; simpl; [done|].
  rewrite string_length_app, IH. simpl. lia.
Qed.

Lemma hex_val_hex_char d : (d < 16)%N → hex_val (hex_char d) = Some d.
Proof.
  intros Hd.
  assert (Hcases : In d [0;1;2;3;4;5;6;7;8;9;10;11;12;13;14;15]%N).
  { destruct d as [|p]; [by left|].
    repeat match goal with q : positive |- _ => destruct q; try lia end;
    simpl; tauto. }
  simpl in Hcases.
  repeat (destruct Hcases as [<-|Hcases]; [reflexivity|]). done.
Qed.

Lemma hex_val_lower c d :
  hex_val c = Some d → (d < 16)%N ∧ hex_char d = ascii_lower c.
Proof.
  destruct c as [[] [] [] [] [] [] [] []]; vm_compute; intros [= <-]; by split.
Qed.

Lemma hex_cons w d v :
  (d < 16)%N → (v < 16 ^ N.of_nat w)%N →
  hex (S w) (d * 16 ^ N.of_nat w + v) = String (hex_char d) (hex w v).
Proof.
  revert v. induction w as [|w IH]; intros v Hd Hv.
  - cbn [N.of_nat] in Hv. rewrite N.pow_0_r in Hv. assert (v = 0%N) as -> by lia.
    cbn [hex N.of_nat]. rewrite N.pow_0_r, N.mul_1_r, N.add_0_r.
    rewrite N.mod_small by done. done.
  - rewrite Nat2N.inj_succ, N.pow_succ_r' in *.
    change (hex (S (S w)) ?n) with (hex (S w) (n / 16) ++ String (hex_char (n mod 16)) "").
    replace ((d * (16 * 16 ^ N.of_nat w) + v) / 16)%N
      with (d * 16 ^ N.of_nat w + v / 16)%N.
    2: { replace (d * (16 * 16 ^ N.of_nat w) + v)%N
           with (v + (d * 16 ^ N.of_nat w) * 16)%N by lia.
         rewrite N.div_add by lia. lia. }
    replace ((d * (16 * 16 ^ N.of_nat w) + v) mod 16)%N with (v mod 16)%N.
    2: { replace (d * (16 * 16 ^ N.of_nat w) + v)%N
           with (v + (d * 16 ^ N.of_nat w) * 16)%N by lia.
         by rewrite N.Div0.mod_add. }
    rewrite IH; [done..|]. apply N.Div0.div_lt_upper_bound. lia.
Qed.

Lemma hex_val_not_space c d : hex_val c = Some d → is_space c = false.
Proof.
  destruct c as [[] [] [] [] [] [] [] []]; vm_compute; intros [= <-]; done.
Qed.

Lemma pow16_pow256 j : (16 ^ N.of_nat (2 * j) = 256 ^ N.of_nat j)%N.
Proof.
  replace (N.of_nat (2 * j)) with (2 * N.of_nat j)%N by lia.
  by rewrite N.pow_mul_r.
Qed.

Lemma fromhex_hex j v k acc :
  (v < 256 ^ N.of_nat j)%N →
  fromhex k acc (hex (2 * j) v)
  = Some (mk_oid (k + j) (acc * 256 ^ N.of_nat j + v)).
Proof.
  revert v k acc. induction j as [|j IH]; intros v k acc Hv.
  - assert (v = 0%N) as -> by (cbn in Hv; lia).
    change (2 * 0)%nat with 0%nat. cbn [hex fromhex].
    replace (k + 0)%nat with k by lia.
    replace (acc * 256 ^ N.of_nat 0 + 0)%N with acc; [done|].
    change (N.of_nat 0) with 0%N. rewrite N.pow_0_r. lia.
  - rewrite Nat2N.inj_succ, N.pow_succ_r' in *.
    set (P := (256 ^ N.of_nat j)%N) in *.
    assert (HP : (0 < P)%N) by (apply N.neq_0_lt_0, N.pow_nonzero; lia).
    set (b := (v / P)%N). set (r := (v mod P)%N).
    assert (Hr : (r < P)%N) by (apply N.mod_lt; lia).
    assert (Hb : (b < 256)%N) by (apply N.Div0.div_lt_upper_bound; lia).
    assert (Hvb : v = (b * P + r)%N)
      by (unfold b, r; rewrite (N.div_mod v P) at 1 by lia; lia).
    set (hi := (b / 16)%N). set (lo := (b mod 16)%N).
    assert (Hlo : (lo < 16)%N) by (apply N.mod_lt; lia).
    assert (Hhi : (hi < 16)%N) by (apply N.Div0.div_lt_upper_bound; lia).
    assert (Hbb : b = (hi * 16 + lo)%N)
      by (unfold hi, lo; rewrite (N.div_mod b 16) at 1 by lia; lia).
    replace (2 * S j)%nat with (S (S (2 * j))) by lia.
    replace v with (hi * 16 ^ N.of_nat (S (2 * j)) + (lo * 16 ^ N.of_nat (2 * j) + r))%N.
    2: { rewrite Nat2N.inj_succ, N.pow_succ_r', pow16_pow256. fold P. lia. }
    rewrite hex_cons; [|done|].
    2: { rewrite Nat2N.inj_succ, N.pow_succ_r', pow16_pow256. fold P. nia. }
    rewrite hex_cons; [|done|by rewrite pow16_pow256].
    cbn [fromhex].
    rewrite (hex_val_not_space (hex_char hi) hi) by (by apply hex_val_hex_char).
    rewrite !hex_val_hex_char by done.
    rewrite IH by done. fold P. f_equal. f_equal; [lia|].
    rewrite Nat2N.inj_succ, N.pow_succ_r', pow16_pow256. fold P. lia.
Qed.

Lemma ObjectId_roundtrip (o : N) :
  (o < oid_bound)%N → ObjectId_of_str (oid_str o) = Some (oid12 o).
Proof.
  intros Ho. unfold ObjectId_of_str, oid_str. rewrite hex_length.
  cbn [oid12 oid_len oid_val]. change (Nat.eqb (2 * 12) 24) with true. cbv iota.
  rewrite fromhex_hex by exact Ho. done.
Qed.

Lemma oid_eqb_eq a b : oid_eqb a b = true ↔ a = b.
Proof.
  destruct a as [k v], b as [k' v']. unfold oid_eqb. cbn [oid_len oid_val].
  rewrite andb_true_iff, Nat.eqb_eq, N.eqb_eq.
  split; [by intros [-> ->] | by intros [= -> ->]].
Qed.

(** ** Store invariant and store lemmas *)

Lemma db_wf_empty : db_wf (mk_db ∅ 0%N).
Proof.
  split; [done|]. intros name d. unfold coll. simpl.
  rewrite lookup_empty. simpl. by intros ?%elem_of_nil.
Qed.

Lemma matches_by_id o (d : doc) :
  matches (by_id o) d = true ↔ d !! "_id" = Some (VOid o).
Proof.
  unfold matches, by_id. simpl. rewrite andb_true_r.
  destruct (d !! "_id") as [v|]; [|done].
  destruct v; simpl; try done.
  rewrite oid_eqb_eq. split; [by intros ->|by intros [= ->]].
Qed.

Lemma matches_by_id_false o (d : doc) :
  d !! "_id" ≠ Some (VOid o) → matches (by_id o) d = false.
Proof.
  intros H. destruct (matches (by_id o) d) eqn:E; [|done].
  by apply matches_by_id in E.
Qed.

Lemma find_app_fresh {A} (p : A → bool) l x :
  (∀ y, y ∈ l → p y = false) → p x = true → List.find p (l ++ [x]) = Some x.
Proof.
  intros Hl Hx. induction l as [|y l IH]; simpl.
  - by rewrite Hx.
  - rewrite Hl by (apply elem_of_cons; by left).
    apply IH. intros z Hz. apply Hl, elem_of_cons. by right.
Qed.

Lemma coll_set s name l name' :
  coll (set_coll s name l) name' = if decide (name = name') then l else coll s name'.
Proof.
  unfold coll, set_coll. simpl. case_decide as E.
  - subst. by rewrite lookup_insert_eq.
  - by rewrite lookup_insert_ne.
Qed.

Lemma create_then_fetch name data stamp s :
  db_wf s →
  bind (create_document name data stamp) (λ inserted_id,
    bind (lift (ObjectId_new inserted_id)) (λ oid,
      bind (find_one name (by_id oid)) (λ d, lift (serialize_doc d)))) s
  = (serialize_doc (Some (stored_doc (next_oid s) stamp data)),
     mk_db (<[name := (coll s name ++ [stored_doc (next_oid s) stamp data])%list]>
              (collections s))
           (N.succ (next_oid s))).
Proof.
  intros [Hb Hids]. unfold bind, create_document, lift, ObjectId_new, find_one.
  rewrite ObjectId_roundtrip by done. cbn [query_ok by_id forallb clause_ok cond_ok andb].
  f_equal. f_equal.
  fold (stored_doc (next_oid s) stamp data).
  change (coll (mk_db ?m ?n) name) with (default [] (m !! name)).
  rewrite lookup_insert_eq. cbn [default].
  apply find_app_fresh.
  - intros d Hd. apply matches_by_id_false.
    destruct (Hids name d Hd) as (o & Ho & Hlt). rewrite Ho. intros [= ->]. lia.
  - apply matches_by_id. unfold stored_doc. by rewrite lookup_insert_eq.
Qed.

Lemma create_document_wf name data stamp s :
  db_wf s → (N.succ (next_oid s) < oid_bound)%N →
  db_wf (snd (create_document name data stamp s)).
Proof.
  intros [Hb Hids] Hb'. split; [done|]. simpl.
  intros name' d. unfold coll at 1. simpl.
  destruct (decide (name = name')) as [->|Hne].
  - rewrite lookup_insert_eq. simpl. intros [Hd|Hd]%elem_of_app.
    + destruct (Hids name' d Hd) as (o & Ho & Hlt). exists o. split; [done|lia].
    + apply list_elem_of_singleton in Hd as ->. exists (next_oid s).
      split; [by rewrite lookup_insert_eq | lia].
  - rewrite lookup_insert_ne by done. intros Hd.
    destruct (Hids name' d Hd) as (o & Ho & Hlt). exists o. split; [done|lia].
Qed.

(** ** Order creation *)

Lemma float_of_int_bounded n :
  (Z.abs n < float_int_bound)%Z → float_of_int n = Some (nearest_float n).
Proof. intros H%Z.ltb_lt. unfold float_of_int. by rewrite H. Qed.

Lemma sum_lines_bounded items acc :
  Forall (λ i, (Z.abs (CartItem.quantity i) < float_int_bound)%Z) items →
  sum_lines acc items
  = Ok (fold_left PrimFloat.add
          (map (λ i, PrimFloat.mul (CartItem.price i)
                       (nearest_float (CartItem.quantity i))) items)
          acc).
Proof.
  intros H. revert acc. induction H as [|i l Hi _ IH]; intros acc; cbn [sum_lines]; [done|].
  rewrite float_of_int_bounded by done. apply IH.
Qed.

Lemma int64_converts n : int64 n → (Z.abs n < float_int_bound)%Z.
Proof.
  unfold int64. intros H.
  assert (2 ^ 63 < float_int_bound)%Z by (by vm_compute). lia.
Qed.

Lemma create_order_accepted payload now stamp s total :
  OrderCreate.payment_method payload = "COD" →
  OrderCreate.items payload ≠ [] →
  order_total (OrderCreate.items payload) = Ok total →
  db_wf s →
  create_order payload now stamp s
  = (serialize_doc (Some (stored_doc (next_oid s) stamp (order_doc payload total now))),
     mk_db (<["order" := (coll s "order"
                          ++ [stored_doc (next_oid s) stamp (order_doc payload total now)])%list]>
              (collections s))
           (N.succ (next_oid s))).
Proof.
  intros Hpm Hitems Htot Hwf. unfold create_order.
  rewrite Hpm. cbn [String.eqb Ascii.eqb Bool.eqb negb].
  destruct (OrderCreate.items payload) as [|i l] eqn:Hi; [done|].
  cbn [length Nat.eqb]. unfold bind at 1, lift at 1. rewrite Htot.
  rewrite <- Hi. by apply create_then_fetch.
Qed.



(** ** Partial updates *)

Lemma update_first_split (p : doc → bool) f l d :
  List.find p l = Some d →
  ∃ l1 l2, l = (l1 ++ d :: l2)%list ∧ (∀ x, x ∈ l1 → p x = false) ∧
           update_first p f l = Some (l1 ++ f d :: l2)%list.
Proof.
  induction l as [|x l IH]; simpl; [done|].
  destruct (p x) eqn:Hx.
  - intros [= ->]. exists [], l. split; [done|]. split; [|done].
    by intros ? ?%elem_of_nil.
  - intros (l1 & l2 & -> & Hl1 & Hu)%IH. exists (x :: l1), l2.
    split; [done|]. split.
    + intros y [->|Hy]%elem_of_cons; auto.
    + by rewrite Hu.
Qed.

Lemma update_first_None (p : doc → bool) f l :
  List.find p l = None → update_first p f l = None.
Proof.
  induction l as [|x l IH]; simpl; [done|].
  destruct (p x); [done|]. intros H. by rewrite IH.
Qed.

Lemma find_middle {A} (p : A → bool) l1 x l2 :
  (∀ y, y ∈ l1 → p y = false) → p x = true →
  List.find p (l1 ++ x :: l2) = Some x.
Proof.
  intros Hl Hx. induction l1 as [|y l1 IH]; simpl.
  - by rewrite Hx.
  - rewrite Hl by (apply elem_of_cons; by left).
    apply IH. intros z Hz. apply Hl, elem_of_cons. by right.
Qed.

Lemma update_tail_found name id_str updates not_found s oid old :
  to_object_id id_str = Ok oid →
  List.find (matches (by_id oid)) (coll s name) = Some old →
  updates !! "_id" = None →
  ∃ l1 l2,
    coll s name = (l1 ++ old :: l2)%list ∧
    (∀ x, x ∈ l1 → matches (by_id oid) x = false) ∧
    update_tail name id_str updates not_found s
    = (serialize_doc (Some (updates ∪ old)),
       set_coll s name (l1 ++ (updates ∪ old) :: l2)%list).
Proof.
  intros Hid Hfind Hup.
  destruct (update_first_split _ (λ d, updates ∪ d) _ _ Hfind) as (l1 & l2 & Hl & Hl1 & Hu).
  exists l1, l2. split; [done|]. split; [done|].
  unfold update_tail, bind, lift, update_one, find_one. rewrite Hid.
  cbn [query_ok by_id forallb clause_ok cond_ok andb]. rewrite Hu.
  cbn [N.eqb]. rewrite coll_set, decide_True by done.
  rewrite find_middle; [done..|].
  apply matches_by_id. rewrite lookup_union, Hup.
  apply find_some in Hfind as [_ Hm]. apply matches_by_id in Hm. by rewrite Hm.
Qed.

Lemma update_tail_missing name id_str updates not_found s oid :
  to_object_id id_str = Ok oid →
  List.find (matches (by_id oid)) (coll s name) = None →
  update_tail name id_str updates not_found s = (Raise not_found, s).
Proof.
  intros Hid Hfind.
  unfold update_tail, bind, lift, update_one, raise. rewrite Hid.
  cbn [query_ok by_id forallb clause_ok cond_ok andb].
  by rewrite update_first_None.
Qed.

Lemma dict_cons_lookup k0 v rest k :
  dict ((k0, v) :: rest) !! k = if decide (k = k0) then Some v else dict rest !! k.
Proof.
  unfold dict. cbn [list_to_map foldr]. case_decide as E.
  - subst. by rewrite lookup_insert_eq.
  - by rewrite lookup_insert_ne.
Qed.

Lemma dict_unless_none_lookup {A} k0 (f : A → value) (o : option A) rest k :
  dict (unless_none k0 f o ++ rest)%list !! k
  = if decide (k = k0) then
      match o with Some a => Some (f a) | None => dict rest !! k end
    else dict rest !! k.
Proof.
  destruct o as [a|]; simpl.
  - apply dict_cons_lookup.
  - by case_decide.
Qed.

Lemma dict_nil_lookup k : dict [] !! k = None.
Proof. apply lookup_empty. Qed.

Lemma product_updates_lookup payload now k :
  product_updates payload now !! k
  = if decide (k = "updated_at") then Some (VDate now)
    else if decide (k = "title") then VStr <$> ProductUpdate.title payload
    else if decide (k = "description") then VStr <$> ProductUpdate.description payload
    else if decide (k = "price") then VFloat <$> ProductUpdate.price payload
    else if decide (k = "currency") then VStr <$> ProductUpdate.currency payload
    else if decide (k = "category") then VStr <$> ProductUpdate.category payload
    else if decide (k = "image_url") then VStr <$> ProductUpdate.image_url payload
    else if decide (k = "in_stock") then VBool <$> ProductUpdate.in_stock payload
    else None.
Proof.
  unfold product_updates, ProductUpdate.model_dump_exclude_none.
  destruct (decide (k = "updated_at")) as [->|?]; [by rewrite lookup_insert_eq|].
  rewrite lookup_insert_ne by done.
  rewrite <- (app_nil_r (unless_none "in_stock" _ _)).
  rewrite !dict_unless_none_lookup, dict_nil_lookup.
  destruct payload as [t d p c g u i]; cbn.
  repeat (case_decide; [subst k; repeat (rewrite decide_False by done);
                        match goal with |- context [match ?o with _ => _ end] => by destruct o end|]).
  done.
Qed.

Lemma find_one_by_id name oid s d :
  find_one name (by_id oid) s = (Ok d, s) ↔
  List.find (matches (by_id oid)) (coll s name) = d.
Proof.
  unfold find_one. cbn [query_ok by_id forallb clause_ok cond_ok andb].
  split; [by intros [= ->] | by intros ->].
Qed.

Lemma product_dump_empty payload :
  dict (ProductUpdate.model_dump_exclude_none payload) = ∅ → payload = no_fields.
Proof.
  intros H.
  assert (Hk : ∀ k, k ≠ "updated_at" →
                    product_updates payload (mk_datetime 0 0 0 0 0 0 0) !! k = None).
  { intros k Hk. unfold product_updates. rewrite H, lookup_insert_ne by done.
    apply lookup_empty. }
  pose proof (Hk "title" ltac:(done)) as H1.
  pose proof (Hk "description" ltac:(done)) as H2.
  pose proof (Hk "price" ltac:(done)) as H3.
  pose proof (Hk "currency" ltac:(done)) as H4.
  pose proof (Hk "category" ltac:(done)) as H5.
  pose proof (Hk "image_url" ltac:(done)) as H6.
  pose proof (Hk "in_stock" ltac:(done)) as H7.
  rewrite product_updates_lookup in H1, H2, H3, H4, H5, H6, H7.
  cbn in H1, H2, H3, H4, H5, H6, H7.
  destruct payload as [t d p c g u i]. cbn in H1, H2, H3, H4, H5, H6, H7.
  apply fmap_None in H1, H2, H3, H4, H5, H6, H7. by subst.
Qed.

Lemma update_product_unfold ADMIN_KEY product_id payload key now s :
  key = Some (getenv_ADMIN_KEY ADMIN_KEY) →
  payload ≠ no_fields →
  update_product ADMIN_KEY product_id payload key now s
  = update_tail "product" product_id (product_updates payload now)
      (HTTPException 404 "Product not found") s.
Proof.
  intros Hkey Hp. unfold update_product, bind at 1, lift at 1.
  rewrite require_admin_pass by done.
  rewrite bool_decide_eq_false_2; [done|].
  intros H. by apply product_dump_empty in H.
Qed.

Lemma merged_union {A} (f : A → value) (o : option A) (old : option value) :
  (f <$> o) ∪ old = merged f o old.
Proof. destruct o, old; done. Qed.

(** C4: a product update that supplies at least one field, on an existing
    product and with a valid key, stores and returns a document in which
    each supplied field holds the supplied value, [updated_at] holds the
    time of the update, and every other field holds what was stored; the
    other documents of the collection stay as they were. *)
Theorem update_product_partial ADMIN_KEY product_id payload key now s oid old :
  key = Some (getenv_ADMIN_KEY ADMIN_KEY) →
  to_object_id product_id = Ok oid →
  find_one "product" (by_id oid) s = (Ok (Some old), s) →
  payload ≠ no_fields →
  ∃ new out l1 l2,
    coll s "product" = (l1 ++ old :: l2)%list ∧
    update_product ADMIN_KEY product_id payload key now s
    = (Ok (Some out), set_coll s "product" (l1 ++ new :: l2)%list) ∧
    find_one "product" (by_id oid) (set_coll s "product" (l1 ++ new :: l2)%list)
    = (Ok (Some new), set_coll s "product" (l1 ++ new :: l2)%list) ∧
    serialize_doc (Some new) = Ok (Some out) ∧
    new !! "updated_at" = Some (VDate now) ∧
    new !! "title" = merged VStr (ProductUpdate.title payload) (old !! "title") ∧
    new !! "description"
      = merged VStr (ProductUpdate.description payload) (old !! "description") ∧
    new !! "price" = merged VFloat (ProductUpdate.price payload) (old !! "price") ∧
    new !! "currency" = merged VStr (ProductUpdate.currency payload) (old !! "currency") ∧
    new !! "category" = merged VStr (ProductUpdate.category payload) (old !! "category") ∧
    new !! "image_url"
      = merged VStr (ProductUpdate.image_url payload) (old !! "image_url") ∧
    new !! "in_stock" = merged VBool (ProductUpdate.in_stock payload) (old !! "in_stock") ∧
    (∀ k, k ≠ "updated_at" → k ∉ product_update_fields → new !! k = old !! k).
Proof.
  intros Hkey Hid Hfind Hp. apply find_one_by_id in Hfind.
  assert (Hnoid : product_updates payload now !! "_id" = None).
  { rewrite product_updates_lookup. by settle_keys. }
  destruct (update_tail_found "product" product_id (product_updates payload now)
              (HTTPException 404 "Product not found") s oid old Hid Hfind Hnoid)
    as (l1 & l2 & Hl & Hl1 & Hrun).
  set (new := product_updates payload now ∪ old) in *.
  assert (Hnew_id : new !! "_id" = Some (VOid oid)).
  { unfold new. rewrite lookup_union, Hnoid.
    apply find_some in Hfind as [_ Hm]. apply matches_by_id in Hm. by rewrite Hm. }
  destruct (serialize_doc_runs new (VOid oid) (oid_str oid)) as [out Hout]; [done..|].
  exists new, out, l1, l2.
  split; [done|]. split; [by rewrite update_product_unfold, Hrun, Hout|].
  split.
  { apply find_one_by_id. rewrite coll_set, decide_True by done.
    apply find_middle; [done|]. by apply matches_by_id. }
  split; [done|].
  unfold new.
  split.
  { rewrite lookup_union, product_updates_lookup. settle_keys.
    by destruct (old !! "updated_at"). }
  repeat (split; [rewrite lookup_union, product_updates_lookup; settle_keys;
                   by rewrite merged_union|]).
  intros k Hk Hnot. rewrite lookup_union, product_updates_lookup.
  unfold product_update_fields in Hnot.
  rewrite !not_elem_of_cons in Hnot. destruct Hnot as (?&?&?&?&?&?&?&_).
  rewrite !decide_False by done. by destruct (old !! k).
Qed.

(** ** Order status updates *)

Lemma order_updates_lookup payload now k :
  order_updates payload now !! k
  = if decide (k = "updated_at") then Some (VDate now)
    else if decide (k = "status") then Some (VStr (OrderStatusUpdate.status payload))
    else if decide (k = "tracking_note")
         then VStr <$> OrderStatusUpdate.tracking_note payload
    else None.
Proof.
  unfold order_updates, OrderStatusUpdate.model_dump_exclude_none.
  destruct (decide (k = "updated_at")) as [->|?]; [by rewrite lookup_insert_eq|].
  rewrite lookup_insert_ne by done.
  rewrite dict_cons_lookup.
  destruct (decide (k = "status")) as [->|?]; [done|].
  rewrite <- (app_nil_r (unless_none "tracking_note" _ _)).
  rewrite dict_unless_none_lookup, dict_nil_lookup.
  case_decide; [|done]. by destruct (OrderStatusUpdate.tracking_note payload).
Qed.

Lemma update_order_unfold ADMIN_KEY order_id payload key now s :
  key = Some (getenv_ADMIN_KEY ADMIN_KEY) →
  update_order ADMIN_KEY order_id payload key now s
  = update_tail "order" order_id (order_updates payload now)
      (HTTPException 404 "Order not found") s.
Proof.
  intros Hkey. unfold update_order, bind at 1, lift at 1.
  by rewrite require_admin_pass.
Qed.

Lemma bind_lift_Ok {A B} (a : A) (f : A → M B) s :
  bind (lift (Ok a)) f s = f a s.
Proof. done. Qed.

Lemma bind_lift_Raise {A B} e (f : A → M B) s :
  bind (lift (Raise e)) f s = (Raise e, s).
Proof. done. Qed.

Lemma order_validate_given st note :
  OrderStatusUpdate.validate (OrderStatusUpdate.Body.mk (Given st) note)
  = Ok (OrderStatusUpdate.mk st (slot_option note)).
Proof. by destruct note. Qed.

Lemma order_validate_no_status body :
  slot_option (OrderStatusUpdate.Body.status body) = None →
  ∃ kind, OrderStatusUpdate.validate body
          = Raise (RequestValidationError [("status", kind)]).
Proof.
  destruct body as [[| |st] note]; [| |done]; intros _;
    destruct note; by eexists.
Qed.

(** C7, as the code has it: [status] is required and [tracking_note] is
    optional.  With a valid key and a well-formed identifier, a body that
    gives [status] updates a stored order: [status] takes the given
    value, [tracking_note] takes the given value if there is one,
    [updated_at] is set, every other field keeps its stored value, and
    the serialized stored document is returned; when no order has that
    identifier the answer is 404 and nothing changes.  A body without
    [status] (only [tracking_note], say) is refused by validation and
    nothing changes. *)
Theorem update_order_status ADMIN_KEY order_id body key now s oid :
  key = Some (getenv_ADMIN_KEY ADMIN_KEY) →
  to_object_id order_id = Ok oid →
  match OrderStatusUpdate.Body.status body with
  | Given st =>
      match List.find (matches (by_id oid)) (coll s "order") with
      | Some old =>
          ∃ new out l1 l2,
            coll s "order" = (l1 ++ old :: l2)%list ∧
            patch_api_orders ADMIN_KEY order_id body key now s
            = (Ok (Some out), set_coll s "order" (l1 ++ new :: l2)%list) ∧
            find_one "order" (by_id oid) (set_coll s "order" (l1 ++ new :: l2)%list)
            = (Ok (Some new), set_coll s "order" (l1 ++ new :: l2)%list) ∧
            serialize_doc (Some new) = Ok (Some out) ∧
            new !! "updated_at" = Some (VDate now) ∧
            new !! "status" = Some (VStr st) ∧
            new !! "tracking_note"
            = merged VStr (slot_option (OrderStatusUpdate.Body.tracking_note body))
                (old !! "tracking_note") ∧
            (∀ k, k ∉ ["updated_at"; "status"; "tracking_note"] → new !! k = old !! k)
      | None =>
          patch_api_orders ADMIN_KEY order_id body key now s
          = (Raise (HTTPException 404 "Order not found"), s)
      end
  | _ =>
      ∃ errors,
        patch_api_orders ADMIN_KEY order_id body key now s
        = (Raise (RequestValidationError errors), s)
  end.
Proof.
  intros Hkey Hid.
  destruct body as [status note]. cbn [OrderStatusUpdate.Body.status
                                       OrderStatusUpdate.Body.tracking_note].
  destruct status as [| |st].
  1,2: unfold patch_api_orders, bind, lift; destruct note; by eexists.
  unfold patch_api_orders. rewrite order_validate_given, bind_lift_Ok.
  rewrite update_order_unfold by done.
  set (payload := OrderStatusUpdate.mk st (slot_option note)).
  destruct (List.find _ _) as [old|] eqn:Hfind.
  - assert (Hnoid : order_updates payload now !! "_id" = None).
    { rewrite order_updates_lookup. by settle_keys. }
    destruct (update_tail_found "order" order_id (order_updates payload now)
                (HTTPException 404 "Order not found") s oid old Hid Hfind Hnoid)
      as (l1 & l2 & Hl & Hl1 & Hrun).
    set (new := order_updates payload now ∪ old) in *.
    assert (Hnew_id : new !! "_id" = Some (VOid oid)).
    { unfold new. rewrite lookup_union, Hnoid.
      apply find_some in Hfind as [_ Hm]. apply matches_by_id in Hm. by rewrite Hm. }
    destruct (serialize_doc_runs new (VOid oid) (oid_str oid)) as [out Hout]; [done..|].
    exists new, out, l1, l2.
    split; [done|]. split; [by rewrite Hrun, Hout|].
    split.
    { apply find_one_by_id. rewrite coll_set, decide_True by done.
      apply find_middle; [done|]. by apply matches_by_id. }
    split; [done|]. unfold new.
    split.
    { rewrite lookup_union, order_updates_lookup. settle_keys.
      by destruct (old !! "updated_at"). }
    split.
    { rewrite lookup_union, order_updates_lookup. settle_keys.
      by destruct (old !! "status"). }
    split.
    { rewrite lookup_union, order_updates_lookup. settle_keys.
      by rewrite merged_union. }
    intros k Hnot. rewrite lookup_union, order_updates_lookup.
    rewrite !not_elem_of_cons in Hnot. destruct Hnot as (?&?&?&_).
    rewrite !decide_False by done. by destruct (old !! k).
  - by apply update_tail_missing with (oid := oid).
Qed.

(** ** Null fields in partial updates *)

Lemma optional_null_as_absent {A} (f : slot A) :
  optional (null_as_absent f) = optional f.
Proof. by destruct f. Qed.

Lemma optional_ge0_null_as_absent loc f :
  ProductUpdate.optional_ge0 loc (null_as_absent f) = ProductUpdate.optional_ge0 loc f.
Proof. by destruct f. Qed.

Lemma product_validate_without_nulls body :
  ProductUpdate.validate (product_body_without_nulls body) = ProductUpdate.validate body.
Proof.
  unfold ProductUpdate.validate, product_body_without_nulls.
  cbn [ProductUpdate.Body.title ProductUpdate.Body.description ProductUpdate.Body.price
       ProductUpdate.Body.currency ProductUpdate.Body.category
       ProductUpdate.Body.image_url ProductUpdate.Body.in_stock].
  by rewrite !optional_null_as_absent, optional_ge0_null_as_absent.
Qed.

Lemma optional_inr {A} (f : slot A) : optional f = inr (slot_option f).
Proof. by destruct f. Qed.

Lemma product_validate_Ok body payload :
  ProductUpdate.validate body = Ok payload →
  ProductUpdate.title payload = slot_option (ProductUpdate.Body.title body) ∧
  ProductUpdate.description payload = slot_option (ProductUpdate.Body.description body) ∧
  ProductUpdate.price payload = slot_option (ProductUpdate.Body.price body) ∧
  ProductUpdate.currency payload = slot_option (ProductUpdate.Body.currency body) ∧
  ProductUpdate.category payload = slot_option (ProductUpdate.Body.category body) ∧
  ProductUpdate.image_url payload = slot_option (ProductUpdate.Body.image_url body) ∧
  ProductUpdate.in_stock payload = slot_option (ProductUpdate.Body.in_stock body).
Proof.
  destruct body as [t d p c g u i]. unfold ProductUpdate.validate.
  cbn [ProductUpdate.Body.title ProductUpdate.Body.description ProductUpdate.Body.price
       ProductUpdate.Body.currency ProductUpdate.Body.category
       ProductUpdate.Body.image_url ProductUpdate.Body.in_stock].
  rewrite !optional_inr.
  assert (Hp : ∀ r, ProductUpdate.optional_ge0 "price" p = inr r → r = slot_option p).
  { destruct p as [| |x]; simpl; try by intros r [= <-].
    unfold ge0. destruct (PrimFloat.leb 0 x); simpl; [by intros r [= <-]|done]. }
  destruct (ProductUpdate.optional_ge0 "price" p) as [e|r] eqn:Hr; [done|].
  specialize (Hp r eq_refl). subst r. by intros [= <-].
Qed.

Lemma given_not_in {A} k0 (f : slot A) rest k :
  k ∉ (given k0 f ++ rest)%list → (k = k0 → slot_option f = None) ∧ k ∉ rest.
Proof.
  destruct f; simpl.
  - done.
  - done.
  - rewrite not_elem_of_cons. intros [? ?]. done.
Qed.

Lemma product_updates_not_given body payload now k :
  ProductUpdate.validate body = Ok payload →
  k ≠ "updated_at" → k ∉ product_given_fields body →
  product_updates payload now !! k = None.
Proof.
  intros (H1&H2&H3&H4&H5&H6&H7)%product_validate_Ok Hk Hnot.
  unfold product_given_fields in Hnot.
  apply given_not_in in Hnot as [G1 Hnot]. apply given_not_in in Hnot as [G2 Hnot].
  apply given_not_in in Hnot as [G3 Hnot]. apply given_not_in in Hnot as [G4 Hnot].
  apply given_not_in in Hnot as [G5 Hnot]. apply given_not_in in Hnot as [G6 Hnot].
  rewrite <- (app_nil_r (given "in_stock" _)) in Hnot.
  apply given_not_in in Hnot as [G7 _].
  rewrite product_updates_lookup, H1, H2, H3, H4, H5, H6, H7.
  rewrite decide_False by done.
  destruct (decide (k = "title")) as [E|?]; [by rewrite (G1 E)|].
  destruct (decide (k = "description")) as [E|?]; [by rewrite (G2 E)|].
  destruct (decide (k = "price")) as [E|?]; [by rewrite (G3 E)|].
  destruct (decide (k = "currency")) as [E|?]; [by rewrite (G4 E)|].
  destruct (decide (k = "category")) as [E|?]; [by rewrite (G5 E)|].
  destruct (decide (k = "image_url")) as [E|?]; [by rewrite (G6 E)|].
  destruct (decide (k = "in_stock")) as [E|?]; [by rewrite (G7 E)|].
  done.
Qed.

Lemma product_updates_not_null payload now k :
  product_updates payload now !! k ≠ Some VNone.
Proof.
  rewrite product_updates_lookup.
  destruct (decide (k = "updated_at")); [done|].
  destruct (decide (k = "title")); [by destruct (ProductUpdate.title payload)|].
  destruct (decide (k = "description")); [by destruct (ProductUpdate.description payload)|].
  destruct (decide (k = "price")); [by destruct (ProductUpdate.price payload)|].
  destruct (decide (k = "currency")); [by destruct (ProductUpdate.currency payload)|].
  destruct (decide (k = "category")); [by destruct (ProductUpdate.category payload)|].
  destruct (decide (k = "image_url")); [by destruct (ProductUpdate.image_url payload)|].
  destruct (decide (k = "in_stock")); [by destruct (ProductUpdate.in_stock payload)|].
  done.
Qed.

Lemma order_updates_not_null payload now k :
  order_updates payload now !! k ≠ Some VNone.
Proof.
  rewrite order_updates_lookup.
  destruct (decide (k = "updated_at")); [done|].
  destruct (decide (k = "status")); [done|].
  destruct (decide (k = "tracking_note"));
    [by destruct (OrderStatusUpdate.tracking_note payload)|].
  done.
Qed.

Lemma require_admin_cases ADMIN_KEY key :
  (key = Some (getenv_ADMIN_KEY ADMIN_KEY) ∧ require_admin ADMIN_KEY key = Ok tt) ∨
  (∃ e, require_admin ADMIN_KEY key = Raise e).
Proof.
  unfold require_admin. case_decide; [by left | right; by eexists].
Qed.

Lemma updated_doc_found name oid updates s old l1 l2 :
  List.find (matches (by_id oid)) (coll s name) = Some old →
  updates !! "_id" = None →
  (∀ x, x ∈ l1 → matches (by_id oid) x = false) →
  List.find (matches (by_id oid))
    (coll (set_coll s name (l1 ++ (updates ∪ old) :: l2)%list) name)
  = Some (updates ∪ old).
Proof.
  intros Hfind Hup Hl1. rewrite coll_set, decide_True by done.
  apply find_middle; [done|]. apply matches_by_id.
  rewrite lookup_union, Hup.
  apply find_some in Hfind as [_ Hm]. apply matches_by_id in Hm. by rewrite Hm.
Qed.

Lemma patch_product_effect ADMIN_KEY product_id body key now s r s' oid old :
  patch_api_products ADMIN_KEY product_id body key now s = (Ok r, s') →
  to_object_id product_id = Ok oid →
  List.find (matches (by_id oid)) (coll s "product") = Some old →
  ∃ payload new,
    ProductUpdate.validate body = Ok payload ∧
    List.find (matches (by_id oid)) (coll s' "product") = Some new ∧
    (new = old ∨ new = product_updates payload now ∪ old).
Proof.
  intros Hrun Hid Hfind. unfold patch_api_products in Hrun.
  destruct (ProductUpdate.validate body) as [payload|e]; [|done].
  rewrite bind_lift_Ok in Hrun. exists payload.
  unfold update_product in Hrun.
  destruct (require_admin_cases ADMIN_KEY key) as [[Hkey Hadm]|[e Hadm]];
    rewrite Hadm in Hrun; [|done].
  rewrite bind_lift_Ok in Hrun.
  destruct (bool_decide _) eqn:Hempty.
  - injection Hrun as _ <-. exists old. auto.
  - change (update_tail "product" product_id (product_updates payload now)
              (HTTPException 404 "Product not found") s = (Ok r, s')) in Hrun.
    assert (Hnoid : product_updates payload now !! "_id" = None).
    { rewrite product_updates_lookup. by settle_keys. }
    destruct (update_tail_found "product" product_id (product_updates payload now)
                (HTTPException 404 "Product not found") s oid old Hid Hfind Hnoid)
      as (l1 & l2 & Hl & Hl1 & Hrun').
    rewrite Hrun' in Hrun. injection Hrun as _ <-.
    exists (product_updates payload now ∪ old). split; [done|]. split; [|by right].
    by apply updated_doc_found.
Qed.

Lemma patch_order_effect ADMIN_KEY order_id body key now s r s' oid old :
  patch_api_orders ADMIN_KEY order_id body key now s = (Ok r, s') →
  to_object_id order_id = Ok oid →
  List.find (matches (by_id oid)) (coll s "order") = Some old →
  ∃ payload,
    OrderStatusUpdate.validate body = Ok payload ∧
    List.find (matches (by_id oid)) (coll s' "order")
    = Some (order_updates payload now ∪ old).
Proof.
  intros Hrun Hid Hfind. unfold patch_api_orders in Hrun.
  destruct (OrderStatusUpdate.validate body) as [payload|e]; [|done].
  rewrite bind_lift_Ok in Hrun. exists payload. split; [done|].
  unfold update_order in Hrun.
  destruct (require_admin_cases ADMIN_KEY key) as [[Hkey Hadm]|[e Hadm]];
    rewrite Hadm in Hrun; [|done].
  rewrite bind_lift_Ok in Hrun.
  change (update_tail "order" order_id (order_updates payload now)
            (HTTPException 404 "Order not found") s = (Ok r, s')) in Hrun.
  assert (Hnoid : order_updates payload now !! "_id" = None).
  { rewrite order_updates_lookup. by settle_keys. }
  destruct (update_tail_found "order" order_id (order_updates payload now)
              (HTTPException 404 "Order not found") s oid old Hid Hfind Hnoid)
    as (l1 & l2 & Hl & Hl1 & Hrun').
  rewrite Hrun' in Hrun. injection Hrun as _ <-.
  by apply updated_doc_found.
Qed.

Lemma order_updates_not_given body payload now k :
  OrderStatusUpdate.validate body = Ok payload →
  k ≠ "updated_at" → k ∉ order_given_fields body →
  order_updates payload now !! k = None.
Proof.
  destruct body as [st note]. intros Hv Hk Hnot.
  destruct st as [| |st]; [by destruct note..|].
  rewrite order_validate_given in Hv. injection Hv as <-.
  unfold order_given_fields in Hnot. cbn in Hnot.
  apply not_elem_of_cons in Hnot as [Hst Hnot].
  rewrite order_updates_lookup. rewrite !decide_False by done.
  case_decide as E; [|done]. subst k.
  destruct note; [done..|]. cbn in Hnot. by apply not_elem_of_cons in Hnot as [? _].
Qed.

(** C9: in a partial update a [null] field counts as an absent one.  The
    product route answers and leaves the store as for the body without
    its [null] fields, and so does the order route for [tracking_note]; a
    [null] [status] is refused by validation, the store untouched.  After
    a successful update of a stored document every field the body gives
    no value to (absent or [null]) holds what was stored, and no field
    that was not [null] before is [null] afterwards. *)
Theorem null_field_is_absent ADMIN_KEY key now s :
  (∀ product_id body,
      patch_api_products ADMIN_KEY product_id body key now s
      = patch_api_products ADMIN_KEY product_id (product_body_without_nulls body) key now s) ∧
  (∀ order_id status,
      patch_api_orders ADMIN_KEY order_id (OrderStatusUpdate.Body.mk status Null) key now s
      = patch_api_orders ADMIN_KEY order_id (OrderStatusUpdate.Body.mk status Absent) key now s) ∧
  (∀ order_id note, ∃ errors,
      patch_api_orders ADMIN_KEY order_id (OrderStatusUpdate.Body.mk Null note) key now s
      = (Raise (RequestValidationError errors), s)) ∧
  (∀ product_id body r s' oid old,
      patch_api_products ADMIN_KEY product_id body key now s = (Ok r, s') →
      to_object_id product_id = Ok oid →
      List.find (matches (by_id oid)) (coll s "product") = Some old →
      ∃ new,
        List.find (matches (by_id oid)) (coll s' "product") = Some new ∧
        (∀ k, k ≠ "updated_at" → k ∉ product_given_fields body → new !! k = old !! k) ∧
        (∀ k, new !! k = Some VNone → old !! k = Some VNone)) ∧
  (∀ order_id body r s' oid old,
      patch_api_orders ADMIN_KEY order_id body key now s = (Ok r, s') →
      to_object_id order_id = Ok oid →
      List.find (matches (by_id oid)) (coll s "order") = Some old →
      ∃ new,
        List.find (matches (by_id oid)) (coll s' "order") = Some new ∧
        (∀ k, k ≠ "updated_at" → k ∉ order_given_fields body → new !! k = old !! k) ∧
        (∀ k, new !! k = Some VNone → old !! k = Some VNone)).
Proof.
  split.
  { intros product_id body. unfold patch_api_products.
    by rewrite product_validate_without_nulls. }
  split; [done|].
  split.
  { intros order_id note. unfold patch_api_orders. destruct note; by eexists. }
  split.
  - intros product_id body r s' oid old Hrun Hid Hfind.
    destruct (patch_product_effect _ _ _ _ _ _ _ _ _ _ Hrun Hid Hfind)
      as (payload & new & Hv & Hnew & Hcases).
    exists new. split; [done|].
    destruct Hcases as [->| ->]; [done|]. split.
    + intros k Hk Hnot. rewrite lookup_union.
      rewrite (product_updates_not_given body payload now k) by done.
      by destruct (old !! k).
    + intros k. rewrite lookup_union.
      pose proof (product_updates_not_null payload now k) as Hnn.
      destruct (product_updates payload now !! k) as [v|]; destruct (old !! k);
        simpl; try done; intros [= ->]; done.
  - intros order_id body r s' oid old Hrun Hid Hfind.
    destruct (patch_order_effect _ _ _ _ _ _ _ _ _ _ Hrun Hid Hfind) as (payload & Hv & Hnew).
    eexists. split; [done|]. split.
    + intros k Hk Hnot. rewrite lookup_union.
      rewrite (order_updates_not_given body payload now k) by done.
      by destruct (old !! k).
    + intros k. rewrite lookup_union.
      pose proof (order_updates_not_null payload now k) as Hnn.
      destruct (order_updates payload now !! k) as [v|]; destruct (old !! k);
        simpl; try done; intros [= ->]; done.
Qed.

(** ** Every handler serializes what it returns *)

Lemma bind_Ok_inv {A B} (m : M A) (f : A → M B) s b s' :
  bind m f s = (Ok b, s') → ∃ a s1, m s = (Ok a, s1) ∧ f a s1 = (Ok b, s').
Proof.
  unfold bind. destruct (m s) as [[a|e] s1]; [|done]. intros H. by exists a, s1.
Qed.

Lemma lift_inv {A} (r : outcome A) s r' s' :
  lift r s = (r', s') → r' = r ∧ s' = s.
Proof. by intros [= <- <-]. Qed.

Lemma fetch_outbound name q s out s' :
  bind (find_one name q) (λ d, lift (serialize_doc d)) s = (Ok (Some out), s') →
  s' = s ∧ outbound s name (Some out).
Proof.
  intros (d & s1 & Hf & Hs)%bind_Ok_inv. apply lift_inv in Hs as [Hs ->].
  destruct d as [d|]; [|done].
  apply find_one_Some in Hf as (-> & Hin & _). split; [done|].
  by apply (outbound_intro s name d).
Qed.

Lemma get_product_outbound product_id s r s' :
  get_product product_id s = (Ok r, s') → s' = s ∧ outbound s "product" r.
Proof.
  unfold get_product.
  intros (oid & s1 & [_ ->]%lift_inv & H)%bind_Ok_inv.
  apply bind_Ok_inv in H as (d & s2 & Hf & H).
  destruct d as [d|]; [|done].
  apply find_one_Some in Hf as (-> & Hin & _).
  destruct (falsy (Some d)); [done|].
  apply lift_inv in H as [H ->]. split; [done|].
  by apply (outbound_intro s "product" d).
Qed.

Lemma get_order_outbound ADMIN_KEY order_id key s r s' :
  get_order ADMIN_KEY order_id key s = (Ok r, s') → s' = s ∧ outbound s "order" r.
Proof.
  unfold get_order.
  intros (u & s0 & [_ ->]%lift_inv & H)%bind_Ok_inv.
  apply bind_Ok_inv in H as (oid & s1 & [_ ->]%lift_inv & H).
  apply bind_Ok_inv in H as (d & s2 & Hf & H).
  destruct d as [d|]; [|done].
  apply find_one_Some in Hf as (-> & Hin & _).
  destruct (falsy (Some d)); [done|].
  apply lift_inv in H as [H ->]. split; [done|].
  by apply (outbound_intro s "order" d).
Qed.

Lemma list_orders_outbound ADMIN_KEY key status now s outs s' :
  list_orders ADMIN_KEY key status now s = (Ok outs, s') →
  s' = s ∧ Forall (outbound s "order") outs.
Proof.
  unfold list_orders, get_documents.
  intros (u & s0 & [_ ->]%lift_inv & H)%bind_Ok_inv.
  apply bind_Ok_inv in H as (docs & s1 & Hf & H).
  apply find_Ok in Hf as [-> ->].
  apply bind_Ok_inv in H as (sorted & s2 & [Hsort ->]%lift_inv & H).
  apply lift_inv in H as [Hm ->]. split; [done|].
  symmetry in Hsort. apply sort_by_placed_at_perm in Hsort.
  eapply serialized_list_outbound; [|symmetry; exact Hm].
  intros d Hd. rewrite Hsort in Hd.
  apply list_elem_of_In, filter_In in Hd as [Hd _]. by apply list_elem_of_In.
Qed.

Lemma create_product_outbound ADMIN_KEY payload key stamp s out s' :
  create_product ADMIN_KEY payload key stamp s = (Ok (Some out), s') →
  outbound s' "product" (Some out).
Proof.
  unfold create_product.
  intros (u & s0 & _ & H)%bind_Ok_inv.
  apply bind_Ok_inv in H as (schema & s1 & _ & H).
  apply bind_Ok_inv in H as (inserted_id & s2 & _ & H).
  apply bind_Ok_inv in H as (oid & s3 & [_ ->]%lift_inv & H).
  by apply fetch_outbound in H as [-> H].
Qed.

Lemma create_order_outbound payload now stamp s out s' :
  create_order payload now stamp s = (Ok (Some out), s') →
  outbound s' "order" (Some out).
Proof.
  unfold create_order. destruct (negb _); [done|]. destruct (Nat.eqb _ _); [done|].
  intros (total & s0 & _ & H)%bind_Ok_inv.
  apply bind_Ok_inv in H as (inserted_id & s2 & _ & H).
  apply bind_Ok_inv in H as (oid & s3 & [_ ->]%lift_inv & H).
  by apply fetch_outbound in H as [-> H].
Qed.

Lemma update_product_outbound ADMIN_KEY product_id payload key now s out s' :
  update_product ADMIN_KEY product_id payload key now s = (Ok (Some out), s') →
  out = dict [("updated", VBool false)] ∨ outbound s' "product" (Some out).
Proof.
  unfold update_product.
  intros (u & s0 & _ & H)%bind_Ok_inv.
  destruct (bool_decide _).
  - left. by injection H as <- _.
  - right.
    apply bind_Ok_inv in H as (oid & s1 & _ & H).
    apply bind_Ok_inv in H as (n & s2 & _ & H).
    destruct (n =? 0)%N; [done|].
    apply bind_Ok_inv in H as (oid' & s3 & [_ ->]%lift_inv & H).
    by apply fetch_outbound in H as [-> H].
Qed.

Lemma update_order_outbound ADMIN_KEY order_id payload key now s out s' :
  update_order ADMIN_KEY order_id payload key now s = (Ok (Some out), s') →
  outbound s' "order" (Some out).
Proof.
  unfold update_order.
  intros (u & s0 & _ & H)%bind_Ok_inv.
  apply bind_Ok_inv in H as (oid & s1 & _ & H).
  apply bind_Ok_inv in H as (n & s2 & _ & H).
  destruct (n =? 0)%N; [done|].
  apply bind_Ok_inv in H as (oid' & s3 & [_ ->]%lift_inv & H).
  by apply fetch_outbound in H as [-> H].
Qed.

(** C5: [serialize_doc] turns a stored document into its public view:
    the identifier moves from [_id] to the text field [id], [_id] is gone,
    each of [created_at], [updated_at], [placed_at] holding a datetime
    holds its ISO-8601 text, a field absent from the document is absent
    from the view, and the other fields are as stored.  Every document a
    handler returns, alone or as an element of a list, is such a view of
    a stored document. *)
Theorem serialization_contract :
  (∀ (d : doc) i s, d !! "_id" = Some i → py_str i = Some s →
     ∃ out, serialize_doc (Some d) = Ok (Some out) ∧ public_view d out ∧
            out !! "id" = Some (VStr s)) ∧
  (∀ (d out : doc), serialize_doc (Some d) = Ok (Some out) → public_view d out) ∧
  (∀ q category s outs s',
     list_products q category s = (Ok outs, s') → Forall (outbound s "product") outs) ∧
  (∀ ADMIN_KEY key status now s outs s',
     list_orders ADMIN_KEY key status now s = (Ok outs, s') →
     Forall (outbound s "order") outs) ∧
  (∀ product_id s r s',
     get_product product_id s = (Ok r, s') → outbound s "product" r) ∧
  (∀ ADMIN_KEY order_id key s r s',
     get_order ADMIN_KEY order_id key s = (Ok r, s') → outbound s "order" r) ∧
  (∀ ADMIN_KEY payload key stamp s out s',
     create_product ADMIN_KEY payload key stamp s = (Ok (Some out), s') →
     outbound s' "product" (Some out)) ∧
  (∀ ADMIN_KEY product_id payload key now s out s',
     update_product ADMIN_KEY product_id payload key now s = (Ok (Some out), s') →
     out = dict [("updated", VBool false)] ∨ outbound s' "product" (Some out)) ∧
  (∀ payload now stamp s out s',
     create_order payload now stamp s = (Ok (Some out), s') →
     outbound s' "order" (Some out)) ∧
  (∀ ADMIN_KEY order_id payload key now s out s',
     update_order ADMIN_KEY order_id payload key now s = (Ok (Some out), s') →
     outbound s' "order" (Some out)).
Proof.
  split.
  { intros d i s Hi Hs. destruct (serialize_doc_runs d i s Hi Hs) as [out Hout].
    exists out. split; [done|]. split; [by apply serialize_doc_view|].
    apply serialize_doc_Some in Hout as (i' & s' & Hi' & Hs' & ->).
    rewrite (serialize_doc_lookup d i' s') by done.
    rewrite decide_True by done. congruence. }
  split; [apply serialize_doc_view|].
  split; [intros; by eapply list_products_outbound|].
  split; [intros; by eapply list_orders_outbound|].
  split; [intros; by eapply get_product_outbound|].
  split; [intros; by eapply get_order_outbound|].
  split; [intros; by eapply create_product_outbound|].
  split; [intros; by eapply update_product_outbound|].
  split; [intros; by eapply create_order_outbound|].
  intros; by eapply update_order_outbound.
Qed.

(** ** Product listing *)

Lemma ne_false_matches (v : option value) :
  cond_matches (CNe (LBool false)) v = true ↔ v ≠ Some (VBool false).
Proof.
  destruct v as [v|]; simpl; [|done].
  destruct v; simpl; try done. destruct b; simpl; split; done.
Qed.

Lemma eq_str_matches c (v : option value) :
  cond_matches (CEq (LStr c)) v = true ↔ v = Some (VStr c).
Proof.
  destruct v as [v|]; simpl; [|done].
  destruct v; simpl; try done.
  rewrite String.eqb_eq. split; [by intros -> | by intros [= ->]].
Qed.

Lemma regex_matches pat search (v : option value) :
  regex pat "i" = Some search →
  cond_matches (CRegex pat "i") v = true ↔
  ∃ text, v = Some (VStr text) ∧ search text = true.
Proof.
  intros Hr. cbn [cond_matches]. rewrite Hr.
  destruct v as [v|]; [|split; [done | by intros (? & ? & ?)]].
  destruct v; try (split; [done | by intros (? & [=] & ?)]).
  split; [by exists s | by intros (? & [= <-] & ?)].
Qed.

Lemma text_clause_matches pat search (d : doc) :
  regex pat "i" = Some search →
  clause_matches d (Or [("title", CRegex pat "i"); ("description", CRegex pat "i");
                        ("category", CRegex pat "i")]) = true ↔
  regex_found search d.
Proof.
  intros Hr. unfold regex_found, text_fields. cbn [clause_matches existsb fst snd].
  rewrite !orb_true_iff, !(regex_matches pat search) by done. split.
  - intros [(t & ? & ?)|[(t & ? & ?)|[(t & ? & ?)|?]]]; [| | |done].
    + exists "title", t. rewrite !elem_of_cons. tauto.
    + exists "description", t. rewrite !elem_of_cons. tauto.
    + exists "category", t. rewrite !elem_of_cons. tauto.
  - intros (k & t & Hk & Hd & Hm). rewrite !elem_of_cons, elem_of_nil in Hk.
    destruct Hk as [->|[->|[->|[]]]]; eauto 6.
Qed.

Lemma truthy_Some q : truthy q = true → ∃ pat, q = Some pat ∧ pat ≠ "".
Proof. destruct q as [[|c pat]|]; try done. intros _. by eexists. Qed.

Lemma list_products_query_ok q category :
  query_ok (list_products_filter q category)
  = if truthy q then bool_decide (is_Some (regex (default "" q) "i")) else true.
Proof.
  unfold list_products_filter.
  destruct (truthy q), (truthy category);
    cbn [query_ok app forallb clause_ok cond_ok fst snd andb]; [| |done..];
    by destruct (bool_decide (is_Some (regex (default "" q) "i"))).
Qed.

(** C6, as the code has it: the listing holds exactly the stored products
    whose [in_stock] is not [false]; a non-empty [q] is handed to the
    store as a regular expression with option [i] (case ignored), and a
    product is kept only if the store finds the expression in its title,
    description or category; a non-empty [category] keeps only the
    products of exactly that category.  A [q] the store refuses as an
    expression makes the listing end in the store's error, the store
    unchanged. *)
Theorem list_products_filtering q category s :
  (truthy q = true → regex (default "" q) "i" = None →
   list_products q category s = (Raise (OperationFailure "$regex"), s)) ∧
  (∀ search,
     (truthy q = true → regex (default "" q) "i" = Some search) →
     ∃ docs,
       list_products q category s = (mapM (λ d, serialize_doc (Some d)) docs, s) ∧
       ∀ d, d ∈ docs ↔
            d ∈ coll s "product" ∧
            d !! "in_stock" ≠ Some (VBool false) ∧
            (truthy q = true → regex_found search d) ∧
            (truthy category = true →
             d !! "category" = Some (VStr (default "" category)))).
Proof.
  split.
  - intros Hq Hr. unfold list_products, get_documents, find, bind.
    by rewrite list_products_query_ok, Hq, Hr.
  - intros search Hr.
    exists (List.filter (matches (list_products_filter q category)) (coll s "product")).
    split.
    + unfold list_products, get_documents, find, bind, lift.
      rewrite list_products_query_ok.
      destruct (truthy q); [|done]. by rewrite Hr.
    + intros d. rewrite list_elem_of_In, filter_In, <- list_elem_of_In.
      unfold list_products_filter, matches.
      destruct (truthy q) eqn:Hq, (truthy category) eqn:Hc;
        cbn [app forallb]; rewrite ?andb_true_iff;
        rewrite ?(text_clause_matches _ search) by (by apply Hr);
        cbn [clause_matches]; rewrite ?ne_false_matches, ?eq_str_matches;
        intuition (auto; discriminate).
Qed.

Lemma list_products_run q category s :
  query_ok (list_products_filter q category) = true →
  list_products q category s
  = (mapM (λ d, serialize_doc (Some d))
       (List.filter (matches (list_products_filter q category)) (coll s "product")), s).
Proof.
  intros Hok. unfold list_products, get_documents, find, bind, lift. by rewrite Hok.
Qed.

(** ** Product creation *)

Lemma product_create_validate_Ok body payload :
  ProductCreate.validate body = Ok payload →
  ProductCreate.Body.title body = Given (ProductCreate.title payload) ∧
  ProductCreate.Body.price body = Given (ProductCreate.price payload) ∧
  PrimFloat.leb 0 (ProductCreate.price payload) = true ∧
  ProductCreate.Body.category body = Given (ProductCreate.category payload) ∧
  ProductCreate.Body.currency body ≠ Null ∧
  ProductCreate.Body.in_stock body ≠ Null ∧
  payload = ProductCreate.mk
              (ProductCreate.title payload)
              (slot_option (ProductCreate.Body.description body))
              (ProductCreate.price payload)
              (slot_default "SYP" (ProductCreate.Body.currency body))
              (ProductCreate.category payload)
              (slot_option (ProductCreate.Body.image_url body))
              (slot_default true (ProductCreate.Body.in_stock body)).
Proof.
  destruct body as [t d p c g u i]. unfold ProductCreate.validate.
  cbn [ProductCreate.Body.title ProductCreate.Body.description ProductCreate.Body.price
       ProductCreate.Body.currency ProductCreate.Body.category
       ProductCreate.Body.image_url ProductCreate.Body.in_stock].
  rewrite !optional_inr.
  destruct t as [| |t]; [done..|]. cbn [required].
  destruct p as [| |p]; [done..|]. cbn [required and_then]. unfold ge0.
  destruct (PrimFloat.leb 0 p) eqn:Hp; [|done].
  destruct c as [| |c]; [|done|]; cbn [defaulted];
    (destruct g as [| |g]; [done..|]; cbn [required]);
    (destruct i as [| |i]; [|done|]; cbn [defaulted]);
    intros [= <-]; done.
Qed.

Lemma product_create_validate_title body payload t :
  ProductCreate.validate body = Ok payload →
  ProductCreate.validate (with_title (Given t) body)
  = Ok (ProductCreate.mk t
          (ProductCreate.description payload) (ProductCreate.price payload)
          (ProductCreate.currency payload) (ProductCreate.category payload)
          (ProductCreate.image_url payload) (ProductCreate.in_stock payload)).
Proof.
  intros (Ht & Hp & Hge & Hg & Hc & Hi & ->)%product_create_validate_Ok.
  destruct body as [t0 d p c g u i]. simpl in *. subst.
  unfold ProductCreate.validate, with_title.
  cbn [ProductCreate.Body.title ProductCreate.Body.description ProductCreate.Body.price
       ProductCreate.Body.currency ProductCreate.Body.category
       ProductCreate.Body.image_url ProductCreate.Body.in_stock].
  rewrite !optional_inr. cbn [required and_then]. unfold ge0. rewrite Hge.
  destruct c; [|done|]; destruct i; done.
Qed.

Lemma product_create_no_title body :
  slot_option (ProductCreate.Body.title body) = None →
  ∃ errors, ProductCreate.validate body = Raise (RequestValidationError errors) ∧
            ∃ kind, ("title", kind) ∈ errors.
Proof.
  destruct body as [t d p c g u i]. unfold ProductCreate.validate.
  cbn [ProductCreate.Body.title]. intros Ht.
  destruct t as [| |t]; [| |done]; cbn [required errors_of];
    (eexists; split; [reflexivity|]; eexists; apply elem_of_cons; by left).
Qed.

Lemma create_product_accepted ADMIN_KEY payload key stamp s :
  key = Some (getenv_ADMIN_KEY ADMIN_KEY) →
  PrimFloat.leb 0 (ProductCreate.price payload) = true →
  db_wf s →
  create_product ADMIN_KEY payload key stamp s
  = (serialize_doc (Some (stored_doc (next_oid s) stamp (product_doc payload))),
     mk_db (<["product" := (coll s "product"
                            ++ [stored_doc (next_oid s) stamp (product_doc payload)])%list]>
              (collections s))
           (N.succ (next_oid s))).
Proof.
  intros Hkey Hge Hwf. unfold create_product.
  rewrite require_admin_pass, bind_lift_Ok by done.
  unfold ProductSchema.init, ge0. rewrite Hge, bind_lift_Ok.
  by apply create_then_fetch.
Qed.

Lemma product_doc_title o stamp payload :
  stored_doc o stamp (product_doc payload) !! "title"
  = Some (VStr (ProductCreate.title payload)).
Proof.
  unfold stored_doc, product_doc. rewrite !lookup_insert_ne by done.
  destruct (truthy _); [rewrite lookup_insert_ne by done|]; reflexivity.
Qed.

Lemma product_doc_id o stamp payload :
  stored_doc o stamp (product_doc payload) !! "_id" = Some (VOid o).
Proof. unfold stored_doc. by rewrite lookup_insert_eq. Qed.

(** C8, as the code has it: [title] is required text and nothing more.
    A body without a title (absent or [null]) is refused by validation
    and the store is untouched; the text of a given title plays no part
    in validation, so the empty text passes; and a product that passes is
    stored and returned with the title it was given. *)
Theorem product_title_required ADMIN_KEY key stamp s :
  (∀ body,
      slot_option (ProductCreate.Body.title body) = None →
      ∃ errors kind,
        post_api_products ADMIN_KEY body key stamp s
        = (Raise (RequestValidationError errors), s) ∧
        ("title", kind) ∈ errors) ∧
  (∀ body payload t,
      ProductCreate.validate body = Ok payload →
      ∃ payload',
        ProductCreate.validate (with_title (Given t) body) = Ok payload' ∧
        ProductCreate.title payload' = t) ∧
  (∀ body payload,
      ProductCreate.validate body = Ok payload →
      key = Some (getenv_ADMIN_KEY ADMIN_KEY) →
      db_wf s →
      ∃ stored out,
        post_api_products ADMIN_KEY body key stamp s
        = (Ok (Some out),
           mk_db (<["product" := (coll s "product" ++ [stored])%list]> (collections s))
                 (N.succ (next_oid s))) ∧
        stored !! "title" = Some (VStr (ProductCreate.title payload)) ∧
        out !! "title" = Some (VStr (ProductCreate.title payload))).
Proof.
  split; [|split].
  - intros body (errors & Hv & kind & Hin)%product_create_no_title.
    exists errors, kind. split; [|done].
    unfold post_api_products. by rewrite Hv.
  - intros body payload t Hv. eexists. split.
    + by apply product_create_validate_title.
    + done.
  - intros body payload Hv Hkey Hwf.
    pose proof (product_create_validate_Ok _ _ Hv) as (_ & _ & Hge & _).
    set (stored := stored_doc (next_oid s) stamp (product_doc payload)).
    destruct (serialize_doc_runs stored (VOid (next_oid s)) (oid_str (next_oid s)))
      as [out Hout]; [apply product_doc_id | done |].
    exists stored, out. split; [|split].
    + unfold post_api_products. rewrite Hv, bind_lift_Ok.
      rewrite create_product_accepted by done. fold stored. by rewrite Hout.
    + apply product_doc_title.
    + apply serialize_doc_Some in Hout as (i & t & Hi & Hstr & ->).
      rewrite (serialize_doc_lookup stored i t) by done.
      settle_keys. apply product_doc_title.
Qed.

(** * Further properties of the handlers *)

(** ** Handlers that only read *)

Lemma read_only_lift {A} (r : outcome A) : read_only (lift r).
Proof. by intros s. Qed.

Lemma read_only_raise {A} e : read_only (@raise A e).
Proof. by intros s. Qed.

Lemma read_only_ret {A} (a : A) : read_only (ret a).
Proof. by intros s. Qed.

Lemma read_only_bind {A B} (m : M A) (f : A → M B) :
  read_only m → (∀ a, read_only (f a)) → read_only (bind m f).
Proof.
  intros Hm Hf s. unfold bind. specialize (Hm s).
  destruct (m s) as [[a|e] s1]; simpl in *; subst; [apply Hf | done].
Qed.

Lemma read_only_find name q : read_only (find name q).
Proof. intros s. unfold find. by destruct (query_ok q). Qed.

Lemma read_only_find_one name q : read_only (find_one name q).
Proof. intros s. unfold find_one. by destruct (query_ok q). Qed.

(** X1: the four reading handlers leave the store unchanged, whatever
    their arguments and whatever they answer. *)
Theorem reads_leave_store_unchanged ADMIN_KEY :
  (∀ q category, read_only (list_products q category)) ∧
  (∀ product_id, read_only (get_product product_id)) ∧
  (∀ key status now, read_only (list_orders ADMIN_KEY key status now)) ∧
  (∀ order_id key, read_only (get_order ADMIN_KEY order_id key)).
Proof.
  split; [|split; [|split]].
  - intros q category. unfold list_products, get_documents.
    apply read_only_bind; [apply read_only_find | intros; apply read_only_lift].
  - intros product_id. unfold get_product.
    apply read_only_bind; [apply read_only_lift|]. intros oid.
    apply read_only_bind; [apply read_only_find_one|]. intros d.
    destruct (falsy d); [apply read_only_raise | apply read_only_lift].
  - intros key status now. unfold list_orders, get_documents.
    apply read_only_bind; [apply read_only_lift|]. intros _.
    apply read_only_bind; [apply read_only_find|]. intros docs.
    apply read_only_bind; [apply read_only_lift|]. intros sorted.
    apply read_only_lift.
  - intros order_id key. unfold get_order.
    apply read_only_bind; [apply read_only_lift|]. intros _.
    apply read_only_bind; [apply read_only_lift|]. intros oid.
    apply read_only_bind; [apply read_only_find_one|]. intros d.
    destruct (falsy d); [apply read_only_raise | apply read_only_lift].
Qed.

(** ** Identifiers *)

(** X2: [to_object_id] reads back the text of an identifier: the text
    [str(oid)] of a twelve-byte identifier is accepted and gives [oid]. *)
Theorem to_object_id_of_str o :
  (o < oid_bound)%N → to_object_id (oid_str o) = Ok o.
Proof. intros Ho. unfold to_object_id. by rewrite ObjectId_roundtrip. Qed.

Lemma hex_val_digit c d : hex_val c = Some d → is_hex_digit c = true.
Proof.
  destruct c as [[] [] [] [] [] [] [] []]; vm_compute; intros [= <-]; done.
Qed.

Lemma fromhex_bad_char n s k acc :
  (String.length s ≤ n)%nat →
  forallb (λ c, is_hex_digit c || is_space c) (list_ascii_of_string s) = false →
  fromhex k acc s = None.
Proof.
  revert s k acc. induction n as [|n IH]; intros s k acc Hlen.
  - destruct s; [done|]. cbn in Hlen. lia.
  - destruct s as [|c s]; [done|].
    cbn [list_ascii_of_string forallb fromhex String.length] in *.
    destruct (is_space c) eqn:Hsp.
    + rewrite orb_true_r, andb_true_l. apply IH. lia.
    + destruct (hex_val c) as [hi|] eqn:Hc; [|done].
      rewrite (hex_val_digit c hi Hc). cbn [orb andb].
      destruct s as [|c' s]; [done|].
      cbn [list_ascii_of_string forallb String.length] in *.
      destruct (hex_val c') as [lo|] eqn:Hc'; [|done].
      rewrite (hex_val_digit c' lo Hc'). cbn [orb andb].
      apply IH. lia.
Qed.

Lemma ObjectId_of_str_bad s : bad_id_text s = true → ObjectId_of_str s = None.
Proof.
  unfold bad_id_text, ObjectId_of_str.
  destruct (Nat.eqb (String.length s) 24); cbn [negb orb]; [|done].
  intros H%negb_true_iff. by apply (fromhex_bad_char (String.length s)).
Qed.

Lemma to_object_id_malformed s :
  bad_id_text s = true →
  to_object_id s = Raise (HTTPException 400 "Invalid ID format").
Proof. intros H%ObjectId_of_str_bad. unfold to_object_id. by rewrite H. Qed.

(** ** Malformed and unknown identifiers *)

Lemma find_unknown s name oid :
  unknown_id s name oid → List.find (matches (by_id oid)) (coll s name) = None.
Proof.
  unfold unknown_id. induction (coll s name) as [|d l IH]; intros H; cbn [List.find];
    [done|].
  rewrite matches_by_id_false by (apply H, elem_of_cons; by left).
  apply IH. intros x Hx. apply H, elem_of_cons. by right.
Qed.

Lemma delete_first_None (p : doc → bool) l :
  List.find p l = None → delete_first p l = None.
Proof.
  induction l as [|x l IH]; simpl; [done|].
  destruct (p x); [done|]. intros H. by rewrite IH.
Qed.

Lemma get_product_unfold product_id oid s :
  to_object_id product_id = Ok oid →
  get_product product_id s
  = match List.find (matches (by_id oid)) (coll s "product") with
    | Some d => if bool_decide (d = ∅)
                then (Raise (HTTPException 404 "Product not found"), s)
                else (serialize_doc (Some d), s)
    | None => (Raise (HTTPException 404 "Product not found"), s)
    end.
Proof.
  intros Hid. unfold get_product. rewrite Hid, bind_lift_Ok.
  unfold bind, find_one. cbn [query_ok by_id forallb clause_ok cond_ok andb].
  destruct (List.find _ _) as [d|]; [|done]. cbn [falsy].
  by destruct (bool_decide (d = ∅)).
Qed.

Lemma get_order_unfold ADMIN_KEY order_id key oid s :
  key = Some (getenv_ADMIN_KEY ADMIN_KEY) →
  to_object_id order_id = Ok oid →
  get_order ADMIN_KEY order_id key s
  = match List.find (matches (by_id oid)) (coll s "order") with
    | Some d => if bool_decide (d = ∅)
                then (Raise (HTTPException 404 "Order not found"), s)
                else (serialize_doc (Some d), s)
    | None => (Raise (HTTPException 404 "Order not found"), s)
    end.
Proof.
  intros Hkey Hid. unfold get_order.
  rewrite require_admin_pass, bind_lift_Ok, Hid, bind_lift_Ok by done.
  unfold bind, find_one. cbn [query_ok by_id forallb clause_ok cond_ok andb].
  destruct (List.find _ _) as [d|]; [|done]. cbn [falsy].
  by destruct (bool_decide (d = ∅)).
Qed.

Lemma delete_product_unfold ADMIN_KEY product_id key oid s :
  key = Some (getenv_ADMIN_KEY ADMIN_KEY) →
  to_object_id product_id = Ok oid →
  delete_product ADMIN_KEY product_id key s
  = match delete_first (matches (by_id oid)) (coll s "product") with
    | Some l => (Ok (Some (dict [("deleted", VBool true)])), set_coll s "product" l)
    | None => (Raise (HTTPException 404 "Product not found"), s)
    end.
Proof.
  intros Hkey Hid. unfold delete_product.
  rewrite require_admin_pass, bind_lift_Ok, Hid, bind_lift_Ok by done.
  unfold bind, delete_one. cbn [query_ok by_id forallb clause_ok cond_ok andb].
  by destruct (delete_first _ _).
Qed.

Lemma update_tail_malformed name id_str updates not_found s :
  bad_id_text id_str = true →
  update_tail name id_str updates not_found s
  = (Raise (HTTPException 400 "Invalid ID format"), s).
Proof.
  intros H. unfold update_tail. by rewrite to_object_id_malformed, bind_lift_Raise.
Qed.

(** X3: with a valid key, an identifier whose text is not 24 characters
    long, or holds a character that is neither a hexadecimal digit nor
    white space, makes product fetch, order fetch, product delete, product
    update (with a field to set) and order update answer 400
    "Invalid ID format", the store unchanged. *)
Theorem malformed_id_is_bad_request ADMIN_KEY key id s :
  key = Some (getenv_ADMIN_KEY ADMIN_KEY) →
  bad_id_text id = true →
  get_product id s = (Raise (HTTPException 400 "Invalid ID format"), s) ∧
  get_order ADMIN_KEY id key s = (Raise (HTTPException 400 "Invalid ID format"), s) ∧
  delete_product ADMIN_KEY id key s
  = (Raise (HTTPException 400 "Invalid ID format"), s) ∧
  (∀ payload now, payload ≠ no_fields →
     update_product ADMIN_KEY id payload key now s
     = (Raise (HTTPException 400 "Invalid ID format"), s)) ∧
  (∀ payload now,
     update_order ADMIN_KEY id payload key now s
     = (Raise (HTTPException 400 "Invalid ID format"), s)).
Proof.
  intros Hkey Hid. pose proof (to_object_id_malformed id Hid) as Hbad.
  split; [|split; [|split; [|split]]].
  - unfold get_product. by rewrite Hbad, bind_lift_Raise.
  - unfold get_order. by rewrite require_admin_pass, bind_lift_Ok, Hbad, bind_lift_Raise.
  - unfold delete_product.
    by rewrite require_admin_pass, bind_lift_Ok, Hbad, bind_lift_Raise.
  - intros payload now Hp.
    by rewrite update_product_unfold, update_tail_malformed.
  - intros payload now.
    by rewrite update_order_unfold, update_tail_malformed.
Qed.

(** X4: with a valid key and a well-formed identifier that no stored
    document carries, product fetch, product delete and product update
    (with a field to set) answer 404 "Product not found", and order fetch
    and order update answer 404 "Order not found"; the store is
    unchanged. *)
Theorem unknown_id_is_not_found ADMIN_KEY key id oid s :
  key = Some (getenv_ADMIN_KEY ADMIN_KEY) →
  to_object_id id = Ok oid →
  (unknown_id s "product" oid →
     get_product id s = (Raise (HTTPException 404 "Product not found"), s) ∧
     delete_product ADMIN_KEY id key s
     = (Raise (HTTPException 404 "Product not found"), s) ∧
     (∀ payload now, payload ≠ no_fields →
        update_product ADMIN_KEY id payload key now s
        = (Raise (HTTPException 404 "Product not found"), s))) ∧
  (unknown_id s "order" oid →
     get_order ADMIN_KEY id key s = (Raise (HTTPException 404 "Order not found"), s) ∧
     (∀ payload now,
        update_order ADMIN_KEY id payload key now s
        = (Raise (HTTPException 404 "Order not found"), s))).
Proof.
  intros Hkey Hid. split; intros Hun%find_unknown.
  - split; [|split].
    + by rewrite (get_product_unfold id oid), Hun.
    + by rewrite (delete_product_unfold ADMIN_KEY id key oid), delete_first_None.
    + intros payload now Hp. rewrite update_product_unfold by done.
      by apply update_tail_missing with (oid := oid).
  - split.
    + by rewrite (get_order_unfold ADMIN_KEY id key oid), Hun.
    + intros payload now. rewrite update_order_unfold by done.
      by apply update_tail_missing with (oid := oid).
Qed.

(** ** The store invariant *)

Lemma db_ok_empty : db_ok (mk_db ∅ 0%N).
Proof.
  split; [apply db_wf_empty|]. intros name. unfold coll. simpl.
  rewrite lookup_empty. constructor.
Qed.

Lemma coll_after_create s name l n name' :
  coll (mk_db (<[name := l]> (collections s)) n) name'
  = if decide (name = name') then l else coll s name'.
Proof.
  unfold coll. simpl. case_decide as E.
  - subst. by rewrite lookup_insert_eq.
  - by rewrite lookup_insert_ne.
Qed.

Lemma ids_app l k : ids (l ++ k)%list = (ids l ++ ids k)%list.
Proof. apply map_app. Qed.

Lemma create_document_ok name data stamp s :
  db_ok s → (N.succ (next_oid s) < oid_bound)%N →
  db_ok (snd (create_document name data stamp s)).
Proof.
  intros [Hwf Hnd] Hb. split; [by apply create_document_wf|].
  intros name'. cbn [create_document snd]. rewrite coll_after_create.
  case_decide as E; [subst name'|apply Hnd].
  rewrite ids_app. apply NoDup_app. split; [apply Hnd|]. split.
  - intros i Hi. cbn. rewrite lookup_insert_eq.
    intros ->%list_elem_of_singleton.
    apply list_elem_of_In, in_map_iff in Hi as (d & Hd & Hin).
    apply list_elem_of_In in Hin.
    destruct Hwf as [_ Hids]. destruct (Hids name d Hin) as (o & Ho & Hlt).
    rewrite Ho in Hd. injection Hd as ->. lia.
  - cbn. apply NoDup_singleton.
Qed.

Lemma update_first_ids (p : doc → bool) (f : doc → doc) l l' :
  (∀ d, f d !! "_id" = d !! "_id") →
  update_first p f l = Some l' → ids l' = ids l.
Proof.
  intros Hf. revert l'. induction l as [|d l IH]; intros l'; simpl; [done|].
  destruct (p d).
  - intros [= <-]. simpl. by rewrite Hf.
  - destruct (update_first p f l) as [k|]; [|done]. simpl.
    intros [= <-]. simpl. by rewrite (IH k).
Qed.

Lemma delete_first_split (p : doc → bool) l l' :
  delete_first p l = Some l' →
  ∃ l1 d l2, l = (l1 ++ d :: l2)%list ∧ l' = (l1 ++ l2)%list ∧ p d = true ∧
             ∀ x, x ∈ l1 → p x = false.
Proof.
  revert l'. induction l as [|x l IH]; intros l'; simpl; [done|].
  destruct (p x) eqn:Hx.
  - intros [= <-]. exists [], x, l. repeat split; try done.
    by intros ? ?%elem_of_nil.
  - destruct (delete_first p l) as [k|]; [|done]. simpl. intros [= <-].
    destruct (IH k eq_refl) as (l1 & d & l2 & -> & -> & Hd & Hl1).
    exists (x :: l1), d, l2. repeat split; try done.
    intros y [->|Hy]%elem_of_cons; auto.
Qed.

Lemma db_ok_set_coll s name l :
  db_ok s →
  (∀ i, i ∈ ids l → i ∈ ids (coll s name)) → NoDup (ids l) →
  db_ok (set_coll s name l).
Proof.
  intros [[Hb Hids] Hnd] Hsub Hl. split; [split; [done|]|].
  - intros name' d. rewrite coll_set. case_decide as E; [|apply Hids].
    intros Hd. cbn [set_coll next_oid].
    assert (Hi : d !! "_id" ∈ ids (coll s name)).
    { apply Hsub, list_elem_of_In, in_map_iff. exists d.
      split; [done | by apply list_elem_of_In]. }
    apply list_elem_of_In, in_map_iff in Hi as (d' & Hd' & Hin).
    apply list_elem_of_In in Hin. destruct (Hids name d' Hin) as (o & Ho & Hlt).
    exists o. split; [congruence | done].
  - intros name'. rewrite coll_set. case_decide; [done | apply Hnd].
Qed.

Lemma update_tail_ok name id_str updates not_found s :
  db_ok s → updates !! "_id" = None →
  db_ok (snd (update_tail name id_str updates not_found s)).
Proof.
  intros Hok Hup. unfold update_tail.
  destruct (to_object_id id_str) as [oid|e] eqn:Hid;
    [rewrite bind_lift_Ok | by rewrite bind_lift_Raise].
  unfold bind at 1, update_one. cbn [query_ok by_id forallb clause_ok cond_ok andb].
  destruct (update_first _ _ _) as [l|] eqn:Hu; [|done].
  cbn [N.eqb]. rewrite bind_lift_Ok.
  pose proof (read_only_bind (find_one name (by_id oid)) (λ d, lift (serialize_doc d))
                (read_only_find_one _ _) (λ d, read_only_lift _) (set_coll s name l)) as ->.
  assert (Hids : ids l = ids (coll s name)).
  { apply (update_first_ids (matches (by_id oid)) (λ d, updates ∪ d)); [|done].
    intros d. rewrite lookup_union, Hup. by destruct (d !! "_id"). }
  apply db_ok_set_coll; [done| |]; rewrite Hids; [done|]. apply Hok.
Qed.

Lemma create_tail_state name data stamp s :
  snd (bind (create_document name data stamp) (λ inserted_id,
         bind (lift (ObjectId_new inserted_id)) (λ oid,
           bind (find_one name (by_id oid)) (λ d, lift (serialize_doc d)))) s)
  = snd (create_document name data stamp s).
Proof.
  unfold bind at 1. cbn [create_document].
  apply (read_only_bind (lift _) _ (read_only_lift _)). intros oid.
  apply read_only_bind; [apply read_only_find_one | intros; apply read_only_lift].
Qed.

Lemma ids_without l1 (d : doc) l2 :
  NoDup (ids (l1 ++ d :: l2)%list) →
  NoDup (ids (l1 ++ l2)%list) ∧
  (∀ i, i ∈ ids (l1 ++ l2)%list → i ∈ ids (l1 ++ d :: l2)%list) ∧
  d !! "_id" ∉ ids (l1 ++ l2)%list.
Proof.
  rewrite !ids_app. cbn [ids map].
  rewrite !NoDup_app, NoDup_cons. intros (H1 & H12 & Hd & H2).
  split; [|split].
  - split; [done|]. split; [|done].
    intros i Hi Hi2. apply (H12 i Hi). apply elem_of_cons. by right.
  - intros i. rewrite !elem_of_app, elem_of_cons. tauto.
  - rewrite elem_of_app. intros [Hin|Hin]; [|done].
    apply (H12 _ Hin). apply elem_of_cons. by left.
Qed.

Lemma delete_product_ok ADMIN_KEY product_id key s :
  db_ok s → db_ok (snd (delete_product ADMIN_KEY product_id key s)).
Proof.
  intros Hok. unfold delete_product.
  destruct (require_admin_cases ADMIN_KEY key) as [[_ ->]|[e ->]];
    [rewrite bind_lift_Ok | by rewrite bind_lift_Raise].
  destruct (to_object_id product_id) as [oid|e];
    [rewrite bind_lift_Ok | by rewrite bind_lift_Raise].
  unfold bind, delete_one. cbn [query_ok by_id forallb clause_ok cond_ok andb].
  destruct (delete_first _ _) as [l|] eqn:Hdel; [|done]. cbn [N.eqb ret snd].
  apply delete_first_split in Hdel as (l1 & d & l2 & Hl & -> & _ & _).
  destruct Hok as [Hwf Hnd]. pose proof (Hnd "product") as Hp. rewrite Hl in Hp.
  apply ids_without in Hp as (Hnd' & Hsub & _).
  apply db_ok_set_coll; [done| |done]. by rewrite Hl.
Qed.

Lemma product_updates_no_id payload now : product_updates payload now !! "_id" = None.
Proof. rewrite product_updates_lookup. by settle_keys. Qed.

Lemma order_updates_no_id payload now : order_updates payload now !! "_id" = None.
Proof. rewrite order_updates_lookup. by settle_keys. Qed.

Lemma update_product_ok ADMIN_KEY product_id payload key now s :
  db_ok s → db_ok (snd (update_product ADMIN_KEY product_id payload key now s)).
Proof.
  intros Hok. unfold update_product.
  destruct (require_admin_cases ADMIN_KEY key) as [[_ ->]|[e ->]];
    [rewrite bind_lift_Ok | by rewrite bind_lift_Raise].
  destruct (bool_decide _); [done|].
  change (db_ok (snd (update_tail "product" product_id (product_updates payload now)
                        (HTTPException 404 "Product not found") s))).
  apply update_tail_ok; [done | apply product_updates_no_id].
Qed.

Lemma update_order_ok ADMIN_KEY order_id payload key now s :
  db_ok s → db_ok (snd (update_order ADMIN_KEY order_id payload key now s)).
Proof.
  intros Hok. unfold update_order.
  destruct (require_admin_cases ADMIN_KEY key) as [[_ ->]|[e ->]];
    [rewrite bind_lift_Ok | by rewrite bind_lift_Raise].
  change (db_ok (snd (update_tail "order" order_id (order_updates payload now)
                        (HTTPException 404 "Order not found") s))).
  apply update_tail_ok; [done | apply order_updates_no_id].
Qed.

Lemma create_product_ok ADMIN_KEY payload key stamp s :
  db_ok s → (N.succ (next_oid s) < oid_bound)%N →
  db_ok (snd (create_product ADMIN_KEY payload key stamp s)).
Proof.
  intros Hok Hb. unfold create_product.
  destruct (require_admin_cases ADMIN_KEY key) as [[_ ->]|[e ->]];
    [rewrite bind_lift_Ok | by rewrite bind_lift_Raise].
  destruct (ProductSchema.init _ _ _ _ _) as [schema|e];
    [rewrite bind_lift_Ok | by rewrite bind_lift_Raise].
  rewrite create_tail_state. by apply create_document_ok.
Qed.

Lemma create_order_ok payload now stamp s :
  db_ok s → (N.succ (next_oid s) < oid_bound)%N →
  db_ok (snd (create_order payload now stamp s)).
Proof.
  intros Hok Hb. unfold create_order.
  destruct (negb _); [done|]. destruct (Nat.eqb _ _); [done|].
  destruct (order_total _) as [total|e];
    [rewrite bind_lift_Ok | by rewrite bind_lift_Raise].
  rewrite create_tail_state. by apply create_document_ok.
Qed.

(** X5: the store invariant (every stored document carries an identifier
    handed out by the store, no two documents of a collection share one)
    holds of the empty store and is kept by every writing handler,
    whatever its arguments and its answer: the two creations as long as
    the next identifier fits in twelve bytes, the updates and the delete
    always. *)
Theorem handlers_keep_store_invariant ADMIN_KEY key s :
  db_ok s →
  db_ok (mk_db ∅ 0%N) ∧
  (∀ payload stamp, (N.succ (next_oid s) < oid_bound)%N →
     db_ok (snd (create_product ADMIN_KEY payload key stamp s))) ∧
  (∀ payload now stamp, (N.succ (next_oid s) < oid_bound)%N →
     db_ok (snd (create_order payload now stamp s))) ∧
  (∀ product_id payload now,
     db_ok (snd (update_product ADMIN_KEY product_id payload key now s))) ∧
  (∀ order_id payload now,
     db_ok (snd (update_order ADMIN_KEY order_id payload key now s))) ∧
  (∀ product_id, db_ok (snd (delete_product ADMIN_KEY product_id key s))).
Proof.
  intros Hok. split; [apply db_ok_empty|].
  split; [intros; by apply create_product_ok|].
  split; [intros; by apply create_order_ok|].
  split; [intros; by apply update_product_ok|].
  split; [intros; by apply update_order_ok|].
  intros; by apply delete_product_ok.
Qed.

(** ** Handlers one after the other *)

Lemma fresh_id_unknown s name : db_wf s → unknown_id s name (next_oid s).
Proof.
  intros [_ Hids] d Hd. destruct (Hids name d Hd) as (o & Ho & Hlt).
  rewrite Ho. intros [= ->]. lia.
Qed.

Lemma find_created s name stamp data :
  db_wf s →
  List.find (matches (by_id (next_oid s)))
    (coll s name ++ [stored_doc (next_oid s) stamp data])%list
  = Some (stored_doc (next_oid s) stamp data).
Proof.
  intros Hwf. apply find_app_fresh.
  - intros d Hd. apply matches_by_id_false. by apply (fresh_id_unknown s name).
  - apply matches_by_id. unfold stored_doc. by rewrite lookup_insert_eq.
Qed.

Lemma stored_doc_not_empty o stamp data : stored_doc o stamp data ≠ ∅.
Proof.
  intros H. assert (Hl : stored_doc o stamp data !! "_id" = None)
    by (rewrite H; apply lookup_empty).
  unfold stored_doc in Hl. by rewrite lookup_insert_eq in Hl.
Qed.

Lemma serialized_id (d out : doc) o :
  d !! "_id" = Some (VOid o) → serialize_doc (Some d) = Ok (Some out) →
  out !! "id" = Some (VStr (oid_str o)).
Proof.
  intros Hd (i & t & Hi & Hstr & ->)%serialize_doc_Some.
  rewrite (serialize_doc_lookup d i t) by done. rewrite decide_True by done.
  rewrite Hd in Hi. injection Hi as <-. simpl in Hstr. congruence.
Qed.

(** X6: a product created with a valid key gets an identifier no stored
    product carries, the response shows it as [id], and fetching that
    identifier right after returns the very same document. *)
Theorem create_then_get_product ADMIN_KEY payload key stamp s :
  key = Some (getenv_ADMIN_KEY ADMIN_KEY) →
  PrimFloat.leb 0 (ProductCreate.price payload) = true →
  db_wf s →
  ∃ out s',
    create_product ADMIN_KEY payload key stamp s = (Ok (Some out), s') ∧
    out !! "id" = Some (VStr (oid_str (next_oid s))) ∧
    unknown_id s "product" (next_oid s) ∧
    get_product (oid_str (next_oid s)) s' = (Ok (Some out), s').
Proof.
  intros Hkey Hge Hwf.
  set (stored := stored_doc (next_oid s) stamp (product_doc payload)).
  destruct (serialize_doc_runs stored (VOid (next_oid s)) (oid_str (next_oid s)))
    as [out Hout]; [apply product_doc_id | done |].
  eexists out, _. split; [|split; [|split]].
  - rewrite create_product_accepted by done. fold stored. by rewrite Hout.
  - apply (serialized_id stored); [apply product_doc_id | done].
  - by apply fresh_id_unknown.
  - rewrite (get_product_unfold _ (next_oid s))
      by (apply to_object_id_of_str; apply Hwf).
    rewrite coll_after_create, decide_True by done.
    unfold stored. rewrite find_created by done. fold stored.
    rewrite bool_decide_eq_false_2 by apply stored_doc_not_empty.
    by rewrite Hout.
Qed.

(** X7: an accepted order is stored under an identifier no stored order
    carries, and an admin fetching that identifier right after gets the
    very document the creation returned. *)
Theorem create_then_get_order ADMIN_KEY payload key now stamp s total :
  OrderCreate.payment_method payload = "COD" →
  OrderCreate.items payload ≠ [] →
  order_total (OrderCreate.items payload) = Ok total →
  key = Some (getenv_ADMIN_KEY ADMIN_KEY) →
  db_wf s →
  ∃ out s',
    create_order payload now stamp s = (Ok (Some out), s') ∧
    out !! "id" = Some (VStr (oid_str (next_oid s))) ∧
    unknown_id s "order" (next_oid s) ∧
    get_order ADMIN_KEY (oid_str (next_oid s)) key s' = (Ok (Some out), s').
Proof.
  intros Hpm Hitems Htot Hkey Hwf.
  set (stored := stored_doc (next_oid s) stamp (order_doc payload total now)).
  assert (Hid : stored !! "_id" = Some (VOid (next_oid s)))
    by (unfold stored, stored_doc; by rewrite lookup_insert_eq).
  destruct (serialize_doc_runs stored (VOid (next_oid s)) (oid_str (next_oid s)))
    as [out Hout]; [done..|].
  eexists out, _. split; [|split; [|split]].
  - rewrite (create_order_accepted _ _ _ _ total) by done. fold stored. by rewrite Hout.
  - by apply (serialized_id stored).
  - by apply fresh_id_unknown.
  - rewrite (get_order_unfold ADMIN_KEY _ key (next_oid s) _ Hkey
               (to_object_id_of_str _ (proj1 Hwf))).
    rewrite coll_after_create, decide_True by done.
    unfold stored. rewrite find_created by done. fold stored.
    rewrite bool_decide_eq_false_2 by apply stored_doc_not_empty.
    by rewrite Hout.
Qed.

Lemma union_not_empty (updates old : doc) o :
  old !! "_id" = Some (VOid o) → updates !! "_id" = None → updates ∪ old ≠ ∅.
Proof.
  intros Ho Hu H. assert (Hl : (updates ∪ old) !! "_id" = None)
    by (rewrite H; apply lookup_empty).
  by rewrite lookup_union, Hu, Ho in Hl.
Qed.

(** X8: after a product update that set at least one field, fetching the
    product returns the very document the update returned. *)
Theorem update_then_get_product ADMIN_KEY product_id payload key now s oid old :
  key = Some (getenv_ADMIN_KEY ADMIN_KEY) →
  to_object_id product_id = Ok oid →
  find_one "product" (by_id oid) s = (Ok (Some old), s) →
  payload ≠ no_fields →
  ∃ out s',
    update_product ADMIN_KEY product_id payload key now s = (Ok (Some out), s') ∧
    get_product product_id s' = (Ok (Some out), s').
Proof.
  intros Hkey Hid Hfind Hp. apply find_one_by_id in Hfind.
  pose proof (product_updates_no_id payload now) as Hnoid.
  destruct (update_tail_found "product" product_id (product_updates payload now)
              (HTTPException 404 "Product not found") s oid old Hid Hfind Hnoid)
    as (l1 & l2 & Hl & Hl1 & Hrun).
  set (new := product_updates payload now ∪ old) in *.
  assert (Hold : old !! "_id" = Some (VOid oid)).
  { apply find_some in Hfind as [_ Hm]. by apply matches_by_id in Hm. }
  assert (Hnew : new !! "_id" = Some (VOid oid)).
  { unfold new. by rewrite lookup_union, Hnoid, Hold. }
  destruct (serialize_doc_runs new (VOid oid) (oid_str oid)) as [out Hout]; [done..|].
  exists out, (set_coll s "product" (l1 ++ new :: l2)%list). split.
  - by rewrite update_product_unfold, Hrun, Hout.
  - rewrite (get_product_unfold product_id oid) by done.
    unfold new. rewrite (updated_doc_found "product" oid) by done. fold new.
    rewrite bool_decide_eq_false_2 by (by apply (union_not_empty _ old oid)).
    by rewrite Hout.
Qed.

Lemma delete_first_found (p : doc → bool) l d :
  List.find p l = Some d → ∃ l', delete_first p l = Some l'.
Proof.
  induction l as [|x l IH]; cbn [List.find delete_first]; [done|].
  destruct (p x); [by eexists|]. intros [l' ->]%IH. by eexists.
Qed.

(** X9: deleting a stored product with a valid key answers
    [{"deleted": true}] and takes exactly that document out of the
    collection; when identifiers are unique, as the store invariant has
    it, fetching the product afterwards answers 404. *)
Theorem delete_then_get_product ADMIN_KEY product_id key s oid old :
  db_ok s →
  key = Some (getenv_ADMIN_KEY ADMIN_KEY) →
  to_object_id product_id = Ok oid →
  find_one "product" (by_id oid) s = (Ok (Some old), s) →
  ∃ l1 l2,
    coll s "product" = (l1 ++ old :: l2)%list ∧
    delete_product ADMIN_KEY product_id key s
    = (Ok (Some (dict [("deleted", VBool true)])), set_coll s "product" (l1 ++ l2)%list) ∧
    get_product product_id (set_coll s "product" (l1 ++ l2)%list)
    = (Raise (HTTPException 404 "Product not found"),
       set_coll s "product" (l1 ++ l2)%list).
Proof.
  intros [Hwf Hnd] Hkey Hid Hfind. apply find_one_by_id in Hfind.
  rewrite (delete_product_unfold ADMIN_KEY product_id key oid) by done.
  destruct (delete_first _ _) as [l|] eqn:Hdel.
  2: { destruct (delete_first_found _ _ _ Hfind) as [l' Hl']. congruence. }
  apply delete_first_split in Hdel as (l1 & d & l2 & Hl & -> & Hd & Hl1).
  assert (d = old) as ->.
  { rewrite Hl, (find_middle _ l1 d l2 Hl1 Hd) in Hfind. by injection Hfind. }
  exists l1, l2. split; [done|]. split; [done|].
  rewrite (get_product_unfold product_id oid) by done.
  rewrite find_unknown; [done|].
  intros x Hx Heq. specialize (Hnd "product"). rewrite Hl in Hnd.
  apply ids_without in Hnd as (_ & _ & Hnot). apply Hnot.
  apply matches_by_id in Hd. rewrite Hd, <- Heq.
  apply list_elem_of_In, in_map_iff. exists x. split; [done|].
  apply list_elem_of_In. rewrite coll_set, decide_True in Hx by done. exact Hx.
Qed.

(** ** Order listing *)

Lemma lex_leb_total a b : lex_leb a b = false → lex_leb b a = true.
Proof.
  revert b. induction a as [|x a IH]; intros [|y b]; simpl; try done.
  destruct (x <? y)%N eqn:Hxy; [done|].
  destruct (y <? x)%N eqn:Hyx; [done|]. apply IH.
Qed.

Lemma dt_leb_total a b : dt_leb a b = false → dt_leb b a = true.
Proof. apply lex_leb_total. Qed.

Lemma descending_tail a l : descending (a :: l) = true → descending l = true.
Proof. destruct l as [|b l]; simpl; [done|]. by intros [_ ?]%andb_true_iff. Qed.

Lemma insert_desc_descending x l :
  descending (map fst l) = true → descending (map fst (insert_desc x l)) = true.
Proof.
  induction l as [|y l IH]; [done|]. intros Hl. cbn [insert_desc].
  destruct (dt_leb (fst y) (fst x)) eqn:Hyx.
  - cbn [map descending] in *. by rewrite Hyx, Hl.
  - pose proof (dt_leb_total _ _ Hyx) as Hxy.
    specialize (IH (descending_tail _ _ Hl)).
    destruct l as [|z l]; [cbn [insert_desc map descending]; by rewrite Hxy|].
    cbn [insert_desc] in *. cbn [map descending] in Hl.
    apply andb_true_iff in Hl as [Hzy Hl].
    destruct (dt_leb (fst z) (fst x)); cbn [map descending] in *.
    + by rewrite Hxy, IH.
    + by rewrite Hzy, IH.
Qed.

Lemma sort_desc_descending l : descending (map fst (sort_desc l)) = true.
Proof.
  induction l as [|x l IH]; [done|]. unfold sort_desc in *. cbn [fold_right].
  by apply insert_desc_descending.
Qed.

Lemma placed_at_key_dated now (d : doc) :
  placed_at_dated d → placed_at_key now d = Ok (sort_key now d, d).
Proof.
  unfold placed_at_key, sort_key. by intros [->|[t ->]].
Qed.

Lemma mapM_placed_at_keys now docs :
  Forall placed_at_dated docs →
  mapM (placed_at_key now) docs = Ok (map (λ d, (sort_key now d, d)) docs).
Proof.
  induction 1 as [|d docs Hd _ IH]; [done|]. cbn [mapM map].
  by rewrite placed_at_key_dated, IH.
Qed.

Lemma sorted_keys now (l : list (datetime * doc)) :
  Forall (λ p, fst p = sort_key now (snd p)) l →
  map (sort_key now) (map snd l) = map fst l.
Proof. induction 1 as [|p l Hp _ IH]; [done|]. cbn [map]. by rewrite IH, Hp. Qed.

Lemma sort_by_placed_at_dated now docs :
  Forall placed_at_dated docs →
  ∃ sorted, sort_by_placed_at now docs = Ok sorted ∧ sorted ≡ₚ docs ∧
            descending (map (sort_key now) sorted) = true.
Proof.
  intros Hd. unfold sort_by_placed_at. rewrite mapM_placed_at_keys by done.
  set (keyed := map (λ d, (sort_key now d, d)) docs).
  exists (map snd (sort_desc keyed)). split; [done|]. split.
  - rewrite sort_desc_perm. unfold keyed. rewrite map_map. cbn. by rewrite map_id.
  - rewrite sorted_keys; [apply sort_desc_descending|].
    apply Forall_forall. intros p Hp.
    assert (Hin : p ∈ keyed) by (by rewrite <- (sort_desc_perm keyed)).
    apply list_elem_of_In, in_map_iff in Hin as (d & <- & _). done.
Qed.

Lemma status_filter_matches status (d : doc) :
  matches (if truthy status then [Field "status" (CEq (LStr (default "" status)))]
           else []) d
  = status_selected status d.
Proof.
  unfold status_selected, has_status. destruct (truthy status); [|done].
  cbn. rewrite andb_true_r. destruct (d !! "status") as [[]|]; try done.
  cbn. apply String.eqb_sym.
Qed.

(** X10: with a valid key, and every stored order placed at a datetime,
    [list_orders] serializes exactly the orders selected by the status
    parameter (all of them when it is absent or empty, else those whose
    status is that text), each once, latest placement first; a missing
    [placed_at] counts as the time of the listing. *)
Theorem list_orders_latest_first ADMIN_KEY key status now s :
  key = Some (getenv_ADMIN_KEY ADMIN_KEY) →
  Forall placed_at_dated (coll s "order") →
  ∃ docs,
    list_orders ADMIN_KEY key status now s
    = (mapM (λ d, serialize_doc (Some d)) docs, s) ∧
    docs ≡ₚ List.filter (status_selected status) (coll s "order") ∧
    descending (map (sort_key now) docs) = true.
Proof.
  intros Hkey Hdated. unfold list_orders, get_documents.
  rewrite require_admin_pass, bind_lift_Ok by done.
  set (filt := if truthy status then _ else _).
  assert (Hok : query_ok filt = true) by (unfold filt; by destruct (truthy status)).
  unfold bind at 1, find. rewrite Hok.
  assert (Hfilter : List.filter (matches filt) (coll s "order")
                    = List.filter (status_selected status) (coll s "order")).
  { apply filter_ext. intros d. apply status_filter_matches. }
  rewrite Hfilter.
  destruct (sort_by_placed_at_dated now (List.filter (status_selected status) (coll s "order")))
    as (sorted & Hsort & Hperm & Hdesc).
  { apply Forall_forall. intros d [Hd _]%list_elem_of_In%filter_In.
    rewrite Forall_forall in Hdated. by apply Hdated, list_elem_of_In. }
  exists sorted. rewrite Hsort, bind_lift_Ok. done.
Qed.

(** ** Listing after creation *)

Lemma listed_in_stock q category (d : doc) :
  matches (list_products_filter q category) d = true →
  d !! "in_stock" ≠ Some (VBool false).
Proof.
  unfold list_products_filter, matches.
  destruct (truthy q), (truthy category); cbn [app forallb];
    rewrite andb_true_iff; intros [H _]; by apply ne_false_matches in H.
Qed.

Lemma product_doc_in_stock o stamp payload :
  stored_doc o stamp (product_doc payload) !! "in_stock"
  = Some (VBool (ProductCreate.in_stock payload)).
Proof.
  unfold stored_doc, product_doc. rewrite !lookup_insert_ne by done.
  destruct (truthy _); [rewrite lookup_insert_ne by done|]; reflexivity.
Qed.

Lemma some_vstr_inj a b : Some (VStr a) = Some (VStr b) → a = b.
Proof. by intros [= ->]. Qed.

Lemma oid_str_inj (o o' : N) :
  (o < oid_bound)%N → (o' < oid_bound)%N → oid_str o = oid_str o' → o = o'.
Proof.
  intros Ho Ho' H. apply ObjectId_roundtrip in Ho, Ho'.
  rewrite H, Ho' in Ho. by injection Ho.
Qed.

Lemma mapM_In {A B} (f : A → outcome B) l outs b :
  mapM f l = Ok outs → b ∈ outs → ∃ a, a ∈ l ∧ f a = Ok b.
Proof.
  intros H%mapM_Forall2 Hb. induction H as [|a b' l outs Hab _ IH].
  - by apply elem_of_nil in Hb.
  - apply elem_of_cons in Hb as [->|Hb].
    + exists a. split; [apply elem_of_cons; by left | done].
    + destruct (IH Hb) as (a' & Ha' & Hf). exists a'.
      split; [apply elem_of_cons; by right | done].
Qed.

Lemma mapM_serialize_runs (docs : list doc) :
  (∀ d, d ∈ docs → ∃ o, d !! "_id" = Some (VOid o)) →
  ∃ outs, mapM (λ d, serialize_doc (Some d)) docs = Ok outs ∧
          ∀ d, d ∈ docs → ∃ out, Some out ∈ outs ∧ serialize_doc (Some d) = Ok (Some out).
Proof.
  induction docs as [|d docs IH]; intros Hids.
  - exists []. split; [done|]. by intros d ?%elem_of_nil.
  - destruct (Hids d) as [o Ho]; [apply elem_of_cons; by left|].
    destruct (serialize_doc_runs d (VOid o) (oid_str o) Ho eq_refl) as [out Hout].
    destruct IH as (outs & Hm & Hall).
    { intros d' Hd'. apply Hids, elem_of_cons. by right. }
    exists (Some out :: outs). split; [cbn [mapM]; by rewrite Hout, Hm|].
    intros d' [->|Hd']%elem_of_cons.
    + exists out. split; [apply elem_of_cons; by left | done].
    + destruct (Hall d' Hd') as (out' & Hin & Hs). exists out'.
      split; [apply elem_of_cons; by right | done].
Qed.

(** X11: a product created out of stock shows up in no listing, whatever
    the query, the category and the regular expressions of the store: no
    listed document carries its identifier.  A product created in stock
    shows up in the listing without parameters, as the document the
    creation returned. *)
Theorem created_product_listing ADMIN_KEY payload key stamp s :
  key = Some (getenv_ADMIN_KEY ADMIN_KEY) →
  PrimFloat.leb 0 (ProductCreate.price payload) = true →
  db_wf s →
  ∃ created s',
    create_product ADMIN_KEY payload key stamp s = (Ok (Some created), s') ∧
    created !! "id" = Some (VStr (oid_str (next_oid s))) ∧
    (ProductCreate.in_stock payload = false →
     ∀ q category outs out,
       list_products q category s' = (Ok outs, s') → Some out ∈ outs →
       out !! "id" ≠ Some (VStr (oid_str (next_oid s)))) ∧
    (ProductCreate.in_stock payload = true →
     ∃ outs, list_products None None s' = (Ok outs, s') ∧ Some created ∈ outs).
Proof.
  intros Hkey Hge Hwf.
  set (stored := stored_doc (next_oid s) stamp (product_doc payload)).
  assert (Hsid : stored !! "_id" = Some (VOid (next_oid s))) by apply product_doc_id.
  destruct (serialize_doc_runs stored (VOid (next_oid s)) (oid_str (next_oid s)))
    as [created Hout]; [done..|].
  set (s' := mk_db (<["product" := (coll s "product" ++ [stored])%list]> (collections s))
               (N.succ (next_oid s))).
  assert (Hcoll : coll s' "product" = (coll s "product" ++ [stored])%list).
  { unfold s'. by rewrite coll_after_create, decide_True. }
  exists created, s'. split; [|split; [|split]].
  - rewrite create_product_accepted by done. fold stored. by rewrite Hout.
  - by apply (serialized_id stored).
  - intros Hstock q category outs out Hrun Hin Hid.
    unfold list_products, get_documents in Hrun.
    apply bind_Ok_inv in Hrun as (docs & s1 & Hf & Hm).
    apply find_Ok in Hf as [-> ->]. apply lift_inv in Hm as [Hm _]. symmetry in Hm.
    destruct (mapM_In _ _ _ _ Hm Hin) as (d & Hd & Hs).
    apply list_elem_of_In, filter_In in Hd as [Hd Hmatch].
    apply list_elem_of_In in Hd. rewrite Hcoll in Hd.
    apply elem_of_app in Hd as [Hd|Hd].
    + destruct Hwf as [Hb Hids]. destruct (Hids "product" d Hd) as (o & Ho & Hlt).
      rewrite (serialized_id d out o Ho Hs) in Hid. apply some_vstr_inj in Hid.
      apply oid_str_inj in Hid; [lia | lia | done].
    + apply list_elem_of_singleton in Hd as ->.
      apply listed_in_stock in Hmatch. unfold stored in Hmatch.
      by rewrite product_doc_in_stock, Hstock in Hmatch.
  - intros Hstock. rewrite (list_products_run None None) by done.
    destruct (mapM_serialize_runs
                (List.filter (matches (list_products_filter None None)) (coll s' "product")))
      as (outs & Hm & Hall).
    { intros d [Hd _]%list_elem_of_In%filter_In. apply list_elem_of_In in Hd.
      rewrite Hcoll in Hd. apply elem_of_app in Hd as [Hd|Hd].
      - destruct Hwf as [_ Hids]. destruct (Hids "product" d Hd) as (o & Ho & _). eauto.
      - apply list_elem_of_singleton in Hd as ->. eauto. }
    exists outs. rewrite Hm. split; [done|].
    destruct (Hall stored) as (out & Hin & Hs).
    { apply list_elem_of_In, filter_In. split.
      - apply list_elem_of_In. rewrite Hcoll. apply elem_of_app. right.
        by apply list_elem_of_singleton.
      - cbn. rewrite andb_true_r. unfold stored.
        by rewrite product_doc_in_stock, Hstock. }
    rewrite Hout in Hs. by injection Hs as <-.
Qed.

(** ** Writes leave the other products alone *)

Lemma update_first_find_other (p p' : doc → bool) (f : doc → doc) l l' :
  (∀ d, p d = true → p' d = false ∧ p' (f d) = false) →
  update_first p f l = Some l' → List.find p' l' = List.find p' l.
Proof.
  intros Hp. revert l'. induction l as [|d l IH]; intros l';
    cbn [update_first]; [done|].
  destruct (p d) eqn:Hd.
  - intros [= <-]. cbn [List.find]. destruct (Hp d Hd) as [-> ->]. done.
  - destruct (update_first p f l) as [k|]; [|done]. cbn. intros [= <-].
    cbn [List.find]. by rewrite (IH k).
Qed.

Lemma delete_first_find_other (p p' : doc → bool) l l' :
  (∀ d, p d = true → p' d = false) →
  delete_first p l = Some l' → List.find p' l' = List.find p' l.
Proof.
  intros Hp. revert l'. induction l as [|d l IH]; intros l';
    cbn [delete_first]; [done|].
  destruct (p d) eqn:Hd.
  - intros [= <-]. cbn [List.find]. by rewrite (Hp d Hd).
  - destruct (delete_first p l) as [k|]; [|done]. cbn. intros [= <-].
    cbn [List.find]. by rewrite (IH k).
Qed.

Lemma other_id_no_match oid oid' (d : doc) :
  oid' ≠ oid → matches (by_id oid) d = true → matches (by_id oid') d = false.
Proof.
  intros Hne Hm%matches_by_id. apply matches_by_id_false. rewrite Hm. congruence.
Qed.

Lemma get_product_same_find other oid' s s' :
  to_object_id other = Ok oid' →
  List.find (matches (by_id oid')) (coll s' "product")
  = List.find (matches (by_id oid')) (coll s "product") →
  fst (get_product other s') = fst (get_product other s).
Proof.
  intros Hid Hfind. rewrite !(get_product_unfold other oid') by done. rewrite Hfind.
  clear Hfind. destruct (List.find _ _) as [d|]; [|reflexivity].
  destruct (bool_decide (d = ∅)); reflexivity.
Qed.

Lemma update_tail_find_other name id_str updates not_found s oid oid' :
  to_object_id id_str = Ok oid → oid' ≠ oid → updates !! "_id" = None →
  List.find (matches (by_id oid'))
    (coll (snd (update_tail name id_str updates not_found s)) name)
  = List.find (matches (by_id oid')) (coll s name).
Proof.
  intros Hid Hne Hup. unfold update_tail. rewrite Hid, bind_lift_Ok.
  unfold bind at 1, update_one. cbn [query_ok by_id forallb clause_ok cond_ok andb].
  destruct (update_first _ _ _) as [l|] eqn:Hu; [|done].
  cbn [N.eqb]. rewrite bind_lift_Ok.
  pose proof (read_only_bind (find_one name (by_id oid)) (λ d, lift (serialize_doc d))
                (read_only_find_one _ _) (λ d, read_only_lift _) (set_coll s name l)) as ->.
  rewrite coll_set, decide_True by done.
  apply (update_first_find_other (matches (by_id oid)) _ (λ d, updates ∪ d)); [|done].
  intros d Hd. split; [by apply (other_id_no_match oid)|].
  apply matches_by_id_false. rewrite lookup_union, Hup.
  apply matches_by_id in Hd. rewrite Hd. cbn. congruence.
Qed.

Lemma create_find_other name data stamp s (oid' : ObjectId) :
  oid' ≠ next_oid s →
  List.find (matches (by_id oid')) (coll (snd (create_document name data stamp s)) name)
  = List.find (matches (by_id oid')) (coll s name).
Proof.
  intros Hne. cbn [create_document snd]. rewrite coll_after_create, decide_True by done.
  induction (coll s name) as [|d l IH]; cbn [app List.find].
  - rewrite matches_by_id_false; [done|].
    rewrite lookup_insert_eq. congruence.
  - by rewrite IH.
Qed.

(** X12: a product update, a product delete or a product creation leaves
    every other product as it was: fetching a product with another
    identifier gives the same answer after the write as before it. *)
Theorem other_products_untouched ADMIN_KEY key id oid other oid' s :
  to_object_id id = Ok oid →
  to_object_id other = Ok oid' →
  oid' ≠ oid →
  (∀ payload now,
     fst (get_product other (snd (update_product ADMIN_KEY id payload key now s)))
     = fst (get_product other s)) ∧
  fst (get_product other (snd (delete_product ADMIN_KEY id key s)))
  = fst (get_product other s) ∧
  (∀ payload stamp, oid' ≠ next_oid s →
     fst (get_product other (snd (create_product ADMIN_KEY payload key stamp s)))
     = fst (get_product other s)).
Proof.
  intros Hid Hother Hne. split; [|split].
  - intros payload now. apply (get_product_same_find other oid'); [done|].
    unfold update_product.
    destruct (require_admin_cases ADMIN_KEY key) as [[_ ->]|[e ->]];
      [rewrite bind_lift_Ok | by rewrite bind_lift_Raise].
    destruct (bool_decide _); [done|].
    change (List.find (matches (by_id oid'))
              (coll (snd (update_tail "product" id (product_updates payload now)
                            (HTTPException 404 "Product not found") s)) "product")
            = List.find (matches (by_id oid')) (coll s "product")).
    apply (update_tail_find_other _ _ _ _ _ oid); [done..|apply product_updates_no_id].
  - apply (get_product_same_find other oid'); [done|].
    unfold delete_product.
    destruct (require_admin_cases ADMIN_KEY key) as [[_ ->]|[e ->]];
      [rewrite bind_lift_Ok | by rewrite bind_lift_Raise].
    rewrite Hid, bind_lift_Ok.
    unfold bind, delete_one. cbn [query_ok by_id forallb clause_ok cond_ok andb].
    destruct (delete_first _ _) as [l|] eqn:Hdel; [|done]. cbn [N.eqb ret snd].
    rewrite coll_set, decide_True by done.
    apply (delete_first_find_other (matches (by_id oid))); [|done].
    intros d. by apply other_id_no_match.
  - intros payload stamp Hfresh. apply (get_product_same_find other oid'); [done|].
    unfold create_product.
    destruct (require_admin_cases ADMIN_KEY key) as [[_ ->]|[e ->]];
      [rewrite bind_lift_Ok | by rewrite bind_lift_Raise].
    destruct (ProductSchema.init _ _ _ _ _) as [schema|e];
      [rewrite bind_lift_Ok | by rewrite bind_lift_Raise].
    rewrite create_tail_state. by apply create_find_other.
Qed.

(** ** What product creation stores *)

Lemma product_create_bad_price body p :
  ProductCreate.Body.price body = Given p → PrimFloat.leb 0 p = false →
  ∃ errors, ProductCreate.validate body = Raise (RequestValidationError errors) ∧
            ("price", "greater_than_equal") ∈ errors.
Proof.
  destruct body as [t d p0 c g u i]. cbn [ProductCreate.Body.price]. intros -> Hp.
  unfold ProductCreate.validate.
  cbn [ProductCreate.Body.title ProductCreate.Body.description ProductCreate.Body.price
       ProductCreate.Body.currency ProductCreate.Body.category
       ProductCreate.Body.image_url ProductCreate.Body.in_stock].
  rewrite !optional_inr. cbn [required and_then]. unfold ge0. rewrite Hp.
  destruct (required "title" "string_type" t) as [e1|a1]; cbn [errors_of];
    (eexists; split; [reflexivity|]);
    rewrite !elem_of_app, elem_of_cons; tauto.
Qed.

(** X13: a price that is not at least zero (negative, or not a number) is
    never stored.  The route refuses such a body in validation, naming
    the price; and the handler itself, handed such a payload, stops at
    its own second check.  In both cases the store is unchanged. *)
Theorem price_below_zero_never_stored ADMIN_KEY key stamp s p :
  PrimFloat.leb 0 p = false →
  (∀ body, ProductCreate.Body.price body = Given p →
     ∃ errors,
       post_api_products ADMIN_KEY body key stamp s
       = (Raise (RequestValidationError errors), s) ∧
       ("price", "greater_than_equal") ∈ errors) ∧
  (∀ payload, ProductCreate.price payload = p →
     ∃ e, create_product ADMIN_KEY payload key stamp s = (Raise e, s)).
Proof.
  intros Hp. split.
  - intros body Hb. destruct (product_create_bad_price body p Hb Hp) as (errors & Hv & Hin).
    exists errors. split; [|done]. unfold post_api_products. by rewrite Hv.
  - intros payload <-. unfold create_product.
    destruct (require_admin_cases ADMIN_KEY key) as [[_ ->]|[e ->]];
      [rewrite bind_lift_Ok | rewrite bind_lift_Raise; by eexists].
    unfold ProductSchema.init, ge0. rewrite Hp, bind_lift_Raise. by eexists.
Qed.

Lemma product_doc_lookup payload k :
  product_doc payload !! k
  = if decide (k = "currency") then Some (VStr (ProductCreate.currency payload))
    else if decide (k = "image_url")
         then Some (opt_value VStr (non_empty (ProductCreate.image_url payload)))
    else if decide (k = "title") then Some (VStr (ProductCreate.title payload))
    else if decide (k = "description")
         then Some (opt_value VStr (ProductCreate.description payload))
    else if decide (k = "price") then Some (VFloat (ProductCreate.price payload))
    else if decide (k = "category") then Some (VStr (ProductCreate.category payload))
    else if decide (k = "in_stock") then Some (VBool (ProductCreate.in_stock payload))
    else None.
Proof.
  unfold product_doc, non_empty.
  destruct (decide (k = "currency")) as [->|?]; [by rewrite lookup_insert_eq|].
  rewrite lookup_insert_ne by done.
  unfold ProductSchema.model_dump.
  cbn [ProductSchema.title ProductSchema.description ProductSchema.price
       ProductSchema.category ProductSchema.in_stock ProductSchema.image_url].
  destruct (decide (k = "image_url")) as [->|?].
  - destruct (truthy _); [by rewrite lookup_insert_eq|].
    rewrite !dict_cons_lookup. by settle_keys.
  - assert (Hrest : dict
      [("title", VStr (ProductCreate.title payload));
       ("description", opt_value VStr (ProductCreate.description payload));
       ("price", VFloat (ProductCreate.price payload));
       ("category", VStr (ProductCreate.category payload));
       ("in_stock", VBool (ProductCreate.in_stock payload));
       ("image_url", opt_value VStr None)] !! k
      = if decide (k = "title") then Some (VStr (ProductCreate.title payload))
        else if decide (k = "description")
             then Some (opt_value VStr (ProductCreate.description payload))
        else if decide (k = "price") then Some (VFloat (ProductCreate.price payload))
        else if decide (k = "category") then Some (VStr (ProductCreate.category payload))
        else if decide (k = "in_stock") then Some (VBool (ProductCreate.in_stock payload))
        else None).
    { rewrite !dict_cons_lookup, dict_nil_lookup. by rewrite (decide_False (P := k = "image_url")). }
    destruct (truthy _); [rewrite lookup_insert_ne by done|]; exact Hrest.
Qed.

Lemma stored_doc_lookup o stamp (data : doc) k :
  stored_doc o stamp data !! k
  = if decide (k = "_id") then Some (VOid o)
    else if decide (k = "updated_at") then Some (VDate stamp)
    else if decide (k = "created_at") then Some (VDate stamp)
    else data !! k.
Proof.
  unfold stored_doc.
  destruct (decide (k = "_id")) as [->|?]; [by rewrite lookup_insert_eq|].
  rewrite lookup_insert_ne by done.
  destruct (decide (k = "updated_at")) as [->|?]; [by rewrite lookup_insert_eq|].
  rewrite lookup_insert_ne by done.
  destruct (decide (k = "created_at")) as [->|?]; [by rewrite lookup_insert_eq|].
  by rewrite lookup_insert_ne.
Qed.

(** The field [k] of the response for a freshly stored document. *)
Lemma created_response_lookup o stamp (data out : doc) k :
  serialize_doc (Some (stored_doc o stamp data)) = Ok (Some out) →
  out !! k
  = if decide (k = "id") then Some (VStr (oid_str o))
    else if decide (k = "_id") then None
    else if decide (k = "updated_at") then Some (VStr (isoformat stamp))
    else if decide (k = "created_at") then Some (VStr (isoformat stamp))
    else if decide (k = "placed_at") then render <$> data !! k
    else data !! k.
Proof.
  intros (i & t & Hi & Hstr & ->)%serialize_doc_Some.
  rewrite stored_doc_lookup, decide_True in Hi by done. injection Hi as <-.
  injection Hstr as <-.
  rewrite (serialize_doc_lookup _ (VOid o) (oid_str o))
    by (done || by rewrite stored_doc_lookup, decide_True).
  destruct (decide (k = "id")) as [->|?]; [done|].
  destruct (decide (k = "_id")) as [->|?]; [done|].
  rewrite stored_doc_lookup, (decide_False (P := k = "_id")) by done.
  unfold timestamp_keys.
  destruct (decide (k = "updated_at")) as [->|?].
  { rewrite decide_True; [done|]. rewrite !elem_of_cons. tauto. }
  destruct (decide (k = "created_at")) as [->|?].
  { rewrite decide_True; [done|]. rewrite !elem_of_cons. tauto. }
  destruct (decide (k = "placed_at")) as [->|?].
  { rewrite decide_True; [done|]. rewrite !elem_of_cons. tauto. }
  rewrite decide_False; [done|].
  rewrite !elem_of_cons, elem_of_nil. tauto.
Qed.

(** X14: a product created through the route is returned with the title,
    price and category of the body, the description or [null], the
    currency or "SYP" when the body has none, [in_stock] or [true] when
    the body has none, the image address or [null] when it is missing or
    empty, both timestamps set to the time of storing, and the
    identifier handed out by the store as the text field [id]. *)
Theorem created_product_fields ADMIN_KEY body payload key stamp s :
  ProductCreate.validate body = Ok payload →
  key = Some (getenv_ADMIN_KEY ADMIN_KEY) →
  db_wf s →
  ∃ out s',
    post_api_products ADMIN_KEY body key stamp s = (Ok (Some out), s') ∧
    ProductCreate.Body.title body = Given (ProductCreate.title payload) ∧
    ProductCreate.Body.price body = Given (ProductCreate.price payload) ∧
    ProductCreate.Body.category body = Given (ProductCreate.category payload) ∧
    out !! "title" = Some (VStr (ProductCreate.title payload)) ∧
    out !! "price" = Some (VFloat (ProductCreate.price payload)) ∧
    out !! "category" = Some (VStr (ProductCreate.category payload)) ∧
    out !! "description"
    = Some (opt_value VStr (slot_option (ProductCreate.Body.description body))) ∧
    out !! "currency"
    = Some (VStr (slot_default "SYP" (ProductCreate.Body.currency body))) ∧
    out !! "in_stock"
    = Some (VBool (slot_default true (ProductCreate.Body.in_stock body))) ∧
    out !! "image_url"
    = Some (opt_value VStr (non_empty (slot_option (ProductCreate.Body.image_url body)))) ∧
    out !! "created_at" = Some (VStr (isoformat stamp)) ∧
    out !! "updated_at" = Some (VStr (isoformat stamp)) ∧
    out !! "id" = Some (VStr (oid_str (next_oid s))) ∧
    out !! "_id" = None.
Proof.
  intros Hv Hkey Hwf.
  pose proof (product_create_validate_Ok _ _ Hv) as (Ht & Hp & Hge & Hc & _ & _ & Hpay).
  set (stored := stored_doc (next_oid s) stamp (product_doc payload)).
  destruct (serialize_doc_runs stored (VOid (next_oid s)) (oid_str (next_oid s)))
    as [out Hout]; [apply product_doc_id | done |].
  eexists out, _. split.
  { unfold post_api_products. rewrite Hv, bind_lift_Ok.
    rewrite create_product_accepted by done. fold stored. by rewrite Hout. }
  split; [done|]. split; [done|]. split; [done|].
  pose proof (created_response_lookup _ _ _ _ "title" Hout) as H1.
  pose proof (created_response_lookup _ _ _ _ "price" Hout) as H2.
  pose proof (created_response_lookup _ _ _ _ "category" Hout) as H3.
  pose proof (created_response_lookup _ _ _ _ "description" Hout) as H4.
  pose proof (created_response_lookup _ _ _ _ "currency" Hout) as H5.
  pose proof (created_response_lookup _ _ _ _ "in_stock" Hout) as H6.
  pose proof (created_response_lookup _ _ _ _ "image_url" Hout) as H7.
  pose proof (created_response_lookup _ _ _ _ "created_at" Hout) as H8.
  pose proof (created_response_lookup _ _ _ _ "updated_at" Hout) as H9.
  pose proof (created_response_lookup _ _ _ _ "id" Hout) as H10.
  pose proof (created_response_lookup _ _ _ _ "_id" Hout) as H11.
  rewrite product_doc_lookup in H1, H2, H3, H4, H5, H6, H7.
  rewrite Hpay in H4, H5, H6, H7.
  cbn [ProductCreate.description ProductCreate.currency ProductCreate.in_stock
       ProductCreate.image_url] in H4, H5, H6, H7.
  repeat split; assumption.
Qed.

(** ** Serializing twice *)

(** X15: [serialize_doc] takes [_id] out of the document, so what it
    returns cannot be serialized again: a second call ends in
    [KeyError: '_id'].  The same holds for any non-empty document
    without [_id]. *)
Theorem serialize_doc_twice (d out : doc) :
  serialize_doc (Some d) = Ok (Some out) →
  serialize_doc (Some out) = Raise (KeyError "_id").
Proof.
  intros (i & t & Hi & Hstr & ->)%serialize_doc_Some.
  unfold serialize_doc at 1.
  set (out := fold_left iso_step timestamp_keys _).
  assert (Hid : out !! "id" = Some (VStr t)).
  { unfold out. rewrite (serialize_doc_lookup d i t) by done. by rewrite decide_True. }
  assert (Hno : out !! "_id" = None).
  { unfold out. rewrite (serialize_doc_lookup d i t) by done.
    rewrite decide_False by done. by rewrite decide_True. }
  rewrite decide_False, Hno; [done|].
  intros H. by rewrite H, lookup_empty in Hid.
Qed.

(** ** Reading an identifier *)

Lemma fromhex_spec n s k acc o :
  (String.length s ≤ n)%nat →
  fromhex k acc s = Some o →
  ∃ j v, oid_len o = (k + j)%nat ∧
         (v < 256 ^ N.of_nat j)%N ∧
         oid_val o = (acc * 256 ^ N.of_nat j + v)%N ∧
         String.length (without_spaces s) = (2 * j)%nat ∧
         hex (2 * j) v = lower (without_spaces s).
Proof.
  revert s k acc. induction n as [|n IH]; intros s k acc Hlen.
  - destruct s; [|cbn in Hlen; lia]. cbn [fromhex]. intros [= <-].
    exists 0%nat, 0%N. cbn. repeat split; lia.
  - destruct s as [|c s].
    { cbn [fromhex]. intros [= <-]. exists 0%nat, 0%N. cbn. repeat split; lia. }
    cbn [fromhex without_spaces String.length] in *.
    destruct (is_space c) eqn:Hsp.
    { intros H. apply IH in H; [done|lia]. }
    destruct (hex_val c) as [hi|] eqn:Hc; [|done].
    destruct s as [|c' s]; [done|].
    destruct (hex_val c') as [lo|] eqn:Hc'; [|done].
    cbn [without_spaces String.length] in *.
    rewrite (hex_val_not_space c' lo Hc').
    apply hex_val_lower in Hc as [Hhi Hlc], Hc' as [Hlo Hlc'].
    intros H. apply IH in H as (j & v & Hl & Hv & Hval & Hlen' & Hhex); [|lia].
    set (P := (256 ^ N.of_nat j)%N) in *.
    exists (S j), ((hi * 16 + lo) * P + v)%N.
    rewrite Nat2N.inj_succ, N.pow_succ_r'. fold P.
    split; [lia|]. split; [nia|]. split; [lia|].
    cbn [String.length lower]. split; [lia|].
    replace (2 * S j)%nat with (S (S (2 * j))) by lia.
    replace ((hi * 16 + lo) * P + v)%N
      with (hi * 16 ^ N.of_nat (S (2 * j)) + (lo * 16 ^ N.of_nat (2 * j) + v))%N.
    2: { rewrite Nat2N.inj_succ, N.pow_succ_r', pow16_pow256. fold P. lia. }
    rewrite hex_cons; [|done|].
    2: { rewrite Nat2N.inj_succ, N.pow_succ_r', pow16_pow256. fold P. nia. }
    rewrite hex_cons; [|done|by rewrite pow16_pow256].
    by rewrite Hhex, Hlc, Hlc'.
Qed.

(** X16: [to_object_id] accepts only texts of 24 characters; the identifier
    it returns has at most twelve bytes, two characters of the text for
    every byte once white space is left out, and its own text is the
    given one without white space and in lower case: hexadecimal digits
    are read without regard to case. *)
Theorem to_object_id_reads_hex s o :
  to_object_id s = Ok o →
  String.length s = 24 ∧
  (oid_len o ≤ 12)%nat ∧
  String.length (without_spaces s) = (2 * oid_len o)%nat ∧
  (oid_val o < 256 ^ N.of_nat (oid_len o))%N ∧
  oid_str o = lower (without_spaces s).
Proof.
  unfold to_object_id, ObjectId_of_str.
  destruct (Nat.eqb (String.length s) 24) eqn:Hlen; [|done].
  apply Nat.eqb_eq in Hlen.
  destruct (fromhex 0 0 s) as [o'|] eqn:Ho; [|done]. intros [= <-].
  apply (fromhex_spec (String.length s)) in Ho as (j & v & Hl & Hv & Hval & Hws & Hhex);
    [|done].
  cbn [Nat.add] in Hl. rewrite N.mul_0_l, N.add_0_l in Hval.
  assert (Hle : (String.length (without_spaces s) ≤ String.length s)%nat).
  { clear. induction s as [|c s IH]; cbn [without_spaces String.length]; [done|].
    destruct (is_space c); cbn [String.length]; lia. }
  unfold oid_str. rewrite Hl, Hval.
  split; [done|]. split; [lia|]. split; [done|]. split; done.
Qed.

(** ** Order bodies *)

Lemma cart_item_validate_Ok b i :
  CartItemBody.validate b = inr i →
  (1 <= CartItem.quantity i)%Z ∧
  CartItemBody.quantity b = Given (CartItem.quantity i) ∧
  CartItemBody.price b = Given (CartItem.price i).
Proof.
  destruct b as [p t pr q]. unfold CartItemBody.validate.
  cbn [CartItemBody.product_id CartItemBody.title CartItemBody.price CartItemBody.quantity].
  destruct p as [| |p]; [done..|]. destruct t as [| |t]; [done..|].
  destruct pr as [| |pr]; [done..|]. destruct q as [| |q]; [done..|].
  cbn [required and_then]. unfold ge1.
  destruct (1 <=? q)%Z eqn:Hq; [|done]. intros [= <-]. cbn.
  split; [by apply Z.leb_le | done].
Qed.

Lemma cart_item_bad_quantity b q :
  CartItemBody.quantity b = Given q → (q < 1)%Z →
  ∃ e, CartItemBody.validate b = inl e ∧ ("quantity", "greater_than_equal") ∈ e.
Proof.
  destruct b as [p t pr q0]. cbn [CartItemBody.quantity]. intros -> Hq.
  unfold CartItemBody.validate.
  cbn [CartItemBody.product_id CartItemBody.title CartItemBody.price CartItemBody.quantity].
  cbn [required and_then]. unfold ge1.
  rewrite (proj2 (Z.leb_gt 1 q)) by lia.
  destruct (required "product_id" "string_type" p);
    destruct (required "title" "string_type" t);
    destruct (required "price" "float_type" pr);
    (eexists; split; [reflexivity|]); cbn [errors_of];
    rewrite !elem_of_app, list_elem_of_singleton; tauto.
Qed.

Lemma validate_list_Ok l items :
  CartItemBody.validate_list l = inr items →
  Forall2 (λ b i, CartItemBody.validate b = inr i) l items.
Proof.
  revert items. induction l as [|b l IH]; intros items; cbn [CartItemBody.validate_list].
  - intros [= <-]. constructor.
  - destruct (CartItemBody.validate b) as [e|i] eqn:Hb; [done|].
    destruct (CartItemBody.validate_list l) as [e|rest]; [done|].
    intros [= <-]. constructor; auto.
Qed.

Lemma validate_list_bad l b e :
  b ∈ l → CartItemBody.validate b = inl e →
  ∃ es, CartItemBody.validate_list l = inl es ∧ ∀ x, x ∈ e → x ∈ es.
Proof.
  induction l as [|b' l IH]; [by intros ?%elem_of_nil|].
  intros [->|Hin]%elem_of_cons Hb; cbn [CartItemBody.validate_list].
  - rewrite Hb. eexists. split; [reflexivity|].
    intros x Hx. cbn [errors_of]. apply elem_of_app. by left.
  - destruct (IH Hin Hb) as (es & -> & Hsub).
    destruct (CartItemBody.validate b') as [e'|i]; (eexists; split; [reflexivity|]);
      intros x Hx; cbn [errors_of]; apply elem_of_app; right; by apply Hsub.
Qed.

Lemma order_validate_Ok body payload :
  OrderCreateBody.validate body = Ok payload →
  ∃ l, OrderCreateBody.items body = Given l ∧
       CartItemBody.validate_list l = inr (OrderCreate.items payload) ∧
       OrderCreate.payment_method payload
       = slot_default "COD" (OrderCreateBody.payment_method body).
Proof.
  destruct body as [items customer pm]. unfold OrderCreateBody.validate.
  cbn [OrderCreateBody.items OrderCreateBody.customer OrderCreateBody.payment_method].
  destruct items as [| |l]; [done..|]. cbn [required and_then].
  destruct (CartItemBody.validate_list l) as [e|its] eqn:Hl; [done|]. cbn [nested].
  destruct (and_then _ _) as [e|c]; [done|].
  destruct pm as [| |pm]; cbn [defaulted]; [|done|]; intros [= <-]; exists l;
    (split; [reflexivity|split; [exact Hl|reflexivity]]).
Qed.

(** X17: an order item with a quantity below one never reaches
    [create_order]: the body is refused in validation, naming the
    quantity, and the store is unchanged.  Every order that passes
    validation has only quantities of one or more. *)
Theorem order_quantity_at_least_one now stamp s :
  (∀ body l b q,
     OrderCreateBody.items body = Given l → b ∈ l →
     CartItemBody.quantity b = Given q → (q < 1)%Z →
     ∃ errors,
       post_api_orders body now stamp s = (Raise (RequestValidationError errors), s) ∧
       ("items.quantity", "greater_than_equal") ∈ errors) ∧
  (∀ body payload,
     OrderCreateBody.validate body = Ok payload →
     Forall (λ i, (1 <= CartItem.quantity i)%Z) (OrderCreate.items payload)).
Proof.
  split.
  - intros body l b q Hitems Hb Hq Hlt.
    destruct (cart_item_bad_quantity b q Hq Hlt) as (e & He & Hin).
    destruct (validate_list_bad l b e Hb He) as (es & Hes & Hsub).
    destruct body as [items customer pm]. cbn [OrderCreateBody.items] in Hitems. subst items.
    unfold post_api_orders, OrderCreateBody.validate.
    cbn [OrderCreateBody.items OrderCreateBody.customer OrderCreateBody.payment_method].
    cbn [required and_then]. rewrite Hes. cbn [nested].
    destruct (and_then _ _) as [e2|c];
      destruct (defaulted _ _ _ pm) as [e3|m];
      rewrite bind_lift_Raise; (eexists; split; [reflexivity|]); cbn [errors_of];
      apply elem_of_app; left;
      apply list_elem_of_In, in_map_iff;
      (exists ("quantity", "greater_than_equal"); split; [reflexivity|]);
      by apply list_elem_of_In, Hsub.
  - intros body payload (l & _ & Hl & _)%order_validate_Ok.
    apply validate_list_Ok in Hl.
    induction Hl as [|b i l items Hb _ IH]; constructor; [|done].
    by apply cart_item_validate_Ok in Hb as [? _].
Qed.

(** X18: leaving [payment_method] out of an order body is the same as
    giving "COD"; a body that passes validation with another payment
    method is refused by [create_order] with 400 "Only COD is supported",
    and one with "COD" and no item with 400 "Cart is empty", the store
    unchanged in both cases. *)
Theorem order_payment_method_default now stamp s :
  (∀ items customer,
     post_api_orders (OrderCreateBody.mk items customer Absent) now stamp s
     = post_api_orders (OrderCreateBody.mk items customer (Given "COD")) now stamp s) ∧
  (∀ body payload,
     OrderCreateBody.validate body = Ok payload →
     OrderCreate.payment_method payload ≠ "COD" →
     post_api_orders body now stamp s
     = (Raise (HTTPException 400 "Only COD is supported"), s)) ∧
  (∀ body payload,
     OrderCreateBody.validate body = Ok payload →
     OrderCreate.payment_method payload = "COD" →
     OrderCreate.items payload = [] →
     post_api_orders body now stamp s = (Raise (HTTPException 400 "Cart is empty"), s)).
Proof.
  split; [done|]. split.
  - intros body payload Hv Hpm. unfold post_api_orders. rewrite Hv, bind_lift_Ok.
    unfold create_order.
    destruct (String.eqb _ "COD") eqn:E; [by apply String.eqb_eq in E|done].
  - intros body payload Hv Hpm Hitems. unfold post_api_orders. rewrite Hv, bind_lift_Ok.
    unfold create_order. by rewrite Hpm, Hitems.
Qed.

(** ** Products and orders are kept apart *)

Lemma update_tail_other_collection name other id_str updates not_found s :
  other ≠ name →
  coll (snd (update_tail name id_str updates not_found s)) other = coll s other.
Proof.
  intros Hne. unfold update_tail.
  destruct (to_object_id id_str) as [oid|e];
    [rewrite bind_lift_Ok | by rewrite bind_lift_Raise].
  unfold bind at 1, update_one. cbn [query_ok by_id forallb clause_ok cond_ok andb].
  destruct (update_first _ _ _) as [l|]; [|done].
  cbn [N.eqb]. rewrite bind_lift_Ok.
  pose proof (read_only_bind (find_one name (by_id oid)) (λ d, lift (serialize_doc d))
                (read_only_find_one _ _) (λ d, read_only_lift _) (set_coll s name l)) as ->.
  rewrite coll_set. by rewrite decide_False.
Qed.

Lemma create_other_collection name other data stamp s :
  other ≠ name → coll (snd (create_document name data stamp s)) other = coll s other.
Proof.
  intros Hne. cbn [create_document snd]. rewrite coll_after_create.
  by rewrite decide_False.
Qed.

(** X19: the product handlers never touch the orders and the order
    handlers never touch the products: whatever a product create, update
    or delete does, the order collection is as before, and whatever an
    order create or update does, the product collection is as before. *)
Theorem products_and_orders_apart ADMIN_KEY key s :
  (∀ payload stamp,
     coll (snd (create_product ADMIN_KEY payload key stamp s)) "order" = coll s "order") ∧
  (∀ product_id payload now,
     coll (snd (update_product ADMIN_KEY product_id payload key now s)) "order"
     = coll s "order") ∧
  (∀ product_id,
     coll (snd (delete_product ADMIN_KEY product_id key s)) "order" = coll s "order") ∧
  (∀ payload now stamp,
     coll (snd (create_order payload now stamp s)) "product" = coll s "product") ∧
  (∀ order_id payload now,
     coll (snd (update_order ADMIN_KEY order_id payload key now s)) "product"
     = coll s "product").
Proof.
  split; [|split; [|split; [|split]]].
  - intros payload stamp. unfold create_product.
    destruct (require_admin_cases ADMIN_KEY key) as [[_ ->]|[e ->]];
      [rewrite bind_lift_Ok | by rewrite bind_lift_Raise].
    destruct (ProductSchema.init _ _ _ _ _) as [schema|e];
      [rewrite bind_lift_Ok | by rewrite bind_lift_Raise].
    rewrite create_tail_state. by apply create_other_collection.
  - intros product_id payload now. unfold update_product.
    destruct (require_admin_cases ADMIN_KEY key) as [[_ ->]|[e ->]];
      [rewrite bind_lift_Ok | by rewrite bind_lift_Raise].
    destruct (bool_decide _); [done|].
    change (coll (snd (update_tail "product" product_id (product_updates payload now)
                         (HTTPException 404 "Product not found") s)) "order"
            = coll s "order").
    by apply update_tail_other_collection.
  - intros product_id. unfold delete_product.
    destruct (require_admin_cases ADMIN_KEY key) as [[_ ->]|[e ->]];
      [rewrite bind_lift_Ok | by rewrite bind_lift_Raise].
    destruct (to_object_id product_id) as [oid|e];
      [rewrite bind_lift_Ok | by rewrite bind_lift_Raise].
    unfold bind, delete_one. cbn [query_ok by_id forallb clause_ok cond_ok andb].
    destruct (delete_first _ _) as [l|]; [|done]. cbn [N.eqb ret snd].
    rewrite coll_set. by rewrite decide_False.
  - intros payload now stamp. unfold create_order.
    destruct (negb _); [done|]. destruct (Nat.eqb _ _); [done|].
    destruct (order_total _) as [total|e];
      [rewrite bind_lift_Ok | by rewrite bind_lift_Raise].
    rewrite create_tail_state. by apply create_other_collection.
  - intros order_id payload now. unfold update_order.
    destruct (require_admin_cases ADMIN_KEY key) as [[_ ->]|[e ->]];
      [rewrite bind_lift_Ok | by rewrite bind_lift_Raise].
    change (coll (snd (update_tail "order" order_id (order_updates payload now)
                         (HTTPException 404 "Order not found") s)) "product"
            = coll s "product").
    by apply update_tail_other_collection.
Qed.

(** X20: after an order update with a valid key on a stored order,
    fetching the order returns the very document the update returned. *)
Theorem update_then_get_order ADMIN_KEY order_id payload key now s oid old :
  key = Some (getenv_ADMIN_KEY ADMIN_KEY) →
  to_object_id order_id = Ok oid →
  find_one "order" (by_id oid) s = (Ok (Some old), s) →
  ∃ out s',
    update_order ADMIN_KEY order_id payload key now s = (Ok (Some out), s') ∧
    get_order ADMIN_KEY order_id key s' = (Ok (Some out), s').
Proof.
  intros Hkey Hid Hfind. apply find_one_by_id in Hfind.
  pose proof (order_updates_no_id payload now) as Hnoid.
  destruct (update_tail_found "order" order_id (order_updates payload now)
              (HTTPException 404 "Order not found") s oid old Hid Hfind Hnoid)
    as (l1 & l2 & Hl & Hl1 & Hrun).
  set (new := order_updates payload now ∪ old) in *.
  assert (Hold : old !! "_id" = Some (VOid oid)).
  { apply find_some in Hfind as [_ Hm]. by apply matches_by_id in Hm. }
  assert (Hnew : new !! "_id" = Some (VOid oid)).
  { unfold new. by rewrite lookup_union, Hnoid, Hold. }
  destruct (serialize_doc_runs new (VOid oid) (oid_str oid)) as [out Hout]; [done..|].
  exists out, (set_coll s "order" (l1 ++ new :: l2)%list). split.
  - by rewrite update_order_unfold, Hrun, Hout.
  - rewrite (get_order_unfold ADMIN_KEY order_id key oid) by done.
    unfold new. rewrite (updated_doc_found "order" oid) by done. fold new.
    rewrite bool_decide_eq_false_2 by (by apply (union_not_empty _ old oid)).
    by rewrite Hout.
Qed.

(** ** The gate answers 401 only for a wrong key *)

Lemma create_tail_not_401 name data stamp s :
  is_401 (fst (bind (create_document name data stamp) (λ inserted_id,
                 bind (lift (ObjectId_new inserted_id)) (λ oid,
                   bind (find_one name (by_id oid)) (λ d, lift (serialize_doc d)))) s))
  = false.
Proof.
  unfold bind at 1. cbn [create_document]. unfold ObjectId_new.
  destruct (ObjectId_of_str _) as [oid|]; [rewrite bind_lift_Ok | by rewrite bind_lift_Raise].
  unfold bind, find_one. cbn [query_ok by_id forallb clause_ok cond_ok andb].
  cbn [lift fst]. apply serialize_not_401.
Qed.

Lemma update_tail_not_401 name id_str updates not_found s :
  is_401 (@Raise (option doc) not_found) = false →
  is_401 (fst (update_tail name id_str updates not_found s)) = false.
Proof.
  intros Hnf. unfold update_tail, to_object_id.
  destruct (ObjectId_of_str id_str) as [oid|];
    [rewrite bind_lift_Ok | by rewrite bind_lift_Raise].
  unfold bind at 1, update_one. cbn [query_ok by_id forallb clause_ok cond_ok andb].
  destruct (update_first _ _ _) as [l|]; cbn [N.eqb]; [|exact Hnf].
  rewrite bind_lift_Ok.
  unfold bind, find_one. cbn [query_ok by_id forallb clause_ok cond_ok andb].
  cbn [lift fst]. apply serialize_not_401.
Qed.

Lemma wrong_key_iff {A} (r : outcome A * database) ADMIN_KEY key :
  (key ≠ Some (getenv_ADMIN_KEY ADMIN_KEY) → ∃ detail s, r = (Raise (HTTPException 401 detail), s)) →
  (key = Some (getenv_ADMIN_KEY ADMIN_KEY) → is_401 (fst r) = false) →
  is_401 (fst r) = true ↔ key ≠ Some (getenv_ADMIN_KEY ADMIN_KEY).
Proof.
  intros Hwrong Hright. split.
  - intros H401 Hkey. rewrite Hright in H401 by done. done.
  - intros Hkey. destruct (Hwrong Hkey) as (detail & s & ->). done.
Qed.

(** X21: each gated handler answers 401 exactly when the key is not the
    configured one: with the right key none of its errors is a 401. *)
Theorem unauthorized_iff_wrong_key ADMIN_KEY key s :
  (∀ payload stamp,
     is_401 (fst (create_product ADMIN_KEY payload key stamp s)) = true
     ↔ key ≠ Some (getenv_ADMIN_KEY ADMIN_KEY)) ∧
  (∀ product_id payload now,
     is_401 (fst (update_product ADMIN_KEY product_id payload key now s)) = true
     ↔ key ≠ Some (getenv_ADMIN_KEY ADMIN_KEY)) ∧
  (∀ product_id,
     is_401 (fst (delete_product ADMIN_KEY product_id key s)) = true
     ↔ key ≠ Some (getenv_ADMIN_KEY ADMIN_KEY)) ∧
  (∀ status now,
     is_401 (fst (list_orders ADMIN_KEY key status now s)) = true
     ↔ key ≠ Some (getenv_ADMIN_KEY ADMIN_KEY)) ∧
  (∀ order_id,
     is_401 (fst (get_order ADMIN_KEY order_id key s)) = true
     ↔ key ≠ Some (getenv_ADMIN_KEY ADMIN_KEY)) ∧
  (∀ order_id payload now,
     is_401 (fst (update_order ADMIN_KEY order_id payload key now s)) = true
     ↔ key ≠ Some (getenv_ADMIN_KEY ADMIN_KEY)).
Proof.
  split; [|split; [|split; [|split; [|split]]]].
  - intros payload stamp. apply wrong_key_iff.
    + intros Hk. destruct (create_product_gated ADMIN_KEY key Hk payload stamp s) as [d ->].
      by eexists _, _.
    + intros Hk. unfold create_product. rewrite require_admin_pass, bind_lift_Ok by done.
      unfold ProductSchema.init. destruct (ge0 _ _);
        [by rewrite bind_lift_Raise | rewrite bind_lift_Ok].
      apply create_tail_not_401.
  - intros product_id payload now. apply wrong_key_iff.
    + intros Hk.
      destruct (update_product_gated ADMIN_KEY key Hk product_id payload now s) as [d ->].
      by eexists _, _.
    + intros Hk. unfold update_product. rewrite require_admin_pass, bind_lift_Ok by done.
      destruct (bool_decide _); [done|].
      change (is_401 (fst (update_tail "product" product_id (product_updates payload now)
                             (HTTPException 404 "Product not found") s)) = false).
      by apply update_tail_not_401.
  - intros product_id. apply wrong_key_iff.
    + intros Hk. destruct (delete_product_gated ADMIN_KEY key Hk product_id s) as [d ->].
      by eexists _, _.
    + intros Hk. unfold delete_product, to_object_id.
      rewrite require_admin_pass, bind_lift_Ok by done.
      destruct (ObjectId_of_str product_id) as [oid|];
        [rewrite bind_lift_Ok | by rewrite bind_lift_Raise].
      unfold bind, delete_one. cbn [query_ok by_id forallb clause_ok cond_ok andb].
      by destruct (delete_first _ _).
  - intros status now. apply wrong_key_iff.
    + intros Hk. destruct (list_orders_gated ADMIN_KEY key Hk status now s) as [d ->].
      by eexists _, _.
    + intros Hk. unfold list_orders, get_documents.
      rewrite require_admin_pass, bind_lift_Ok by done.
      unfold bind at 1, find. destruct (query_ok _); [|done].
      unfold sort_by_placed_at.
      destruct (mapM (placed_at_key now) _) as [keyed|e] eqn:Hk'.
      * rewrite bind_lift_Ok. cbn [lift fst]. apply mapM_serialize_not_401.
      * rewrite bind_lift_Raise. cbn [fst].
        clear -Hk'. revert e Hk'.
        induction (List.filter _ _) as [|d l IH]; intros e; cbn [mapM]; [done|].
        unfold placed_at_key at 1.
        destruct (d !! "placed_at") as [[]|]; try by intros [= <-].
        -- destruct (mapM _ l) as [k|e']; [done|]. intros [= <-]. by apply IH.
        -- destruct (mapM _ l) as [k|e']; [done|]. intros [= <-]. by apply IH.
  - intros order_id. apply wrong_key_iff.
    + intros Hk. destruct (get_order_gated ADMIN_KEY key Hk order_id s) as [d ->].
      by eexists _, _.
    + intros Hk. unfold get_order, to_object_id.
      rewrite require_admin_pass, bind_lift_Ok by done.
      destruct (ObjectId_of_str order_id) as [oid|];
        [rewrite bind_lift_Ok | by rewrite bind_lift_Raise].
      unfold bind, find_one. cbn [query_ok by_id forallb clause_ok cond_ok andb].
      destruct (falsy _); [done|]. cbn [lift fst]. apply serialize_not_401.
  - intros order_id payload now. apply wrong_key_iff.
    + intros Hk.
      destruct (update_order_gated ADMIN_KEY key Hk order_id payload now s) as [d ->].
      by eexists _, _.
    + intros Hk. unfold update_order. rewrite require_admin_pass, bind_lift_Ok by done.
      change (is_401 (fst (update_tail "order" order_id (order_updates payload now)
                             (HTTPException 404 "Order not found") s)) = false).
      by apply update_tail_not_401.
Qed.

(** ** What order creation returns *)

(** X22: the response to an accepted order whose quantities fit the
    store's eight-byte integers echoes the submitted items, in cart
    order, each with its product_id, title, price and quantity, and the
    customer with [notes] or [null]; the store's identifier is the text
    field [id], and there is no [_id] field. *)
Theorem created_order_fields payload now stamp s :
  OrderCreate.payment_method payload = "COD" →
  OrderCreate.items payload ≠ [] →
  Forall (λ i, int64 (CartItem.quantity i)) (OrderCreate.items payload) →
  db_wf s →
  ∃ out s',
    create_order payload now stamp s = (Ok (Some out), s') ∧
    out !! "items"
    = Some (VList (map (λ i, VDict [("product_id", VStr (CartItem.product_id i));
                                    ("title", VStr (CartItem.title i));
                                    ("price", VFloat (CartItem.price i));
                                    ("quantity", VInt (CartItem.quantity i))])
                       (OrderCreate.items payload))) ∧
    out !! "customer"
    = Some (VDict [("name", VStr (CustomerInfo.name (OrderCreate.customer payload)));
                   ("phone", VStr (CustomerInfo.phone (OrderCreate.customer payload)));
                   ("city", VStr (CustomerInfo.city (OrderCreate.customer payload)));
                   ("address", VStr (CustomerInfo.address (OrderCreate.customer payload)));
                   ("notes", opt_value VStr
                               (CustomerInfo.notes (OrderCreate.customer payload)))]) ∧
    out !! "id" = Some (VStr (oid_str (next_oid s))) ∧
    out !! "_id" = None.
Proof.
  intros Hpm Hitems Hq Hwf.
  set (total := sum_price_quantity (OrderCreate.items payload)).
  assert (Htot : order_total (OrderCreate.items payload) = Ok total).
  { apply sum_lines_bounded. eapply Forall_impl; [exact Hq|].
    intros i. apply int64_converts. }
  set (stored := stored_doc (next_oid s) stamp (order_doc payload total now)).
  assert (Hid : stored !! "_id" = Some (VOid (next_oid s)))
    by (unfold stored, stored_doc; by rewrite lookup_insert_eq).
  destruct (serialize_doc_runs stored (VOid (next_oid s)) (oid_str (next_oid s)))
    as [out Hout]; [done..|].
  eexists out, _. split.
  { rewrite (create_order_accepted _ _ _ _ total) by done. fold stored. by rewrite Hout. }
  pose proof (created_response_lookup _ _ _ _ "items" Hout) as H1.
  pose proof (created_response_lookup _ _ _ _ "customer" Hout) as H2.
  pose proof (created_response_lookup _ _ _ _ "id" Hout) as H6.
  pose proof (created_response_lookup _ _ _ _ "_id" Hout) as H7.
  repeat split; assumption.
Qed.

End Properties.

(** * Examples

    The examples run on the small engine. *)

#[export] Existing Instance small_regex.

Example isoformat_ex :
  isoformat (mk_datetime 2024 1 2 3 4 5 0) = "2024-01-02T03:04:05".
Proof. reflexivity. Qed.

Example isoformat_ex_us :
  isoformat (mk_datetime 2024 11 30 23 59 58 123000) = "2024-11-30T23:59:58.123000".
Proof. reflexivity. Qed.

Example oid_ex : ObjectId_of_str "0000000000000000000000FF" = Some (oid12 255).
Proof. reflexivity. Qed.

Example oid_spaces_ex :
  ObjectId_of_str "00 00 00 00 00 00 00 ff " = Some (mk_oid 8 255)
  ∧ oid_str (mk_oid 8 255) = "00000000000000ff".
Proof. split; reflexivity. Qed.

Example float_int_bound_ex :
  PrimFloat.is_infinity (nearest_float float_int_bound) = true
  ∧ PrimFloat.is_infinity (nearest_float (float_int_bound - 1)) = false
  ∧ float_of_int float_int_bound = None
  ∧ float_of_int (float_int_bound - 1) = Some 0x1.fffffffffffffp+1023%float.
Proof. repeat split; reflexivity. Qed.

Example oid_odd_ex : ObjectId_of_str "0 0000000000000000000000" = None.
Proof. reflexivity. Qed.

Example oid_str_ex : oid_str 255%N = "0000000000000000000000ff".
Proof. reflexivity. Qed.

Lemma create_order_bad_request_witness :
  ∃ detail,
    create_order (OrderCreate.mk [] (CustomerInfo.mk "n" "p" "c" "a" None) "CARD")
      (mk_datetime 2024 1 2 3 4 5 0) (mk_datetime 2024 1 2 3 4 5 0) (mk_db ∅ 0%N)
    = (Raise (HTTPException 400 detail), mk_db ∅ 0%N).
Proof. apply create_order_bad_request. left. simpl. discriminate. Defined.

Lemma admin_gate_witness :
  ∃ detail,
    delete_product None "000000000000000000000000" (Some "letmein") (mk_db ∅ 0%N)
    = (Raise (HTTPException 401 detail), mk_db ∅ 0%N).
Proof.
  assert (wrong : Some "letmein" ≠ Some (getenv_ADMIN_KEY None)) by (simpl; discriminate).
  destruct (admin_gate None (Some "letmein") wrong) as (_ & _ & _ & H & _).
  apply H.
Defined.

Lemma update_product_no_fields_witness :
  update_product None "no-such-id"
    (ProductUpdate.mk None None None None None None None) (Some "admin123")
    (mk_datetime 2024 1 2 3 4 5 0) (mk_db ∅ 0%N)
  = (Ok (Some (dict [("updated", VBool false)])), mk_db ∅ 0%N).
Proof. by apply update_product_no_fields. Defined.




Lemma update_product_partial_witness :
  ∃ new out s',
    update_product None "000000000000000000000000"
      (ProductUpdate.mk None None None None None None (Some false))
      (Some "admin123") example_later example_db
    = (Ok (Some out), s') ∧
    find_one "product" (by_id 0%N) s' = (Ok (Some new), s') ∧
    new !! "in_stock" = Some (VBool false) ∧
    new !! "title" = Some (VStr "Soap") ∧
    new !! "price" = Some (VFloat 1000%float) ∧
    new !! "category" = Some (VStr "home") ∧
    new !! "updated_at" = Some (VDate example_later).
Proof.
  destruct (update_product_partial None "000000000000000000000000"
              (ProductUpdate.mk None None None None None None (Some false))
              (Some "admin123") example_later example_db 0%N example_product
              eq_refl eq_refl eq_refl ltac:(discriminate))
    as (new & out & l1 & l2 & _ & Hrun & Hfind & _ & Hu & Ht & _ & Hp & _ & Hc & _ & Hi & _).
  exists new, out, (set_coll example_db "product" (l1 ++ new :: l2)%list).
  repeat split; assumption.
Defined.

Lemma update_order_status_witness :
  ∃ new out s',
    patch_api_orders None "000000000000000000000000"
      (OrderStatusUpdate.Body.mk (Given "confirmed") Absent)
      (Some "admin123") example_later example_orders_db
    = (Ok (Some out), s') ∧
    find_one "order" (by_id 0%N) s' = (Ok (Some new), s') ∧
    new !! "status" = Some (VStr "confirmed") ∧
    new !! "updated_at" = Some (VDate example_later) ∧
    new !! "total" = Some (VFloat 2500%float).
Proof.
  pose proof (update_order_status None "000000000000000000000000"
                (OrderStatusUpdate.Body.mk (Given "confirmed") Absent)
                (Some "admin123") example_later example_orders_db 0%N
                eq_refl eq_refl) as H.
  cbn [OrderStatusUpdate.Body.status OrderStatusUpdate.Body.tracking_note] in H.
  change (List.find (matches (by_id 0%N)) (coll example_orders_db "order"))
    with (Some example_order_doc) in H.
  destruct H as (new & out & l1 & l2 & _ & Hrun & Hfind & _ & Hu & Hs & _ & Hk).
  exists new, out, (set_coll example_orders_db "order" (l1 ++ new :: l2)%list).
  split; [done|]. split; [done|]. split; [done|]. split; [done|].
  rewrite Hk; [done|].
  rewrite !not_elem_of_cons. repeat (split; [discriminate|]). apply not_elem_of_nil.
Defined.

(** C7, as stated, fails: a body that gives only [tracking_note] is
    refused by validation, because [status] is a required field. *)
Lemma tracking_note_alone_refused :
  patch_api_orders None "000000000000000000000000"
    (OrderStatusUpdate.Body.mk Absent (Given "left at the door"))
    (Some "admin123") example_later example_orders_db
  = (Raise (RequestValidationError [("status", "missing")]), example_orders_db).
Proof. reflexivity. Qed.

Lemma example_id_ok : to_object_id "000000000000000000000000" = Ok 0%N.
Proof. reflexivity. Qed.

Lemma example_product_found :
  List.find (matches (by_id 0%N)) (coll example_db "product") = Some example_product.
Proof. reflexivity. Qed.

Lemma null_field_is_absent_witness :
  ∃ new,
    List.find (matches (by_id 0%N))
      (coll (snd (patch_api_products None "000000000000000000000000" example_null_body
                    (Some "admin123") example_later example_db)) "product")
    = Some new ∧
    new !! "description" = example_product !! "description" ∧
    new !! "image_url" = example_product !! "image_url" ∧
    new !! "title" = example_product !! "title".
Proof.
  destruct (null_field_is_absent None (Some "admin123") example_later example_db)
    as (_ & _ & _ & H & _).
  destruct (patch_api_products None "000000000000000000000000" example_null_body
              (Some "admin123") example_later example_db) as [[r|e] s'] eqn:Hrun.
  2: { apply (f_equal (λ p, is_Ok (fst p))) in Hrun. vm_compute in Hrun. discriminate. }
  destruct (H "000000000000000000000000" _ r s' 0%N example_product Hrun example_id_ok example_product_found)
    as (new & Hnew & Hkeep & _).
  exists new. split; [exact Hnew|].
  change (product_given_fields example_null_body) with ["in_stock"] in Hkeep.
  split; [|split].
  - apply (Hkeep "description").
    + discriminate.
    + solve_not_in.
  - apply (Hkeep "image_url"); [discriminate | solve_not_in].
  - apply (Hkeep "title"); [discriminate | solve_not_in].
Defined.

Lemma serialization_contract_witness :
  ∃ out,
    serialize_doc (Some example_order_doc) = Ok (Some out) ∧
    out !! "id" = Some (VStr "000000000000000000000000") ∧
    out !! "_id" = None ∧
    out !! "placed_at" = Some (VStr "2024-01-02T03:04:05") ∧
    out !! "tracking_note" = None.
Proof.
  destruct serialization_contract as [H _].
  destruct (H example_order_doc (VOid 0%N) "000000000000000000000000" eq_refl eq_refl)
    as (out & Hout & (_ & Hno & Hts & Habs & _) & Hid).
  exists out. split; [done|]. split; [done|]. split; [done|]. split.
  - apply (Hts "placed_at" example_time); [|done].
    unfold timestamp_keys. rewrite !elem_of_cons. tauto.
  - by apply Habs.
Defined.

Lemma example_products : coll example_db "product" = [example_product].
Proof. reflexivity. Qed.

Lemma example_product_id : example_product !! "_id" = Some (VOid 0%N).
Proof. reflexivity. Qed.

Lemma example_product_in_stock : example_product !! "in_stock" = Some (VBool true).
Proof. reflexivity. Qed.

Lemma list_products_filtering_witness :
  ∃ docs,
    list_products (Some "so") (Some "home") example_db
    = (mapM (λ d, serialize_doc (Some d)) docs, example_db) ∧
    example_product ∈ docs.
Proof.
  destruct (list_products_filtering (Some "so") (Some "home") example_db) as [_ Hl].
  destruct (Hl (re_search true [RChar "s"; RChar "o"]) (λ _, eq_refl))
    as (docs & Hrun & Hmem).
  exists docs. split; [exact Hrun|]. apply Hmem.
  split; [rewrite example_products; apply list_elem_of_singleton; reflexivity|].
  split; [rewrite example_product_in_stock; discriminate|].
  split; [|intros _; reflexivity].
  intros _. exists "title", "Soap". split; [|split; reflexivity].
  unfold text_fields. apply elem_of_cons. by left.
Defined.

(** C6, as stated, fails: the query [.] is no substring of the title
    "Soap" or of the category "home", and the description is [null], yet
    the product is listed, because [.] is read as a regular expression. *)
Lemma dot_query_lists_without_substring :
  (∃ out,
     list_products (Some ".") None example_db = (Ok [Some out], example_db) ∧
     out !! "title" = Some (VStr "Soap") ∧
     out !! "description" = Some VNone ∧
     out !! "category" = Some (VStr "home")) ∧
  ci_substring "." "Soap" = false ∧
  ci_substring "." "home" = false.
Proof.
  split; [|split; reflexivity].
  destruct (serialize_doc_runs example_product (VOid 0%N) (oid_str 0%N)
              example_product_id eq_refl) as [out Hout].
  exists out. split.
  - rewrite list_products_run by reflexivity. rewrite example_products.
    cbn [List.filter].
    replace (matches (list_products_filter (Some ".") None) example_product)
      with true by (vm_compute; reflexivity).
    cbn [mapM]. by rewrite Hout.
  - apply serialize_doc_Some in Hout as (i & t & Hi & Hstr & ->).
    rewrite !(serialize_doc_lookup example_product i t) by done.
    settle_keys. repeat split; reflexivity.
Qed.

Lemma example_untitled_valid :
  ProductCreate.validate example_untitled_body = Ok example_untitled.
Proof. reflexivity. Qed.

Lemma product_title_required_witness :
  ∃ stored out,
    post_api_products None (with_title (Given "Soap") example_untitled_body)
      (Some "admin123") example_time (mk_db ∅ 0%N)
    = (Ok (Some out),
       mk_db (<["product" := (coll (mk_db ∅ 0%N) "product" ++ [stored])%list]> ∅) 1%N) ∧
    stored !! "title" = Some (VStr "Soap") ∧
    out !! "title" = Some (VStr "Soap").
Proof.
  destruct (product_title_required None (Some "admin123") example_time (mk_db ∅ 0%N))
    as (_ & _ & H).
  apply (H (with_title (Given "Soap") example_untitled_body)
           (ProductCreate.mk "Soap" None 1000%float "SYP" "home" None true)
           eq_refl eq_refl db_wf_empty).
Defined.

(** C8, as stated, fails: a creation payload whose title is the empty
    text passes validation, and with a valid key the product is stored
    with that empty title. *)
Lemma empty_title_is_stored :
  ∃ stored out,
    post_api_products None example_untitled_body (Some "admin123") example_time
      (mk_db ∅ 0%N)
    = (Ok (Some out),
       mk_db (<["product" := [stored]]> ∅) 1%N) ∧
    stored !! "title" = Some (VStr "") ∧
    out !! "title" = Some (VStr "").
Proof.
  set (stored := stored_doc 0%N example_time (product_doc example_untitled)).
  destruct (serialize_doc_runs stored (VOid 0%N) (oid_str 0%N)) as [out Hout];
    [apply product_doc_id | done |].
  exists stored, out. split; [|split].
  - unfold post_api_products. rewrite example_untitled_valid, bind_lift_Ok.
    rewrite (create_product_accepted None example_untitled (Some "admin123") example_time
               (mk_db ∅ 0%N) eq_refl eq_refl db_wf_empty).
    change (next_oid (mk_db ∅ 0%N)) with 0%N. fold stored.
    rewrite Hout. reflexivity.
  - apply product_doc_title.
  - apply serialize_doc_Some in Hout as (i & t & Hi & Hstr & ->).
    rewrite (serialize_doc_lookup stored i t) by done.
    settle_keys. apply product_doc_title.
Qed.

Lemma to_object_id_of_str_witness :
  to_object_id (oid_str 1311768467463790320%N) = Ok 1311768467463790320%N.
Proof. apply to_object_id_of_str. reflexivity. Defined.

Lemma malformed_id_is_bad_request_witness :
  get_product "00000000000000000000000g" example_db
  = (Raise (HTTPException 400 "Invalid ID format"), example_db).
Proof.
  apply (malformed_id_is_bad_request None (Some "admin123")
           "00000000000000000000000g" example_db); reflexivity.
Defined.

(** An identifier text with white space is read as a shorter identifier,
    which no stored document carries. *)
Example short_id_not_found :
  to_object_id "00 00 00 00 00 00 00 00 " = Ok (mk_oid 8 0)
  ∧ get_product "00 00 00 00 00 00 00 00 " example_db
    = (Raise (HTTPException 404 "Product not found"), example_db).
Proof.
  split; [reflexivity|].
  rewrite (get_product_unfold _ (mk_oid 8 0)) by reflexivity.
  rewrite example_products. reflexivity.
Qed.

Lemma example_unknown_id : unknown_id example_db "product" 7%N.
Proof.
  intros d. rewrite example_products. intros ->%list_elem_of_singleton.
  rewrite example_product_id. discriminate.
Qed.

Lemma unknown_id_is_not_found_witness :
  get_product "000000000000000000000007" example_db
  = (Raise (HTTPException 404 "Product not found"), example_db).
Proof.
  destruct (unknown_id_is_not_found None (Some "admin123")
              "000000000000000000000007" 7%N example_db eq_refl eq_refl) as [H _].
  apply (H example_unknown_id).
Defined.

Lemma handlers_keep_store_invariant_witness :
  db_ok (snd (create_order example_order example_time example_time (mk_db ∅ 0%N))).
Proof.
  destruct (handlers_keep_store_invariant None None (mk_db ∅ 0%N) db_ok_empty)
    as (_ & _ & H & _).
  apply H. reflexivity.
Defined.

Lemma create_then_get_product_witness :
  ∃ out s',
    create_product None example_untitled (Some "admin123") example_time (mk_db ∅ 0%N)
    = (Ok (Some out), s') ∧
    get_product (oid_str 0%N) s' = (Ok (Some out), s').
Proof.
  destruct (create_then_get_product None example_untitled (Some "admin123")
              example_time (mk_db ∅ 0%N) eq_refl eq_refl db_wf_empty)
    as (out & s' & Hc & _ & _ & Hg).
  exists out, s'. split; [exact Hc | exact Hg].
Defined.

Lemma example_order_total : order_total (OrderCreate.items example_order) = Ok 2500%float.
Proof. reflexivity. Qed.

Lemma create_then_get_order_witness :
  ∃ out s',
    create_order example_order example_time example_time (mk_db ∅ 0%N)
    = (Ok (Some out), s') ∧
    get_order None (oid_str 0%N) (Some "admin123") s' = (Ok (Some out), s').
Proof.
  destruct (create_then_get_order None example_order (Some "admin123") example_time
              example_time (mk_db ∅ 0%N) 2500%float eq_refl ltac:(discriminate)
              example_order_total eq_refl db_wf_empty)
    as (out & s' & Hc & _ & _ & Hg).
  exists out, s'. split; [exact Hc | exact Hg].
Defined.

Lemma update_then_get_product_witness :
  ∃ out s',
    update_product None "000000000000000000000000"
      (ProductUpdate.mk None None (Some 1200%float) None None None None)
      (Some "admin123") example_later example_db = (Ok (Some out), s') ∧
    get_product "000000000000000000000000" s' = (Ok (Some out), s').
Proof.
  apply (update_then_get_product None "000000000000000000000000" _ (Some "admin123")
           example_later example_db 0%N example_product eq_refl example_id_ok).
  - apply find_one_by_id, example_product_found.
  - discriminate.
Defined.

Lemma example_db_ok : db_ok example_db.
Proof.
  split; [split; [done|]|].
  - intros name d. unfold coll, example_db. cbn [collections next_oid].
    destruct (decide (name = "product")) as [->|Hne].
    + rewrite lookup_singleton_eq. cbn [default].
      intros ->%list_elem_of_singleton. exists 0%N. split; [apply example_product_id|done].
    + rewrite lookup_singleton_ne by done. by intros ?%elem_of_nil.
  - intros name. unfold coll, example_db. cbn [collections].
    destruct (decide (name = "product")) as [->|Hne].
    + rewrite lookup_singleton_eq. cbn. apply NoDup_singleton.
    + rewrite lookup_singleton_ne by done. constructor.
Qed.

Lemma delete_then_get_product_witness :
  ∃ l1 l2,
    coll example_db "product" = (l1 ++ example_product :: l2)%list ∧
    delete_product None "000000000000000000000000" (Some "admin123") example_db
    = (Ok (Some (dict [("deleted", VBool true)])),
       set_coll example_db "product" (l1 ++ l2)%list) ∧
    get_product "000000000000000000000000" (set_coll example_db "product" (l1 ++ l2)%list)
    = (Raise (HTTPException 404 "Product not found"),
       set_coll example_db "product" (l1 ++ l2)%list).
Proof.
  apply (delete_then_get_product None "000000000000000000000000" (Some "admin123")
           example_db 0%N example_product example_db_ok eq_refl example_id_ok).
  apply find_one_by_id, example_product_found.
Defined.

Lemma example_two_orders :
  coll example_two_orders_db "order" = [example_order_doc; example_second_order_doc].
Proof. reflexivity. Qed.

Lemma example_two_orders_dated :
  Forall placed_at_dated (coll example_two_orders_db "order").
Proof.
  rewrite example_two_orders.
  constructor; [right; eexists; reflexivity|].
  constructor; [right; eexists; reflexivity|]. constructor.
Qed.

Lemma list_orders_latest_first_witness :
  ∃ docs,
    list_orders None (Some "admin123") None example_later example_two_orders_db
    = (mapM (λ d, serialize_doc (Some d)) docs, example_two_orders_db) ∧
    docs ≡ₚ List.filter (status_selected None) (coll example_two_orders_db "order") ∧
    descending (map (sort_key example_later) docs) = true.
Proof.
  apply (list_orders_latest_first None (Some "admin123") None example_later
           example_two_orders_db eq_refl example_two_orders_dated).
Defined.

Lemma created_product_listing_witness :
  ∃ created s',
    create_product None example_untitled (Some "admin123") example_time (mk_db ∅ 0%N)
    = (Ok (Some created), s') ∧
    ∃ outs, list_products None None s' = (Ok outs, s') ∧ Some created ∈ outs.
Proof.
  destruct (created_product_listing None example_untitled (Some "admin123")
              example_time (mk_db ∅ 0%N) eq_refl eq_refl db_wf_empty)
    as (created & s' & Hc & _ & _ & Hin).
  exists created, s'. split; [exact Hc | exact (Hin eq_refl)].
Defined.

Lemma example_other_id_ok : to_object_id "000000000000000000000007" = Ok 7%N.
Proof. reflexivity. Qed.

Lemma other_products_untouched_witness :
  fst (get_product "000000000000000000000000"
         (snd (delete_product None "000000000000000000000007" (Some "admin123")
                 example_db)))
  = fst (get_product "000000000000000000000000" example_db).
Proof.
  destruct (other_products_untouched None (Some "admin123")
              "000000000000000000000007" 7%N "000000000000000000000000" 0%N example_db
              example_other_id_ok example_id_ok ltac:(discriminate)) as (_ & H & _).
  exact H.
Defined.

Lemma price_below_zero_never_stored_witness :
  ∃ errors,
    post_api_products None (with_price (Given (-1)%float) example_untitled_body)
      (Some "admin123") example_time example_db
    = (Raise (RequestValidationError errors), example_db) ∧
    ("price", "greater_than_equal") ∈ errors.
Proof.
  destruct (price_below_zero_never_stored None (Some "admin123") example_time example_db
              (-1)%float eq_refl) as [H _].
  apply H. reflexivity.
Defined.

Lemma example_soap_valid : ProductCreate.validate example_soap_body = Ok example_soap.
Proof. reflexivity. Qed.

Lemma created_product_fields_witness :
  ∃ out s',
    post_api_products None example_soap_body (Some "admin123") example_time (mk_db ∅ 0%N)
    = (Ok (Some out), s') ∧
    out !! "currency" = Some (VStr "SYP") ∧
    out !! "in_stock" = Some (VBool true) ∧
    out !! "image_url" = Some VNone ∧
    out !! "created_at" = Some (VStr (isoformat example_time)).
Proof.
  destruct (created_product_fields None example_soap_body example_soap (Some "admin123")
              example_time (mk_db ∅ 0%N) example_soap_valid eq_refl db_wf_empty)
    as (out & s' & Hrun & _ & _ & _ & _ & _ & _ & _ & Hc & Hi & Hu & Hca & _).
  exists out, s'. split; [exact Hrun|]. split; [exact Hc|]. split; [exact Hi|].
  split; [exact Hu | exact Hca].
Defined.

Lemma serialize_doc_twice_witness :
  ∃ out,
    serialize_doc (Some example_product) = Ok (Some out) ∧
    serialize_doc (Some out) = Raise (KeyError "_id").
Proof.
  destruct (serialize_doc_runs example_product (VOid 0%N) (oid_str 0%N)
              example_product_id eq_refl) as [out Hout].
  exists out. split; [exact Hout|]. exact (serialize_doc_twice example_product out Hout).
Defined.

Lemma to_object_id_reads_hex_witness :
  (oid_len (mk_oid 8 44031) ≤ 12)%nat ∧
  oid_str (mk_oid 8 44031) = lower (without_spaces "00 00 00 00 00 00 AB ff ").
Proof.
  destruct (to_object_id_reads_hex "00 00 00 00 00 00 AB ff " (mk_oid 8 44031) eq_refl)
    as (_ & Hlen & _ & _ & Hstr).
  split; [exact Hlen | exact Hstr].
Defined.

Lemma order_quantity_at_least_one_witness :
  ∃ errors,
    post_api_orders example_zero_order_body example_time example_time example_db
    = (Raise (RequestValidationError errors), example_db) ∧
    ("items.quantity", "greater_than_equal") ∈ errors.
Proof.
  destruct (order_quantity_at_least_one example_time example_time example_db) as [H _].
  apply (H example_zero_order_body [example_item_body; example_zero_item_body]
           example_zero_item_body 0%Z eq_refl).
  - apply elem_of_cons. right. apply elem_of_cons. by left.
  - reflexivity.
  - reflexivity.
Defined.

Lemma order_payment_method_default_witness :
  post_api_orders
    (OrderCreateBody.mk (Given [example_item_body]) (Given example_customer_body)
       (Given "CARD"))
    example_time example_time example_db
  = (Raise (HTTPException 400 "Only COD is supported"), example_db).
Proof.
  destruct (order_payment_method_default example_time example_time example_db)
    as (_ & H & _).
  apply (H _ (OrderCreate.mk [CartItem.mk "p1" "Soap" 1000%float 2]
                (CustomerInfo.mk "Rana" "0999" "Homs" "Main street 1" None) "CARD")).
  - reflexivity.
  - discriminate.
Defined.

Lemma example_order_found :
  List.find (matches (by_id 0%N)) (coll example_orders_db "order") = Some example_order_doc.
Proof. reflexivity. Qed.

Lemma update_then_get_order_witness :
  ∃ out s',
    update_order None "000000000000000000000000"
      (OrderStatusUpdate.mk "delivered" (Some "left at the door"))
      (Some "admin123") example_later example_orders_db = (Ok (Some out), s') ∧
    get_order None "000000000000000000000000" (Some "admin123") s' = (Ok (Some out), s').
Proof.
  apply (update_then_get_order None "000000000000000000000000" _ (Some "admin123")
           example_later example_orders_db 0%N example_order_doc eq_refl example_id_ok).
  apply find_one_by_id, example_order_found.
Defined.

Lemma example_quantities_int64 :
  Forall (λ i, int64 (CartItem.quantity i)) (OrderCreate.items example_order).
Proof. repeat constructor; by vm_compute. Qed.

Lemma created_order_fields_witness :
  ∃ out s',
    create_order example_order example_time example_later (mk_db ∅ 0%N)
    = (Ok (Some out), s') ∧
    out !! "customer"
    = Some (VDict [("name", VStr "Rana"); ("phone", VStr "0999"); ("city", VStr "Homs");
                   ("address", VStr "Main street 1"); ("notes", VNone)]) ∧
    out !! "id" = Some (VStr "000000000000000000000000").
Proof.
  destruct (created_order_fields example_order example_time example_later (mk_db ∅ 0%N)
              eq_refl ltac:(discriminate) example_quantities_int64 db_wf_empty)
    as (out & s' & Hrun & _ & Hc & Hi & _).
  exists out, s'. split; [exact Hrun|]. split; [exact Hc | exact Hi].
Defined.
